(** * house-price-predictor: test orchestration and result reporting

    A shallow embedding of the repository's test tooling:
    - [ElementTree]: the part of [xml.etree.ElementTree] the tools use;
    - [Analyzer]: [test_analyzer.py] ([TestResultsAnalyzer]);
    - [QuickStatus]: [quick_status.py] ([quick_check]);
    - [Requests]: the health endpoint as [requests.get] shows it;
    - [Conftest]: the [docker_container] fixture of [tests/conftest.py];
    - [Runner]: [run_tests.py] ([TestRunner] and [main]).

    [Examples] holds concrete inputs, [Spec] and [RunSpec] the vocabulary
    of the statements; the properties follow the definitions.

    Integers are Python integers ([Z]).  A float that [float(str)]
    returns is a [Builtins.float]: a finite value, modelled by the
    rational it denotes, an infinity or NaN; quotients of integers,
    durations and clock readings, which are finite, are rationals ([Q]).
    The rounding of the results of float arithmetic, and with it the
    overflow of a sum or a product to an infinity, is outside the model:
    sums, products and quotients of finite values are exact.  A string is
    held as its UTF-8 encoding; slices and lengths count code points.  A
    Python exception is a failure value of the enclosing function
    ([None], or [inl] of the exception). *)

From Stdlib Require Import String Ascii ZArith QArith List Bool Lia.
From Stdlib Require Import Permutation Sorted.
From ExtLib Require Import Structures.Monad Structures.MonadState.
From ExtLib Require Import Data.Monads.StateMonad Data.Monads.OptionMonad.
From ExtLib Require Import Data.Monads.EitherMonad.
Import ListNotations.
Import MonadNotation.
Local Open Scope monad_scope.
Local Open Scope string_scope.
Local Open Scope Z_scope.
Local Open Scope list_scope.
Set Warnings "-register-all".

(* ===================================================================== *)
(** ** xml.etree.ElementTree *)
(* ===================================================================== *)

Module ElementTree.

(** An element: tag, attribute dictionary, text and sub-elements in
    document order. *)
Inductive Element : Type :=
  mkElement {
    tag : string;
    attrib : list (string * string);
    text : option string;
    children : list Element
  }.

(** [elem.get(key)]: [None] when the attribute is absent. *)
Definition get (e : Element) (key : string) : option string :=
  option_map snd (List.find (fun kv => String.eqb (fst kv) key) (attrib e)).

(** [elem.find(tag)] with a plain tag: the first direct child of that tag. *)
Definition find (e : Element) (t : string) : option Element :=
  List.find (fun c => String.eqb (tag c) t) (children e).

(** All proper descendants in document order (what [elem.iter()] yields
    after [elem] itself). *)
Fixpoint descendants (e : Element) : list Element :=
  match e with
  | mkElement _ _ _ cs =>
      (fix go (l : list Element) : list Element :=
         match l with
         | [] => []
         | c :: l' => c :: descendants c ++ go l'
         end) cs
  end.

(** [elem.findall('.//' + tag)]. *)
Definition findall_descendants (e : Element) (t : string) : list Element :=
  List.filter (fun c => String.eqb (tag c) t) (descendants e).

(** [elem.find('.//' + tag)]: the first match of [findall]. *)
Definition find_descendant (e : Element) (t : string) : option Element :=
  List.find (fun c => String.eqb (tag c) t) (descendants e).

(** [bool(elem)]: an element without sub-elements is falsy. *)
Definition truth (e : Element) : bool :=
  match children e with [] => false | _ :: _ => true end.

(** [a or b] for [a] an [Optional[Element]]. *)
Definition or_else (a : option Element) (b : Element) : Element :=
  match a with
  | Some x => if truth x then x else b
  | None => b
  end.

End ElementTree.

(* ===================================================================== *)
(** ** Builtins *)
(* ===================================================================== *)

Module Builtins.

(** Exceptions the modelled code can raise. *)
Inductive exn : Type := ZeroDivisionError | TypeError | OverflowError.

(** A quotient of integers is rounded to the nearest float; from
    [2^1024 - 2^970] on, the midpoint between the largest float and
    [2^1024], its magnitude rounds out of the range of floats. *)
Definition float_limit : Z := 2 ^ 1024 - 2 ^ 970.

(** The quotient [a / b] is too large for a float. *)
Definition overflows (a b : Z) : bool := float_limit * Z.abs b <=? Z.abs a.
#[global] Arguments overflows : simpl never.

(** [a / b] on integers: true division.  It raises [ZeroDivisionError] on
    a zero divisor and [OverflowError] when the quotient is too large for
    a float ("integer division result too large for a float"). *)
Definition truediv (a b : Z) : exn + Q :=
  if b =? 0 then inl ZeroDivisionError
  else if overflows a b then inl OverflowError
  else inr (inject_Z a / inject_Z b)%Q.

(** A Python float as [float(str)] returns it: a finite value, modelled by
    the rational it denotes, an infinity, or NaN. *)
Inductive float : Type :=
  | Finite (q : Q)
  | Infinity (negative : bool)
  | NaN.

(** [a < b] on floats: false as soon as one side is NaN. *)
Definition flt (a b : float) : bool :=
  match a, b with
  | NaN, _ => false
  | _, NaN => false
  | Finite x, Finite y => negb (Qle_bool y x)
  | Finite _, Infinity negative => negb negative
  | Infinity negative, Finite _ => negative
  | Infinity n1, Infinity n2 => n1 && negb n2
  end.

(** [a == b] on floats: NaN equals nothing. *)
Definition feq (a b : float) : bool :=
  match a, b with
  | Finite x, Finite y => Qeq_bool x y
  | Infinity n1, Infinity n2 => Bool.eqb n1 n2
  | _, _ => false
  end.

(** [a + b] on floats. *)
Definition fadd (a b : float) : float :=
  match a, b with
  | NaN, _ => NaN
  | _, NaN => NaN
  | Finite x, Finite y => Finite (x + y)
  | Infinity n, Finite _ => Infinity n
  | Finite _, Infinity n => Infinity n
  | Infinity n1, Infinity n2 => if Bool.eqb n1 n2 then Infinity n1 else NaN
  end.

(** [a / n] for a float [a] and the length [n] of a list, an integer that
    always converts to a float: only a zero divisor raises. *)
Definition truediv_float (a : float) (n : Z) : exn + float :=
  if n =? 0 then inl ZeroDivisionError
  else inr match a with
           | Finite x => Finite (x / inject_Z n)
           | Infinity negative => Infinity (xorb negative (n <? 0))
           | NaN => NaN
           end.

(** A byte that continues the UTF-8 encoding of a code point
    ([10xxxxxx]). *)
Definition is_continuation (c : ascii) : bool :=
  let n := nat_of_ascii c in (128 <=? n)%nat && (n <? 192)%nat.

(** [len(s)]: the number of code points of [s]. *)
Fixpoint len (s : string) : nat :=
  match s with
  | EmptyString => O
  | String c s' => if is_continuation c then len s' else S (len s')
  end.

(** [s[:n]]: the first [n] code points of [s], each with all its bytes. *)
Fixpoint slice_to (n : nat) (s : string) : string :=
  match s with
  | EmptyString => EmptyString
  | String c s' =>
      if is_continuation c then String c (slice_to n s')
      else match n with
           | O => EmptyString
           | S n' => String c (slice_to n' s')
           end
  end.

(** [s[:n]] on an optional string: slicing [None] raises. *)
Definition prefix (n : nat) (s : option string) : exn + string :=
  match s with
  | Some t => inr (slice_to n t)
  | None => inl TypeError
  end.

(** The computation does not end in a division by zero. *)
Definition no_zero_division {A} (r : exn + A) : Prop :=
  r <> inl ZeroDivisionError.

(** [sum(xs)] over integers and over floats; the integer 0 the sum starts
    from adds like the float 0.0. *)
Definition sumZ (xs : list Z) : Z := fold_left Z.add xs 0.
Definition fsum (xs : list float) : float := fold_left fadd xs (Finite 0).

(** [sum(xs)] over durations, which are finite. *)
Definition sumQ (xs : list Q) : Q := fold_left Qplus xs 0%Q.

(** Stable ascending sort by key.  Like [list.sort] it compares keys with
    [<] only: the new element, which comes from the left of the sorted
    tail, moves past the elements whose key is below its own and stops in
    front of the first that is not. *)
Fixpoint insert_by {A} (key : A -> float) (x : A) (l : list A) : list A :=
  match l with
  | [] => [x]
  | y :: l' => if flt (key y) (key x) then y :: insert_by key x l'
               else x :: y :: l'
  end.

Fixpoint sort_by {A} (key : A -> float) (l : list A) : list A :=
  match l with
  | [] => []
  | x :: l' => insert_by key x (sort_by key l')
  end.

(** [sorted(l, key=key, reverse=reverse)].  As in CPython, a reversed sort
    reverses the list, sorts it stably in ascending order and reverses the
    result, which keeps equal keys in their original order.  The result is
    that of [list.sort] whenever [<] orders the keys totally (the stable
    sorted arrangement is then unique), and whenever no element of the
    list to sort is below its predecessor: [list.sort] finds one run and
    leaves the list as it is, and so does the insertion.  Both cover the
    uses below; on other lists with NaN keys the arrangement [list.sort]
    reaches depends on its merge strategy. *)
Definition sorted {A} (l : list A) (key : A -> float) (reverse : bool) : list A :=
  if reverse then rev (sort_by key (rev l)) else sort_by key l.

(** An instance of [int(str)] and [float(str)] on plain decimal literals
    (optional minus sign, digits, optional fraction) and, for floats, on
    the literals nan, inf and -inf, used to run the model on concrete
    files. *)
Definition digit_of (c : ascii) : option Z :=
  let n := Z.of_nat (nat_of_ascii c) in
  if (48 <=? n) && (n <=? 57) then Some (n - 48) else None.

Fixpoint digits_from (s : string) (acc : Z) : option Z :=
  match s with
  | EmptyString => Some acc
  | String c s' =>
      match digit_of c with
      | Some d => digits_from s' (10 * acc + d)
      | None => None
      end
  end.

Definition natural (s : string) : option Z :=
  match s with
  | EmptyString => None
  | _ => digits_from s 0
  end.

Definition dec_int (s : string) : option Z :=
  match s with
  | String "-"%char s' => option_map Z.opp (natural s')
  | _ => natural s
  end.

Fixpoint split_dot (s : string) : string * option string :=
  match s with
  | EmptyString => (EmptyString, None)
  | String "."%char s' => (EmptyString, Some s')
  | String c s' => let (a, b) := split_dot s' in (String c a, b)
  end.

Definition dec_unsigned (s : string) : option Q :=
  match split_dot s with
  | (i, None) => option_map inject_Z (natural i)
  | (i, Some f) =>
      match natural i, digits_from f 0 with
      | Some a, Some b =>
          Some (inject_Z a + Qmake b (Pos.pow 10 (Pos.of_nat (String.length f))))%Q
      | _, _ => None
      end
  end.

Definition dec_float (s : string) : option float :=
  if String.eqb s "nan" then Some NaN
  else if String.eqb s "inf" then Some (Infinity false)
  else if String.eqb s "-inf" then Some (Infinity true)
  else match s with
       | String "-"%char s' => option_map (fun q => Finite (- q)) (dec_unsigned s')
       | _ => option_map Finite (dec_unsigned s)
       end.

End Builtins.

(* ===================================================================== *)
(** ** test_analyzer.py *)
(* ===================================================================== *)

Module Analyzer.
Import ElementTree Builtins.

(** The ['status'] of a case dictionary. *)
Inductive status : Type := passed | failed | error | skipped.

Definition status_eqb (a b : status) : bool :=
  match a, b with
  | passed, passed | failed, failed | error, error | skipped, skipped => true
  | _, _ => false
  end.

(** A case dictionary.  The keys ['failure'], ['error'] and ['skipped'] are
    optional; when present they hold the marker's [.text], which may be
    [None].  ['suite'] is added by [generate_summary_report]. *)
Record case_data : Type := mkCase {
  c_classname : string;
  c_name : string;
  c_time : float;
  c_status : status;
  c_failure : option (option string);
  c_error : option (option string);
  c_skipped : option (option string);
  c_suite : option string
}.

(** A populated suite dictionary. *)
Record suite_data : Type := mkSuite {
  s_name : string;
  s_tests : Z;
  s_failures : Z;
  s_errors : Z;
  s_skipped : Z;
  s_time : float;
  s_timestamp : string;
  s_hostname : string;
  s_testcases : list case_data
}.

(** What [parse_junit_xml] returns: a populated dictionary, or the empty
    dictionary [{}] ([None]) when anything raised. *)
Definition suite_dict : Type := option suite_data.

(** The [results] mapping, in insertion order. *)
Definition results_map : Type := list (string * suite_dict).

Fixpoint map_opt {A B} (f : A -> option B) (l : list A) : option (list B) :=
  match l with
  | [] => Some []
  | x :: l' =>
      y <- f x ;;
      ys <- map_opt f l' ;;
      ret (y :: ys)
  end.

Section Parsing.

(** [int(s)] and [float(s)] on strings; [None] stands for [ValueError]. *)
Variable int_of_str : string -> option Z.
Variable float_of_str : string -> option float.

(** [int(elem.get(key, 0))]: the default is already the integer 0. *)
Definition int_attr (e : Element) (key : string) : option Z :=
  match get e key with
  | Some s => int_of_str s
  | None => Some 0
  end.

(** [float(elem.get(key, 0))]. *)
Definition float_attr (e : Element) (key : string) : option float :=
  match get e key with
  | Some s => float_of_str s
  | None => Some (Finite 0)
  end.

(** [elem.get(key, default)] for a string default. *)
Definition str_attr (e : Element) (key default : string) : string :=
  match get e key with
  | Some s => s
  | None => default
  end.

(** The body of the loop over test cases (lines 59-77). *)
Definition parse_testcase (tc : Element) : option case_data :=
  t <- float_attr tc "time" ;;
  let classname := str_attr tc "classname" "" in
  let name := str_attr tc "name" "" in
  ret (match find tc "failure" with
       | Some f => mkCase classname name t failed (Some (text f)) None None None
       | None =>
           match find tc "error" with
           | Some e => mkCase classname name t error None (Some (text e)) None None
           | None =>
               match find tc "skipped" with
               | Some k =>
                   mkCase classname name t skipped None None (Some (text k)) None
               | None => mkCase classname name t passed None None None None
               end
           end
       end).

(** The element the suite attributes are read from (lines 41-43). *)
Definition select_testsuite (root : Element) : Element :=
  match find_descendant root "testsuite" with
  | Some ts => ts
  | None => root
  end.

(** [parse_junit_xml] on a document already read by [ET.parse]. *)
Definition parse_junit_xml (root : Element) : suite_dict :=
  let testsuite := select_testsuite root in
  tests <- int_attr testsuite "tests" ;;
  failures <- int_attr testsuite "failures" ;;
  errors <- int_attr testsuite "errors" ;;
  skipped <- int_attr testsuite "skipped" ;;
  time <- float_attr testsuite "time" ;;
  testcases <- map_opt parse_testcase (findall_descendants testsuite "testcase") ;;
  ret (mkSuite (str_attr testsuite "name" "Unknown") tests failures errors
         skipped time (str_attr testsuite "timestamp" "")
         (str_attr testsuite "hostname" "") testcases).

End Parsing.

(** [suite.get(key, 0)] on a suite dictionary. *)
Definition get_tests (s : suite_dict) : Z :=
  match s with Some d => s_tests d | None => 0 end.
Definition get_failures (s : suite_dict) : Z :=
  match s with Some d => s_failures d | None => 0 end.
Definition get_errors (s : suite_dict) : Z :=
  match s with Some d => s_errors d | None => 0 end.
Definition get_skipped (s : suite_dict) : Z :=
  match s with Some d => s_skipped d | None => 0 end.
Definition get_time (s : suite_dict) : float :=
  match s with Some d => s_time d | None => Finite 0 end.

(** [tests - failures - errors - skipped] of one suite dictionary
    (lines 146 and 298). *)
Definition suite_passed (s : suite_dict) : Z :=
  get_tests s - get_failures s - get_errors s - get_skipped s.

(** [results.values()]. *)
Definition values (results : results_map) : list suite_dict := map snd results.

(** The overall statistics (lines 110-115 and 246-251). *)
Record overall : Type := mkOverall {
  total_tests : Z;
  total_failures : Z;
  total_errors : Z;
  total_skipped : Z;
  total_passed : Z;
  total_time : float
}.

Definition summary_statistics (results : results_map) : overall :=
  let total_tests := sumZ (map get_tests (values results)) in
  let total_failures := sumZ (map get_failures (values results)) in
  let total_errors := sumZ (map get_errors (values results)) in
  let total_skipped := sumZ (map get_skipped (values results)) in
  let total_passed := total_tests - total_failures - total_errors - total_skipped in
  let total_time := fsum (map get_time (values results)) in
  mkOverall total_tests total_failures total_errors total_skipped total_passed
    total_time.

Definition html_statistics (results : results_map) : overall :=
  let total_tests := sumZ (map get_tests (values results)) in
  let total_failures := sumZ (map get_failures (values results)) in
  let total_errors := sumZ (map get_errors (values results)) in
  let total_skipped := sumZ (map get_skipped (values results)) in
  let total_passed := total_tests - total_failures - total_errors - total_skipped in
  let total_time := fsum (map get_time (values results)) in
  mkOverall total_tests total_failures total_errors total_skipped total_passed
    total_time.

(** The "Passed" line of the text report (line 120): with a percentage
    when [total_tests > 0], the literal "Passed: 0" otherwise. *)
Inductive passed_line : Type :=
  | PassedWithRate (passed : Z) (rate : Q)
  | PassedZero.

(** One entry of the per-suite breakdown (lines 138-154). *)
Record suite_line : Type := mkSuiteLine {
  sl_name : string;
  sl_tests : Z;
  sl_passed : Z;
  sl_failures : Z;
  sl_errors : Z;
  sl_time : float;
  sl_success_rate : option Q;
  sl_ok : bool
}.

Definition suite_breakdown (entry : string * suite_dict) : exn + list suite_line :=
  let (suite_name, suite_data) := entry in
  match suite_data with
  | None => ret []
  | Some _ =>
      let tests := get_tests suite_data in
      let failures := get_failures suite_data in
      let errors := get_errors suite_data in
      let passed := suite_passed suite_data in
      let time := get_time suite_data in
      let ok := (failures =? 0) && (errors =? 0) in
      rate <- (if tests >? 0
               then r <- truediv passed tests ;; ret (Some (r * 100)%Q)
               else ret None) ;;
      ret [mkSuiteLine suite_name tests passed failures errors time rate ok]
  end.

Fixpoint concat_map_exn {A B} (f : A -> exn + list B) (l : list A)
  : exn + list B :=
  match l with
  | [] => ret []
  | x :: l' =>
      ys <- f x ;;
      zs <- concat_map_exn f l' ;;
      ret (ys ++ zs)
  end.

(** [testcase['suite'] = ...]: the case dictionary with key ['suite'] set. *)
Definition set_suite (name : string) (c : case_data) : case_data :=
  mkCase (c_classname c) (c_name c) (c_time c) (c_status c) (c_failure c)
    (c_error c) (c_skipped c) (Some name).

(** [all_testcases] (lines 162-167): the cases of every populated suite, in
    the order of [results.values()] and then of each suite's list. *)
Definition all_testcases (results : results_map) : list case_data :=
  flat_map (fun suite_data : suite_dict =>
              match suite_data with
              | Some d => map (set_suite (s_name d)) (s_testcases d)
              | None => []
              end) (values results).

(** [slowest_tests] (line 170). *)
Definition slowest_tests (results : results_map) : list case_data :=
  firstn 5 (sorted (all_testcases results) c_time true).

(** The performance section (lines 157-184): nothing when there is no
    case, otherwise the slowest tests and the average time. *)
Definition performance_analysis (results : results_map)
  : exn + option (list case_data * float) :=
  match all_testcases results with
  | [] => ret None
  | cases =>
      avg_time <- truediv_float (fsum (map c_time cases))
                    (Z.of_nat (List.length cases)) ;;
      ret (Some (slowest_tests results, avg_time))
  end.

(** [failed_tests] (lines 187-192). *)
Definition failed_tests (results : results_map) : list case_data :=
  flat_map (fun suite_data : suite_dict =>
              match suite_data with
              | Some d =>
                  filter (fun c => status_eqb (c_status c) failed
                                   || status_eqb (c_status c) error)
                    (s_testcases d)
              | None => []
              end) (values results).

(** One entry of the failure details (lines 197-206). *)
Definition failure_detail (test : case_data)
  : exn + (case_data * option string * option string) :=
  f <- match c_failure test with
       | Some t => m <- prefix 100 t ;; ret (Some (m ++ "...")%string)
       | None => ret None
       end ;;
  e <- match c_error test with
       | Some t => m <- prefix 100 t ;; ret (Some (m ++ "...")%string)
       | None => ret None
       end ;;
  ret (test, f, e).

Fixpoint map_exn {A B} (f : A -> exn + B) (l : list A) : exn + list B :=
  match l with
  | [] => ret []
  | x :: l' =>
      y <- f x ;;
      ys <- map_exn f l' ;;
      ret (y :: ys)
  end.

(** What the text report shows. *)
Record summary_report : Type := mkSummary {
  sr_overall : overall;
  sr_passed_line : passed_line;
  sr_all_passing : bool;
  sr_suites : list suite_line;
  sr_performance : option (list case_data * float);
  sr_failed : list (case_data * option string * option string)
}.

(** [generate_summary_report]: the values the report is built from, or the
    exception the function raises. *)
Definition generate_summary_report (results : results_map)
  : exn + summary_report :=
  let o := summary_statistics results in
  line <- (if total_tests o >? 0
           then r <- truediv (total_passed o) (total_tests o) ;;
                ret (PassedWithRate (total_passed o) (r * 100)%Q)
           else ret PassedZero) ;;
  let all_passing := (total_failures o =? 0) && (total_errors o =? 0) in
  suites <- concat_map_exn suite_breakdown results ;;
  perf <- performance_analysis results ;;
  details <- map_exn failure_detail (failed_tests results) ;;
  ret (mkSummary o line all_passing suites perf details).

(** One test case block of the HTML report (lines 309-332). *)
Definition html_case (testcase : case_data) : exn + (case_data * option string) :=
  if status_eqb (c_status testcase) failed || status_eqb (c_status testcase) error
  then
    let error_msg :=
      match c_failure testcase with
      | Some t => t
      | None =>
          match c_error testcase with
          | Some t => t
          | None => Some "Unknown error"
          end
      end in
    m <- prefix 200 error_msg ;;
    ret (testcase, Some (m ++ "...")%string)
  else ret (testcase, None).

(** One suite block of the HTML report (lines 291-334). *)
Record html_suite : Type := mkHtmlSuite {
  hs_name : string;
  hs_tests : Z;
  hs_passed : Z;
  hs_failures : Z;
  hs_errors : Z;
  hs_cases : list (case_data * option string)
}.

Definition html_suite_block (entry : string * suite_dict) : exn + list html_suite :=
  let (suite_name, suite_data) := entry in
  match suite_data with
  | None => ret []
  | Some d =>
      let tests := get_tests suite_data in
      let failures := get_failures suite_data in
      let errors := get_errors suite_data in
      let passed := suite_passed suite_data in
      cases <- map_exn html_case (s_testcases d) ;;
      ret [mkHtmlSuite suite_name tests passed failures errors cases]
  end.

(** What the HTML report shows. *)
Record html_report : Type := mkHtml {
  hr_overall : overall;
  hr_all_passing : bool;
  hr_success_rate : Q;
  hr_suites : list html_suite
}.

(** [generate_html_report].  The percentage of line 269 is computed
    without a test on [total_tests]. *)
Definition generate_html_report (results : results_map) : exn + html_report :=
  let o := html_statistics results in
  let all_passing := (total_failures o =? 0) && (total_errors o =? 0) in
  r <- truediv (total_passed o) (total_tests o) ;;
  suites <- concat_map_exn html_suite_block results ;;
  ret (mkHtml o all_passing (r * 100)%Q suites).

End Analyzer.

(* ===================================================================== *)
(** ** quick_status.py *)
(* ===================================================================== *)

Module QuickStatus.
Import ElementTree Builtins.

(** The running totals of [quick_check]. *)
Record totals : Type := mkTotals {
  total_tests : Z;
  total_failures : Z;
  total_errors : Z;
  total_time : float
}.

(** What [quick_check] prints at the end, and its return value. *)
Record verdict : Type := mkVerdict {
  v_totals : totals;
  v_passed : Z;
  v_success_rate : Q;
  v_all_passing : bool;
  v_exit : Z
}.

(** [quick_check] either finds no result file (and returns 1) or reaches
    its verdict. *)
Inductive outcome : Type :=
  | NoResultFiles
  | Checked (v : verdict).

Section Checking.

Variable int_of_str : string -> option Z.
Variable float_of_str : string -> option float.

(** The element the attributes are read from (line 41):
    [root.find('.//testsuite') or root]. *)
Definition select_testsuite (root : Element) : Element :=
  or_else (find_descendant root "testsuite") root.

(** Lines 39-46 for one file whose document was read; [None] when one of
    the conversions raises. *)
Definition read_counts (root : Element) : option (Z * Z * Z * float) :=
  let testsuite := select_testsuite root in
  tests <- Analyzer.int_attr int_of_str testsuite "tests" ;;
  failures <- Analyzer.int_attr int_of_str testsuite "failures" ;;
  errors <- Analyzer.int_attr int_of_str testsuite "errors" ;;
  time <- Analyzer.float_attr float_of_str testsuite "time" ;;
  ret (tests, failures, errors, time).

(** One iteration of the loop over files (lines 37-65).  A file is given by
    its document, or [None] when [ET.parse] raises; an exception leaves the
    totals as they were. *)
Definition check_file (acc : totals) (file : option Element) : totals :=
  match file with
  | None => acc
  | Some root =>
      match read_counts root with
      | Some (tests, failures, errors, time) =>
          mkTotals (total_tests acc + tests) (total_failures acc + failures)
            (total_errors acc + errors) (fadd (total_time acc) time)
      | None => acc
      end
  end.

(** [quick_check] on the result files found: the values it prints and
    returns, or the exception it raises. *)
Definition quick_check (xml_files : list (option Element)) : exn + outcome :=
  match xml_files with
  | [] => ret NoResultFiles
  | _ =>
      let t := fold_left check_file xml_files (mkTotals 0 0 0 (Finite 0)) in
      let passed := total_tests t - total_failures t - total_errors t in
      success_rate <- (if total_tests t >? 0
                       then r <- truediv passed (total_tests t) ;; ret (r * 100)%Q
                       else ret 0%Q) ;;
      let ok := (total_failures t =? 0) && (total_errors t =? 0) in
      ret (Checked (mkVerdict t passed success_rate ok (if ok then 0 else 1)))
  end.

(** The value [quick_check] returns. *)
Definition exit_code (o : outcome) : Z :=
  match o with
  | NoResultFiles => 1
  | Checked v => v_exit v
  end.

End Checking.

End QuickStatus.

(* ===================================================================== *)
(** ** The health endpoint as seen through [requests] *)
(* ===================================================================== *)

Module Requests.

(** A decoded JSON value. *)
Inductive json : Type :=
  | JNull
  | JBool (b : bool)
  | JNum (q : Q)
  | JStr (s : string)
  | JArr (items : list json)
  | JObj (fields : list (string * json)).

(** The outcome of [requests.get]: a [RequestException], or a response
    with its status code and its body ([None] when it is not JSON). *)
Inductive get_outcome : Type :=
  | RequestException
  | Response (status_code : Z) (body : option json).

(** Python truthiness of a decoded value. *)
Definition truthy (v : json) : bool :=
  match v with
  | JNull => false
  | JBool b => b
  | JNum q => negb (Qeq_bool q 0)
  | JStr s => negb (String.eqb s "")
  | JArr items => match items with [] => false | _ => true end
  | JObj fields => match fields with [] => false | _ => true end
  end.

(** [d.get(key)] on a decoded object: the last binding of a repeated key
    wins, an absent key gives [None]. *)
Definition dict_get (fields : list (string * json)) (key : string) : option json :=
  option_map snd (List.find (fun kv => String.eqb (fst kv) key) (rev fields)).

(** [d.get(key) == s]. *)
Definition get_equals (fields : list (string * json)) (key s : string) : bool :=
  match dict_get fields key with
  | Some (JStr t) => String.eqb t s
  | _ => false
  end.

(** Truthiness of [d.get(key)]. *)
Definition get_truthy (fields : list (string * json)) (key : string) : bool :=
  match dict_get fields key with
  | Some v => truthy v
  | None => false
  end.

End Requests.

(* ===================================================================== *)
(** ** tests/conftest.py: the docker_container fixture *)
(* ===================================================================== *)

Module Conftest.
Import Requests.

(** The readiness loop of the fixture (lines 167-180): [true] when the loop
    breaks, [false] when it raises "Container failed to become healthy". *)
Fixpoint wait_healthy (health : nat -> get_outcome) (i retries : nat) : bool :=
  match retries with
  | O => false
  | S retries' =>
      match health i with
      | Response status_code _ =>
          if status_code =? 200 then true
          else wait_healthy health (S i) retries'
      | RequestException => wait_healthy health (S i) retries'
      end
  end.

Definition max_retries : nat := 30.

(** Whether the fixture yields the container. *)
Definition docker_container_ready (health : nat -> get_outcome) : bool :=
  wait_healthy health 0 max_retries.

End Conftest.

(* ===================================================================== *)
(** ** run_tests.py *)
(* ===================================================================== *)

Module Runner.
Import Requests.

Inductive category : Type := Unit | Integration | Api | Docker.

(** The [--mode] choices. *)
Inductive mode : Type :=
  ModeAll | ModeUnit | ModeIntegration | ModeApi | ModeDocker.

(** The ["status"] strings of [test_results]. *)
Inductive run_status : Type := not_run | passed | failed | error.

Definition run_status_eqb (a b : run_status) : bool :=
  match a, b with
  | not_run, not_run | passed, passed | failed, failed | error, error => true
  | _, _ => false
  end.

(** A category entry of [test_results]; [details] holds the exit code. *)
Record outcome : Type := mkOutcome {
  status : run_status;
  duration : Q;
  details : option Z
}.

(** The ["overall"] entry: it has no ["duration"] key. *)
Record overall_entry : Type := mkOverallEntry {
  overall_status : run_status;
  start_time : option Q;
  end_time : option Q
}.

(** [self.test_results], a dictionary with five fixed keys. *)
Record results : Type := mkResults {
  r_unit : outcome;
  r_integration : outcome;
  r_api : outcome;
  r_docker : outcome;
  r_overall : overall_entry
}.

Definition lookup (r : results) (c : category) : outcome :=
  match c with
  | Unit => r_unit r
  | Integration => r_integration r
  | Api => r_api r
  | Docker => r_docker r
  end.

Definition update (r : results) (c : category) (o : outcome) : results :=
  match c with
  | Unit => mkResults o (r_integration r) (r_api r) (r_docker r) (r_overall r)
  | Integration => mkResults (r_unit r) o (r_api r) (r_docker r) (r_overall r)
  | Api => mkResults (r_unit r) (r_integration r) o (r_docker r) (r_overall r)
  | Docker => mkResults (r_unit r) (r_integration r) (r_api r) o (r_overall r)
  end.

Definition set_overall (r : results) (o : overall_entry) : results :=
  mkResults (r_unit r) (r_integration r) (r_api r) (r_docker r) o.

Definition category_name (c : category) : string :=
  match c with
  | Unit => "unit"
  | Integration => "integration"
  | Api => "api"
  | Docker => "docker"
  end.

(** What the run does to the outside world, and which methods it enters. *)
Inductive event : Type :=
  | Enter_setup_docker
  | Enter_build_docker_image
  | Enter_start_test_container
  | Enter_cleanup_container
  | Enter_cleanup_resources
  | Enter_generate_report
  | Docker_from_env
  | Images_build
  | Containers_run
  | Container_stop_remove
  | Containers_get_by_name
  | Image_remove
  | Health_get (attempt : nat)
  | Subprocess_pytest (c : category)
  | Sys_exit (code : Z)        (** [sys.exit(code)] is called *)
  | Process_exit (code : Z).   (** the interpreter terminates *)

(** The [TestRunner] object, with the trace of events so far (newest
    first). *)
Record TestRunner : Type := mkRunner {
  cleanup : bool;
  verbose : bool;
  docker_client : bool;
  test_container : bool;
  test_results : results;
  trace : list event
}.

(** How the outside world answers during one run. *)
Record World : Type := mkWorld {
  (** [docker.from_env()] returns a client *)
  from_env_succeeds : bool;
  (** [ping()] and [info()] answer *)
  daemon_responds : bool;
  build_succeeds : bool;
  run_succeeds : bool;
  (** what each [reload] made before the timeout shows as the container
      status; [None] when the [reload] raises *)
  reload_statuses : list (option string);
  health : nat -> get_outcome;
  (** whether [response.json()] failures are [RequestException]s *)
  json_errors_are_request_exceptions : bool;
  (** the exit code of a pytest subprocess, [None] when starting it raises *)
  subprocess_run : category -> option Z;
  elapsed : category -> Q;
  clock : Q
}.

Definition not_run_outcome : outcome := mkOutcome not_run 0%Q None.

(** [TestRunner.__init__]. *)
Definition init (cleanup verbose : bool) : TestRunner :=
  mkRunner cleanup verbose false false
    (mkResults not_run_outcome not_run_outcome not_run_outcome not_run_outcome
       (mkOverallEntry not_run None None))
    [].

Definition M : Type -> Type := state TestRunner.

Definition emit (e : event) : M unit :=
  s <- get ;;
  put (mkRunner (cleanup s) (verbose s) (docker_client s) (test_container s)
         (test_results s) (e :: trace s)).

Definition set_docker_client (b : bool) : M unit :=
  s <- get ;;
  put (mkRunner (cleanup s) (verbose s) b (test_container s)
         (test_results s) (trace s)).

Definition set_test_container (b : bool) : M unit :=
  s <- get ;;
  put (mkRunner (cleanup s) (verbose s) (docker_client s) b
         (test_results s) (trace s)).

Definition set_results (f : results -> results) : M unit :=
  s <- get ;;
  put (mkRunner (cleanup s) (verbose s) (docker_client s) (test_container s)
         (f (test_results s)) (trace s)).

(** One health check of the readiness loop (lines 200-208). *)
Inductive attempt_result : Type :=
  | Ready        (** [app_ready = True; break] *)
  | Retry        (** fall through to [time.sleep(1)] *)
  | Escape.      (** an exception that leaves the loop *)

Definition health_attempt (wraps : bool) (r : get_outcome) : attempt_result :=
  match r with
  | RequestException => Retry
  | Response status_code body =>
      if status_code =? 200 then
        match body with
        | None => if wraps then Retry else Escape
        | Some (JObj health_data) =>
            if get_equals health_data "status" "healthy"
               && get_truthy health_data "model_loaded"
            then Ready else Retry
        | Some _ => Escape
        end
      else Retry
  end.

(** The readiness loop (lines 199-212), from attempt [attempt] with
    [budget] attempts left; [Retry] is the exhausted loop. *)
Fixpoint wait_app_ready (w : World) (attempt budget : nat) : M attempt_result :=
  match budget with
  | O => ret Retry
  | S budget' =>
      emit (Health_get attempt) ;;
      match health_attempt (json_errors_are_request_exceptions w)
              (health w attempt) with
      | Ready => ret Ready
      | Escape => ret Escape
      | Retry => wait_app_ready w (S attempt) budget'
      end
  end.

(** The [while ... else] of lines 185-192: [true] on [break], [false] when
    the timeout passes or a [reload] raises (the method then returns
    [False], from the [else] branch or from the handler of line 222). *)
Fixpoint wait_running (statuses : list (option string)) : bool :=
  match statuses with
  | [] => false
  | None :: _ => false
  | Some s :: rest => if String.eqb s "running" then true else wait_running rest
  end.

Section Run.

Variable w : World.

(** [setup_docker]. *)
Definition setup_docker : M bool :=
  emit Enter_setup_docker ;;
  emit Docker_from_env ;;
  if from_env_succeeds w then
    set_docker_client true ;;
    ret (daemon_responds w)
  else ret false.

(** [build_docker_image].  Without a client the call of line 123 raises
    on [None] before it reaches Docker, and the handler returns [False]. *)
Definition build_docker_image : M bool :=
  emit Enter_build_docker_image ;;
  s <- get ;;
  if docker_client s then
    emit Images_build ;;
    ret (build_succeeds w)
  else ret false.

(** [cleanup_container]: every exception is logged and swallowed.  The
    runner's own container is stopped and removed when there is one; the
    lookup by name needs a client. *)
Definition cleanup_container : M unit :=
  emit Enter_cleanup_container ;;
  s <- get ;;
  (if test_container s
   then emit Container_stop_remove ;; set_test_container false
   else ret tt) ;;
  (if docker_client s then emit Containers_get_by_name else ret tt).

(** [start_test_container].  Without a client the call of line 169 raises
    on [None] before it reaches Docker, and the handler of line 222
    returns [False]. *)
Definition start_test_container : M bool :=
  emit Enter_start_test_container ;;
  cleanup_container ;;
  s <- get ;;
  if docker_client s then
    emit Containers_run ;;
    if run_succeeds w then
      set_test_container true ;;
      if wait_running (reload_statuses w) then
        r <- wait_app_ready w 0 30 ;;
        match r with
        | Ready => ret true
        | Retry => ret false
        | Escape => ret false
        end
      else ret false
    else ret false
  else ret false.

(** [run_unit_tests], [run_integration_tests], [run_api_tests] and
    [run_docker_tests], which differ only in the category. *)
Definition run_tests (c : category) : M bool :=
  emit (Subprocess_pytest c) ;;
  match subprocess_run w c with
  | Some returncode =>
      set_results (fun r =>
        update r c (mkOutcome (status (lookup r c)) (elapsed w c) (Some returncode))) ;;
      if returncode =? 0 then
        set_results (fun r =>
          update r c (mkOutcome passed (duration (lookup r c)) (details (lookup r c)))) ;;
        ret true
      else
        set_results (fun r =>
          update r c (mkOutcome failed (duration (lookup r c)) (details (lookup r c)))) ;;
        ret false
  | None =>
      set_results (fun r =>
        update r c (mkOutcome error (duration (lookup r c)) (details (lookup r c)))) ;;
      ret false
  end.

Definition record_start : M unit :=
  set_results (fun r =>
    set_overall r (mkOverallEntry (overall_status (r_overall r)) (Some (clock w))
                     (end_time (r_overall r)))).

Definition record_end (success : bool) : M unit :=
  set_results (fun r =>
    set_overall r (mkOverallEntry (if success then passed else failed)
                     (start_time (r_overall r)) (Some (clock w)))).

(** The setup phase (lines 557-564 and 608-613): each step that fails
    returns [False] from the calling method at once; [rest] is what the
    method does after the three steps. *)
Definition after_setup (rest : M bool) : M bool :=
  ok <- setup_docker ;;
  if negb ok then ret false else
  ok <- build_docker_image ;;
  if negb ok then ret false else
  ok <- start_test_container ;;
  if negb ok then ret false else
  rest.

(** [run_all_tests]. *)
Definition run_all_tests : M bool :=
  record_start ;;
  after_setup
    (u <- run_tests Unit ;;
     i <- run_tests Integration ;;
     a <- run_tests Api ;;
     d <- run_tests Docker ;;
     let success := u && i && a && d in
     record_end success ;;
     ret success).

(** [run_specific_tests]. *)
Definition run_specific_tests (m : mode) : M bool :=
  record_start ;;
  let containerised (c : category) : M bool :=
    after_setup
      (success <- run_tests c ;;
       record_end success ;;
       ret success) in
  match m with
  | ModeUnit =>
      success <- run_tests Unit ;;
      record_end success ;;
      ret success
  | ModeIntegration => containerised Integration
  | ModeApi => containerised Api
  | ModeDocker => containerised Docker
  | ModeAll => record_end true ;; ret true
  end.

End Run.

(** [self.test_results.items()] as far as [generate_report] reads it:
    name, status, and the duration when the entry has one. *)
Definition items (r : results) : list (string * run_status * option Q) :=
  [ ("unit", status (r_unit r), Some (duration (r_unit r)));
    ("integration", status (r_integration r), Some (duration (r_integration r)));
    ("api", status (r_api r), Some (duration (r_api r)));
    ("docker", status (r_docker r), Some (duration (r_docker r)));
    ("overall", overall_status (r_overall r), None) ].

Definition names_with (s : run_status) (r : results) : list string :=
  map (fun it => fst (fst it))
    (filter (fun it => run_status_eqb (snd (fst it)) s) (items r)).

(** What [generate_report] prints. *)
Record report : Type := mkReport {
  overall_passed : bool;      (** the banner: PASSED ([true]) or FAILED *)
  total_duration : Q;
  passed_tests : list string;
  failed_tests : list string;
  error_tests : list string;
  detailed : list (string * run_status * option Q)
}.

Definition is_nil {A} (l : list A) : bool :=
  match l with [] => true | _ => false end.

(** [generate_report]. *)
Definition generate_report (r : results) : report :=
  let total_duration :=
    Builtins.sumQ (flat_map (fun it => match snd it with
                                       | Some d => [d]
                                       | None => []
                                       end) (items r)) in
  let passed_tests := names_with passed r in
  let failed_tests := names_with failed r in
  let error_tests := names_with error r in
  mkReport (is_nil failed_tests && is_nil error_tests) total_duration
    passed_tests failed_tests error_tests (items r).

(** [cleanup_resources]. *)
Definition cleanup_resources : M unit :=
  emit Enter_cleanup_resources ;;
  s <- get ;;
  if cleanup s then
    cleanup_container ;;
    s' <- get ;;
    if docker_client s' then emit Image_remove else ret tt
  else ret tt.

(** The dispatch on [args.mode] (lines 677-680). *)
Definition run_mode (w : World) (m : mode) : M bool :=
  match m with
  | ModeAll => run_all_tests w
  | _ => run_specific_tests w m
  end.

(** [main] after argument parsing, for a run that is not interrupted: the
    tests, the report, [sys.exit], and the [finally] clause. *)
Definition main (w : World) (m : mode) : M (report * Z) :=
  success <- run_mode w m ;;
  emit Enter_generate_report ;;
  s <- get ;;
  let rep := generate_report (test_results s) in
  let code := if success then 0 else 1 in
  emit (Sys_exit code) ;;
  cleanup_resources ;;
  emit (Process_exit code) ;;
  ret (rep, code).

(** A whole run of the script: the report, the exit code and the final
    runner, whose trace is put in chronological order. *)
Definition run (w : World) (m : mode) (cleanup verbose : bool)
  : report * Z * TestRunner :=
  let (res, s) := runState (main w m) (init cleanup verbose) in
  (res, mkRunner (Runner.cleanup s) (Runner.verbose s) (docker_client s)
          (test_container s) (test_results s) (rev (trace s))).

End Runner.

(* ===================================================================== *)
(** ** Concrete inputs *)
(* ===================================================================== *)

Module Examples.
Import ElementTree.

(** A suite dictionary that only carries counts. *)
Definition counts (tests failures errors skipped : Z) : Analyzer.suite_dict :=
  Some (Analyzer.mkSuite "pytest" tests failures errors skipped
          (Builtins.Finite 0) "" "" []).

(** Parsed from [<testsuite tests="1" failures="2"/>]: more failures than
    tests. *)
Definition inconsistent_results : Analyzer.results_map :=
  [("unit", counts 1 2 0 0)].

(** The results of a directory whose only result file could not be parsed:
    [{"unit": {}}]. *)
Definition unparsed_results : Analyzer.results_map := [("unit", None)].

Definition two_suites : Analyzer.results_map :=
  [("unit", counts 5 1 0 0); ("api", counts 3 0 0 0)].

(** [<testsuites><testsuite tests="3" failures="1"/></testsuites>]: a
    wrapped suite that carries its counts but lists no test case. *)
Definition summary_only_suite : Element :=
  mkElement "testsuite" [("tests", "3"); ("failures", "1")] None [].

Definition summary_only_doc : Element :=
  mkElement "testsuites" [] None [summary_only_suite].

(** A bare suite that lacks the failures, errors, skipped and time
    attributes; its first case lacks the time attribute:
    [<testsuite name="pytest" tests="2">
       <testcase classname="t.A" name="a"/>
       <testcase classname="t.A" name="b" time="0.5">
         <skipped/><failure>boom</failure></testcase></testsuite>]. *)
Definition partial_suite : Element :=
  mkElement "testsuite" [("name", "pytest"); ("tests", "2")] None
    [ mkElement "testcase" [("classname", "t.A"); ("name", "a")] None [];
      mkElement "testcase" [("classname", "t.A"); ("name", "b"); ("time", "0.5")]
        None
        [ mkElement "skipped" [] None [];
          mkElement "failure" [] (Some "boom") [] ] ].

(** A passed case with a name and an elapsed time. *)
Definition timed (name : string) (time : Q) : Analyzer.case_data :=
  Analyzer.mkCase "tests.T" name (Builtins.Finite time) Analyzer.passed None None
    None None.

Definition suite_of (name : string) (cases : list Analyzer.case_data)
  : Analyzer.suite_dict :=
  Some (Analyzer.mkSuite name (Z.of_nat (List.length cases)) 0 0 0
          (Builtins.Finite 0) "" "" cases).

(** Cases with times 0.1, 0.5 and 0.3. *)
Definition three_times : Analyzer.results_map :=
  [("unit", suite_of "u" [timed "a" (1 # 10); timed "b" (1 # 2);
                          timed "c" (3 # 10)])].

(** Seven cases over two suites, with ties at 0.2 (b, d, f, and g written
    as 2/10) and at 0.1. *)
Definition tied_times : Analyzer.results_map :=
  [("unit", suite_of "u" [timed "a" (1 # 10); timed "b" (1 # 5);
                          timed "c" (1 # 10); timed "d" (1 # 5)]);
   ("broken", None);
   ("api", suite_of "v" [timed "e" (9 # 10); timed "f" (1 # 5);
                         timed "g" (2 # 10)])].

(** The health body of a service that answers while its model is still
    loading: [{"status": "healthy", "model_loaded": false}]. *)
Definition still_loading : Requests.get_outcome :=
  Requests.Response 200
    (Some (Requests.JObj [("status", Requests.JStr "healthy");
                          ("model_loaded", Requests.JBool false)])).

(** The same without the [model_loaded] field. *)
Definition no_model_field : Requests.get_outcome :=
  Requests.Response 200 (Some (Requests.JObj [("status", Requests.JStr "healthy")])).

Definition loaded : Requests.get_outcome :=
  Requests.Response 200
    (Some (Requests.JObj [("status", Requests.JStr "healthy");
                          ("model_loaded", Requests.JBool true)])).

(** A world where Docker works, the container runs, every suite passes,
    and the health endpoint answers [health]. *)
Definition world_with_health (health : nat -> Requests.get_outcome)
  : Runner.World :=
  Runner.mkWorld true true true true [Some "created"; Some "running"] health true
    (fun _ => Some 0) (fun _ => 1%Q) 0%Q.

(** The model never finishes loading. *)
Definition never_loaded : Runner.World :=
  world_with_health (fun _ => still_loading).

(** The model is loaded from the fourth health check on. *)
Definition loaded_at_3 : Runner.World :=
  world_with_health (fun i => if (i <? 3)%nat then still_loading else loaded).

(** The Docker daemon does not answer, and the unit suite fails. *)
Definition no_daemon : Runner.World :=
  Runner.mkWorld true false true true [] (fun _ => Requests.RequestException)
    true (fun _ => Some 1) (fun _ => 1%Q) 0%Q.

End Examples.

(* ===================================================================== *)
(** ** Statement vocabulary *)
(* ===================================================================== *)

Module Spec.
Import ElementTree.

(** The element has a direct child with the given tag. *)
Definition has_child (e : Element) (t : string) : Prop :=
  exists c, In c (children e) /\ tag c = t.

(** The element has a nested element with the given tag, at any depth. *)
Definition has_nested (e : Element) (t : string) : Prop :=
  exists c, In c (descendants e) /\ tag c = t.

(** The status the marker children call for: failure first, then error,
    then skipped, and passed when there is none of them. *)
Definition status_by_priority (tc : Element) (s : Analyzer.status) : Prop :=
  (has_child tc "failure" /\ s = Analyzer.failed)
  \/ (~ has_child tc "failure" /\ has_child tc "error" /\ s = Analyzer.error)
  \/ (~ has_child tc "failure" /\ ~ has_child tc "error"
      /\ has_child tc "skipped" /\ s = Analyzer.skipped)
  \/ (~ has_child tc "failure" /\ ~ has_child tc "error"
      /\ ~ has_child tc "skipped" /\ s = Analyzer.passed).

(** Every attribute among [keys] that the element carries converts. *)
Definition converts {A} (conv : string -> option A) (e : Element)
    (keys : list string) : Prop :=
  forall key s, In key keys -> get e key = Some s -> conv s <> None.

(** [converts], decided. *)
Definition converts_b {A} (conv : string -> option A) (e : Element)
    (keys : list string) : bool :=
  forallb (fun key => match get e key with
                      | Some s => match conv s with Some _ => true | None => false end
                      | None => true
                      end) keys.

(** The key of the slowest-tests sort equals [t]. *)
Definition time_is (t : Builtins.float) (c : Analyzer.case_data) : bool :=
  Builtins.feq (Analyzer.c_time c) t.

(** [a <= b] on floats that are numbers: minus infinity is below, and plus
    infinity above, every number; NaN is related to nothing. *)
Definition float_le (a b : Builtins.float) : Prop :=
  match a, b with
  | Builtins.NaN, _ => False
  | _, Builtins.NaN => False
  | Builtins.Infinity true, _ => True
  | _, Builtins.Infinity false => True
  | Builtins.Finite x, Builtins.Finite y => (x <= y)%Q
  | _, _ => False
  end.

(** The float is a number. *)
Definition is_number (a : Builtins.float) : Prop := a <> Builtins.NaN.

(** The cases of a results mapping in the order in which they are
    encountered: suite after suite in the order of the mapping, the cases
    of a suite in the order of its list, each with the name of its suite;
    an empty suite dictionary has no case. *)
Fixpoint encounter_order (results : Analyzer.results_map)
  : list Analyzer.case_data :=
  match results with
  | [] => []
  | (_, None) :: rest => encounter_order rest
  | (_, Some d) :: rest =>
      map (Analyzer.set_suite (Analyzer.s_name d)) (Analyzer.s_testcases d)
      ++ encounter_order rest
  end.

End Spec.

(** Vocabulary for runs of the orchestrator. *)
Module RunSpec.
Import Requests Runner.

(** The readiness loop sees, at attempt [k] of its 30, a response with
    status 200 whose body says [status: "healthy"] with a truthy
    [model_loaded], every earlier attempt having asked for a retry. *)
Definition becomes_ready (w : World) : Prop :=
  exists k, (k < 30)%nat
    /\ health_attempt (json_errors_are_request_exceptions w) (health w k) = Ready
    /\ forall i, (i < k)%nat ->
         health_attempt (json_errors_are_request_exceptions w) (health w i) = Retry.

Definition docker_setup_fails (w : World) : Prop :=
  from_env_succeeds w = false \/ daemon_responds w = false.

Definition image_build_fails (w : World) : Prop :=
  build_succeeds w = false.

Definition container_not_ready (w : World) : Prop :=
  run_succeeds w = false
  \/ wait_running (reload_statuses w) = false
  \/ ~ becomes_ready w.

(** Docker setup, the image build or the container readiness fails. *)
Definition setup_fails (w : World) : Prop :=
  docker_setup_fails w \/ image_build_fails w \/ container_not_ready w.

Definition is_subprocess (e : event) : bool :=
  match e with Subprocess_pytest _ => true | _ => false end.

Definition is_cleanup_resources (e : event) : bool :=
  match e with Enter_cleanup_resources => true | _ => false end.

(** The events of Docker setup, image build and container start. *)
Definition is_container_setup (e : event) : bool :=
  match e with
  | Enter_setup_docker | Enter_build_docker_image | Enter_start_test_container
  | Docker_from_env | Images_build | Containers_run => true
  | _ => false
  end.

(** An event of the setup phase of a run. *)
Definition is_setup_phase (e : event) : bool :=
  match e with
  | Enter_setup_docker | Enter_build_docker_image | Enter_start_test_container
  | Enter_cleanup_container | Docker_from_env | Images_build | Containers_run
  | Container_stop_remove | Containers_get_by_name | Health_get _ => true
  | _ => false
  end.

(** The events of a teardown. *)
Definition is_teardown (e : event) : bool :=
  match e with
  | Enter_cleanup_container | Container_stop_remove | Containers_get_by_name
  | Image_remove => true
  | _ => false
  end.

(** The ["overall"] entry agrees with the category entries: it is never in
    error, and it is failed only when some category is failed or in
    error. *)
Definition overall_consistent (r : results) : Prop :=
  overall_status (r_overall r) <> error
  /\ (overall_status (r_overall r) = failed ->
      exists c, status (lookup r c) = failed \/ status (lookup r c) = error).

(** No category entry is failed or in error. *)
Definition no_category_failed (r : results) : Prop :=
  forall c, status (lookup r c) <> failed /\ status (lookup r c) <> error.

(** The trace [t'] extends [t] by events that satisfy [P] (a runner's
    trace holds the newest event first). *)
Definition extends (P : event -> bool) (t t' : list event) : Prop :=
  exists evs, t' = evs ++ t /\ Forall (fun e => P e = true) evs.

(** The runner [s] with another trace. *)
Definition with_trace (s : TestRunner) (t : list event) : TestRunner :=
  mkRunner (cleanup s) (verbose s) (docker_client s) (test_container s)
    (test_results s) t.

End RunSpec.

(* ===================================================================== *)
(** ** Vocabulary for the suites of a run *)
(* ===================================================================== *)

Module Flow.
Import Requests Runner RunSpec.

(** The suites a mode runs, in the order of the calls (lines 569-583 and
    604-620). *)
Definition suites_of (m : mode) : list category :=
  match m with
  | ModeAll => [Unit; Integration; Api; Docker]
  | ModeUnit => [Unit]
  | ModeIntegration => [Integration]
  | ModeApi => [Api]
  | ModeDocker => [Docker]
  end.

(** The modes that go through Docker setup, image build and container
    start before their suites. *)
Definition needs_container (m : mode) : bool :=
  match m with ModeUnit => false | _ => true end.

(** The pytest subprocess of a category starts and exits with code 0. *)
Definition suite_passes (w : World) (c : category) : bool :=
  match subprocess_run w c with
  | Some returncode => returncode =? 0
  | None => false
  end.

(** The entry a pytest run leaves for its category, given the entry it
    found. *)
Definition recorded (w : World) (c : category) (old : outcome) : outcome :=
  match subprocess_run w c with
  | Some returncode =>
      mkOutcome (if returncode =? 0 then passed else failed) (elapsed w c)
        (Some returncode)
  | None => mkOutcome error (duration old) (details old)
  end.

(** An event of the testing phase: setup, or a pytest subprocess. *)
Definition is_test_phase (e : event) : bool :=
  is_setup_phase e || is_subprocess e.

(** A call that reaches the Docker daemon during teardown. *)
Definition is_docker_teardown_call (e : event) : bool :=
  match e with
  | Container_stop_remove | Containers_get_by_name | Image_remove => true
  | _ => false
  end.

Definition category_eqb (a b : category) : bool :=
  match a, b with
  | Unit, Unit | Integration, Integration | Api, Api | Docker, Docker => true
  | _, _ => false
  end.

End Flow.

Module FlowResults.
Import Requests Runner RunSpec Flow.

(** [test_results] once [start_time] is recorded (lines 552 and 600). *)
Definition started (w : World) (r : results) : results :=
  set_overall r (mkOverallEntry (overall_status (r_overall r)) (Some (clock w))
                   (end_time (r_overall r))).

(** [test_results] once the overall status and [end_time] are recorded
    (lines 585-586 and 622-623). *)
Definition finished (w : World) (success : bool) (r : results) : results :=
  set_overall r (mkOverallEntry (if success then passed else failed)
                   (start_time (r_overall r)) (Some (clock w))).

(** [test_results] after the suites [cs] ran one after the other. *)
Definition after_suites (w : World) (cs : list category) (r : results) : results :=
  fold_left (fun r c => update r c (recorded w c (lookup r c))) cs r.

End FlowResults.

(* ===================================================================== *)
(** ** Vocabulary for the reports *)
(* ===================================================================== *)

Module ReportSpec.
Import Analyzer.

(** The case carries a ['failure'] or an ['error'] key whose value is
    [None]: its marker element had no text. *)
Definition textless (c : case_data) : Prop :=
  c_failure c = Some None \/ c_error c = Some None.


(** The suite dictionaries that are not empty. *)
Definition populated (results : results_map) : list suite_data :=
  flat_map (fun s : suite_dict => match s with Some d => [d] | None => [] end)
    (values results).

(** The first [n] characters of [t] followed by the ellipsis the reports
    append. *)
Definition truncated (n : nat) (t : string) : string :=
  (Builtins.slice_to n t ++ "...")%string.

(** The percentage of a suite of the breakdown (line 153) is too large for
    a float: the suite has a positive test count that its pass count
    exceeds by a factor beyond the range of floats. *)
Definition suite_rate_overflows (s : suite_dict) : Prop :=
  get_tests s > 0 /\ Builtins.overflows (suite_passed s) (get_tests s) = true.

(** Some percentage of the text report is too large for a float: that of
    the overall line (line 120) or that of a suite (line 153). *)
Definition summary_overflows (results : results_map) : Prop :=
  (total_tests (summary_statistics results) > 0
   /\ Builtins.overflows (total_passed (summary_statistics results))
        (total_tests (summary_statistics results)) = true)
  \/ exists s, In s (values results) /\ suite_rate_overflows s.


End ReportSpec.

(* ===================================================================== *)
(** ** More concrete inputs *)
(* ===================================================================== *)

Module MoreExamples.
Import ElementTree.

(** [<testsuites>
       <testsuite name="pytest" tests="3" failures="1" errors="1" time="0.4">
         <testcase classname="tests.unit.TestA" name="ok" time="0.1"/>
         <testcase classname="tests.unit.TestA" name="bad" time="0.2">
           <failure message="assert">AssertionError: 1 != 2</failure></testcase>
         <testcase classname="tests.unit.TestB" name="broken" time="0.1">
           <error/></testcase>
       </testsuite>
       <testsuite name="other" tests="7" failures="7"/>
     </testsuites>]: the error marker of the third case has no text, and a
    second suite follows the first. *)
Definition first_suite : Element :=
  mkElement "testsuite"
    [("name", "pytest"); ("tests", "3"); ("failures", "1"); ("errors", "1");
     ("time", "0.4")] None
    [ mkElement "testcase" [("classname", "tests.unit.TestA"); ("name", "ok");
                            ("time", "0.1")] None [];
      mkElement "testcase" [("classname", "tests.unit.TestA"); ("name", "bad");
                            ("time", "0.2")] None
        [mkElement "failure" [("message", "assert")]
           (Some "AssertionError: 1 != 2") []];
      mkElement "testcase" [("classname", "tests.unit.TestB"); ("name", "broken");
                            ("time", "0.1")] None
        [mkElement "error" [] None []] ].

Definition second_suite : Element :=
  mkElement "testsuite" [("name", "other"); ("tests", "7"); ("failures", "7")]
    None [].

Definition two_suite_doc : Element :=
  mkElement "testsuites" [] None [first_suite; second_suite].

(** A case that failed with a text, as [parse_junit_xml] builds it. *)
Definition failed_case (name text : string) : Analyzer.case_data :=
  Analyzer.mkCase "tests.unit.TestA" name (Builtins.Finite (1 # 10))
    Analyzer.failed
    (Some (Some text)) None None None.

(** One suite with a passed case and a failed case whose text has 5
    characters. *)
Definition one_failure : Analyzer.results_map :=
  [("unit",
    Some (Analyzer.mkSuite "pytest" 2 1 0 0 (Builtins.Finite (1 # 5)) "" ""
            [Examples.timed "ok" (1 # 10); failed_case "bad" "boom!"]))].

(** [<testsuite name="pytest" tests="3">
       <testcase name="a" time="1.0"/>
       <testcase name="b" time="nan"/>
       <testcase name="c" time="2.0"/></testsuite>]: the second case
    carries a time that [float] reads as NaN. *)
Definition nan_time_suite : Element :=
  mkElement "testsuite" [("name", "pytest"); ("tests", "3")] None
    [ mkElement "testcase" [("name", "a"); ("time", "1.0")] None [];
      mkElement "testcase" [("name", "b"); ("time", "nan")] None [];
      mkElement "testcase" [("name", "c"); ("time", "2.0")] None [] ].

(** The results of a directory that holds this file as
    [unit_test_results.xml]. *)
Definition nan_time_results : Analyzer.results_map :=
  [("unit", Analyzer.parse_junit_xml Builtins.dec_int Builtins.dec_float
              nan_time_suite)].

(** [<testsuites tests="9" errors="2"><testsuite failures="1"/></testsuites>]:
    the suite element lacks the tests, errors and time attributes, and the
    wrapper carries counts of its own. *)
Definition wrapper_counts_suite : Element :=
  mkElement "testsuite" [("failures", "1")] None [].

Definition wrapper_counts_doc : Element :=
  mkElement "testsuites" [("tests", "9"); ("errors", "2")] None
    [wrapper_counts_suite].

(** The same wrapper around a suite element that lists its cases: the
    suite of [Examples.partial_suite], with tests="2" and no failures,
    errors or time attribute. *)
Definition wrapped_partial_doc : Element :=
  mkElement "testsuites" [("tests", "9"); ("errors", "2")] None
    [Examples.partial_suite].

(** Forty euro signs: 40 characters, 120 bytes in UTF-8. *)
Definition euro : string :=
  String (ascii_of_nat 226) (String (ascii_of_nat 130)
    (String (ascii_of_nat 172) EmptyString)).

Fixpoint repeat_string (s : string) (n : nat) : string :=
  match n with
  | O => EmptyString
  | S n' => (s ++ repeat_string s n')%string
  end.

Definition euros : string := repeat_string euro 40.

(** One suite with a case that failed with a text of 5 characters and a
    case that failed with a text of 120 euro signs. *)
Definition euro_failure : Analyzer.results_map :=
  [("unit",
    Some (Analyzer.mkSuite "pytest" 2 2 0 0 (Builtins.Finite (1 # 5)) "" ""
            [failed_case "bad" "boom!";
             failed_case "worse" (repeat_string euro 120)]))].

(** Parsed from [<testsuite tests="1" failures="-1000...0"/>] with 400
    zeros: counts that [int] accepts and whose quotient no float holds. *)
Definition huge_counts : Analyzer.results_map :=
  [("unit", Examples.counts 1 (- 10 ^ 400) 0 0)].

(** A state of [test_results] in which the unit entry is passed, the
    other categories are not run, and the overall entry is failed. *)
Definition overall_failed_only : Runner.results :=
  Runner.mkResults (Runner.mkOutcome Runner.passed 1%Q (Some 0))
    Runner.not_run_outcome Runner.not_run_outcome Runner.not_run_outcome
    (Runner.mkOverallEntry Runner.failed (Some 0%Q) (Some 1%Q)).

(** [<testsuite tests="many"/>]: the tests attribute is not a number. *)
Definition unconvertible_suite : Element :=
  mkElement "testsuite" [("tests", "many")] None [].


End MoreExamples.

(* ===================================================================== *)
(** ** quick_status.py: the failed tests and [main] *)
(* ===================================================================== *)

Module QuickFailed.
Import ElementTree Builtins.

(** [s.split('.')[-1]]: what follows the last dot of [s], or [s] itself
    when it has no dot. *)
Fixpoint has_dot (s : string) : bool :=
  match s with
  | EmptyString => false
  | String c s' => Ascii.eqb c "."%char || has_dot s'
  end.

Fixpoint last_component (s : string) : string :=
  match s with
  | EmptyString => EmptyString
  | String c s' =>
      if Ascii.eqb c "."%char then last_component s'
      else if has_dot s' then last_component s'
      else s
  end.

(** [t or default] for an optional string: [None] and the empty string are
    falsy. *)
Definition text_or (t : option string) (default : string) : string :=
  match t with
  | Some EmptyString => default
  | Some s => s
  | None => default
  end.

(** [marker.get('message', marker.text or 'No message')[:100]]
    (lines 103 and 106). *)
Definition marker_message (marker : Element) : string :=
  slice_to 100
    match get marker "message" with
    | Some m => m
    | None => text_or (text marker) "No message"
    end.

(** One line of the list: a failure or an error, the last component of the
    class name, the name and the message shown (followed by "..."). *)
Record failed_line : Type := mkFailedLine {
  fl_is_failure : bool;
  fl_classname : string;
  fl_name : string;
  fl_message : string
}.

(** The body of the loop over test cases (lines 94-107). *)
Definition failed_line_of (testcase : Element) : list failed_line :=
  let name := Analyzer.str_attr testcase "name" "Unknown" in
  let classname := last_component (Analyzer.str_attr testcase "classname" "") in
  match find testcase "failure", find testcase "error" with
  | Some failure, _ =>
      [mkFailedLine true classname name (marker_message failure ++ "...")%string]
  | None, Some error =>
      [mkFailedLine false classname name (marker_message error ++ "...")%string]
  | None, None => []
  end.

(** The lines of one result file: every [testcase] element below the root
    is looked at. *)
Definition failed_lines (root : Element) : list failed_line :=
  flat_map failed_line_of (findall_descendants root "testcase").

(** [show_failed_tests] on the files that match ["*_test_results.xml"]; a
    file that cannot be read is skipped. *)
Definition show_failed_tests (starred : list (option Element)) : list failed_line :=
  flat_map (fun file : option Element =>
              match file with
              | Some root => failed_lines root
              | None => []
              end) starred.

Section Main.

Variable int_of_str : string -> option Z.
Variable float_of_str : string -> option float.

(** [main] without [--help]: the status of the files of both patterns,
    then the failed tests of the starred files when they are asked for
    ([--failed]) or when the status is not 0; the exit code is the status.
    The result is the exception raised, or the failed lines printed (if
    any were asked for) and the exit code. *)
Definition main (failed_flag : bool) (starred bare : list (option Element))
  : exn + (option (list failed_line) * Z) :=
  o <- QuickStatus.quick_check int_of_str float_of_str (starred ++ bare) ;;
  let exit_code := QuickStatus.exit_code o in
  ret (if failed_flag then Some (show_failed_tests starred)
       else if negb (exit_code =? 0) then Some (show_failed_tests starred)
       else None,
       exit_code).

End Main.

(** What one readable file adds to the totals of [quick_check]. *)
Definition readings (int_of_str : string -> option Z)
    (float_of_str : string -> option float) (files : list (option Element))
  : list (Z * Z * Z * float) :=
  flat_map (fun file : option Element =>
              match file with
              | Some root =>
                  match QuickStatus.read_counts int_of_str float_of_str root with
                  | Some counts => [counts]
                  | None => []
                  end
              | None => []
              end) files.

Definition reading_tests (r : Z * Z * Z * float) : Z := fst (fst (fst r)).
Definition reading_failures (r : Z * Z * Z * float) : Z := snd (fst (fst r)).
Definition reading_errors (r : Z * Z * Z * float) : Z := snd (fst r).
Definition reading_time (r : Z * Z * Z * float) : float := snd r.

End QuickFailed.

(* ===================================================================== *)
(** ** Induction on elements *)
(* ===================================================================== *)

Module ElementInduction.
Import ElementTree.

(** Structural induction on an element, with the property available for
    each of its sub-elements. *)
Fixpoint Element_forall_ind (P : Element -> Prop)
    (step : forall t a x cs, Forall P cs -> P (mkElement t a x cs))
    (e : Element) : P e :=
  match e with
  | mkElement t a x cs =>
      step t a x cs
        ((fix all (l : list Element) : Forall P l :=
            match l with
            | [] => Forall_nil P
            | c :: l' => Forall_cons c (Element_forall_ind P step c) (all l')
            end) cs)
  end.

End ElementInduction.

Module QuickSpec.
Import ElementTree.

(** The success rate of the quick status (line 71) is too large for a
    float: the total is positive and the pass count exceeds it by a factor
    beyond the range of floats. *)
Definition rate_overflows (tests failures errors : Z) : Prop :=
  tests > 0 /\ Builtins.overflows (tests - failures - errors) tests = true.

(** How a line of the quick tool's list and a case of the analyzer's
    record describe the same [testcase] element: the same kind of marker,
    the last component of the class name, and the same name, except that
    an absent name is ["Unknown"] in the one and empty in the other. *)
Definition same_case (c : Analyzer.case_data) (l : QuickFailed.failed_line) : Prop :=
  (Analyzer.c_status c = Analyzer.failed <-> QuickFailed.fl_is_failure l = true)
  /\ QuickFailed.fl_classname l = QuickFailed.last_component (Analyzer.c_classname c)
  /\ (QuickFailed.fl_name l = Analyzer.c_name c
      \/ (Analyzer.c_name c = "" /\ QuickFailed.fl_name l = "Unknown")).

(** The failed and errored cases of a record, as [failed_tests] selects
    them. *)
Definition failing (sd : Analyzer.suite_data) : list Analyzer.case_data :=
  filter (fun c => Analyzer.status_eqb (Analyzer.c_status c) Analyzer.failed
                   || Analyzer.status_eqb (Analyzer.c_status c) Analyzer.error)
    (Analyzer.s_testcases sd).

End QuickSpec.

(* ===================================================================== *)
(** ** test_analyzer.py: loading the files, [analyze] and [main] *)
(* ===================================================================== *)

Module AnalyzerFlow.
Import ElementTree Builtins Analyzer.

(** [s.replace(old, new)] for a non-empty [old]: the occurrences of [old]
    are replaced from the left, without overlap.  [skip] counts the
    characters of a matched occurrence that are still to be dropped. *)
Fixpoint replace_from (old new s : string) (skip : nat) : string :=
  match s with
  | EmptyString => EmptyString
  | String c s' =>
      match skip with
      | S k => replace_from old new s' k
      | O =>
          if String.prefix old s
          then (new ++ replace_from old new s' (String.length old - 1))%string
          else String c (replace_from old new s' 0)
      end
  end.

(** [s.replace("", new)] puts [new] before every character and at the
    end. *)
Fixpoint intersperse (new s : string) : string :=
  match s with
  | EmptyString => new
  | String c s' =>
      if is_continuation c then String c (intersperse new s')
      else (new ++ String c (intersperse new s'))%string
  end.

Definition replace (s old new : string) : string :=
  match old with
  | EmptyString => intersperse new s
  | _ => replace_from old new s 0
  end.

(** The test type of a result file, from the stem of its name
    (lines 95 and quick_status.py line 54). *)
Definition test_type (stem : string) : string :=
  replace (replace stem "_test_results" "") "test_results" "general".

(** [d[key] = value] on a dictionary in insertion order: a key that is
    present keeps its place. *)
Fixpoint dict_set (d : results_map) (key : string) (value : suite_dict)
  : results_map :=
  match d with
  | [] => [(key, value)]
  | (k, v) :: d' =>
      if String.eqb k key then (k, value) :: d'
      else (k, v) :: dict_set d' key value
  end.

(** [d.get(key)]. *)
Definition dict_get (d : results_map) (key : string) : option suite_dict :=
  option_map snd (List.find (fun kv => String.eqb (fst kv) key) d).

Section Loading.

Variable int_of_str : string -> option Z.
Variable float_of_str : string -> option Builtins.float.

(** [parse_junit_xml] on a file: its document, or [None] when [ET.parse]
    raises, which the function answers with the empty dictionary. *)
Definition parse_file (file : option Element) : suite_dict :=
  match file with
  | Some root => parse_junit_xml int_of_str float_of_str root
  | None => None
  end.

(** [load_all_results] on the files found, each with the stem of its name,
    in the order of the two globs. *)
Definition load_all_results (xml_files : list (string * option Element))
  : results_map :=
  fold_left (fun results file =>
               dict_set results (test_type (fst file)) (parse_file (snd file)))
    xml_files [].

End Loading.

(** What [generate_summary_report] leaves behind in [results]: every case
    of a populated suite has its ['suite'] key set to the suite's name
    (line 166). *)
Definition annotate_suite (s : suite_dict) : suite_dict :=
  match s with
  | Some d =>
      Some (mkSuite (s_name d) (s_tests d) (s_failures d) (s_errors d)
              (s_skipped d) (s_time d) (s_timestamp d) (s_hostname d)
              (map (set_suite (s_name d)) (s_testcases d)))
  | None => None
  end.

Definition annotate (results : results_map) : results_map :=
  map (fun entry => (fst entry, annotate_suite (snd entry))) results.

(** [save_reports]: both reports are generated (lines 346-347) before any
    file is written; writing is taken to succeed. *)
Definition save_reports (results : results_map) : exn + (summary_report * html_report) :=
  text_report <- generate_summary_report results ;;
  html_report <- generate_html_report (annotate results) ;;
  ret (text_report, html_report).

Section Analyze.

Variable int_of_str : string -> option Z.
Variable float_of_str : string -> option Builtins.float.

(** [analyze]: [None] when no result file was found, otherwise the summary
    that is printed, the two reports that are saved and the results
    returned.  The summary is generated twice; from the first call on the
    cases carry their ['suite'] key. *)
Definition analyze (xml_files : list (string * option Element))
  : exn + option (summary_report * (summary_report * html_report) * results_map) :=
  let results := load_all_results int_of_str float_of_str xml_files in
  match results with
  | [] => ret None
  | _ =>
      summary <- generate_summary_report results ;;
      saved <- save_reports (annotate results) ;;
      ret (Some (summary, saved, annotate (annotate results)))
  end.

(** The exit code of [main]: 1 when [analyze] raises (line 431), 0 when it
    returns. *)
Definition main (xml_files : list (string * option Element)) : Z :=
  match analyze xml_files with
  | inl _ => 1
  | inr _ => 0
  end.

End Analyze.

End AnalyzerFlow.

Module LoadSpec.

(** The string has no underscore. *)
Fixpoint no_underscore (s : string) : bool :=
  match s with
  | EmptyString => true
  | String c s' => negb (Ascii.eqb c "_"%char) && no_underscore s'
  end.

(** The character occurs in the string. *)
Fixpoint occurs (c : ascii) (s : string) : bool :=
  match s with
  | EmptyString => false
  | String c' s' => Ascii.eqb c' c || occurs c s'
  end.

End LoadSpec.

(* ===================================================================== *)
(** ** test_dashboard.py: watching the result files *)
(* ===================================================================== *)

Module Dashboard.

(** [self.last_update]: the modification time seen last, per file. *)
Definition last_update : Type := string -> option Q.

Definition empty : last_update := fun _ => None.

(** [d[key] = value]. *)
Definition set (d : last_update) (key : string) (value : Q) : last_update :=
  fun k => if String.eqb k key then Some value else d k.

Section Watching.

(** [os.path.getmtime]; [None] when it raises. *)
Variable getmtime : string -> option Q.

(** [get_file_mtime]: 0 when the time cannot be read. *)
Definition get_file_mtime (filepath : string) : Q :=
  match getmtime filepath with
  | Some t => t
  | None => 0%Q
  end.

(** One iteration of the loop of [check_for_updates] (lines 43-47) on the
    flag [updated] and the dictionary. *)
Definition check_file (state : bool * last_update) (xml_file : string)
  : bool * last_update :=
  let (updated, d) := state in
  let current_mtime := get_file_mtime xml_file in
  match d xml_file with
  | None => (true, set d xml_file current_mtime)
  | Some seen =>
      if negb (Qle_bool current_mtime seen)
      then (true, set d xml_file current_mtime)
      else (updated, d)
  end.

(** [check_for_updates] on the files the two globs list: the value
    returned and the dictionary afterwards. *)
Definition check_for_updates (xml_files : list string) (d : last_update)
  : bool * last_update :=
  fold_left check_file xml_files (false, d).

End Watching.

End Dashboard.

(* ===================================================================== *)
(** ** run_tests.py: the lists of the report *)
(* ===================================================================== *)

Module ReportLists.
Import Runner Flow.

(** The pytest subprocess of a category starts and exits with another code
    than 0. *)
Definition suite_fails (w : World) (c : category) : bool :=
  match subprocess_run w c with
  | Some returncode => negb (returncode =? 0)
  | None => false
  end.

(** The pytest subprocess of a category cannot be started. *)
Definition suite_errors (w : World) (c : category) : bool :=
  match subprocess_run w c with
  | Some _ => false
  | None => true
  end.

(** The names of the suites of a mode that satisfy [p], in the order of
    the dictionary. *)
Definition suite_names (p : category -> bool) (m : mode) : list string :=
  map category_name (filter p (suites_of m)).

End ReportLists.

(* ===================================================================== *)
(** * Properties *)
(* ===================================================================== *)

(* ===================================================================== *)
(** ** Aggregation: pass count and success rate *)
(* ===================================================================== *)

Section Aggregation.
Import Builtins Analyzer.

Lemma fold_left_add_shift (xs : list Z) (a : Z) :
  fold_left Z.add xs a = a + fold_left Z.add xs 0.
Proof.
  revert a. induction xs as [|x xs IH]; intros a; simpl.
  - lia.
  - rewrite IH, (IH x). lia.
Qed.

Lemma sumZ_cons (x : Z) (xs : list Z) : sumZ (x :: xs) = x + sumZ xs.
Proof. unfold sumZ. simpl. apply fold_left_add_shift. Qed.

Lemma sum_suite_passed (vs : list suite_dict) :
  sumZ (map suite_passed vs)
  = sumZ (map get_tests vs) - sumZ (map get_failures vs)
    - sumZ (map get_errors vs) - sumZ (map get_skipped vs).
Proof.
  induction vs as [|v vs IH]; simpl.
  - reflexivity.
  - rewrite !sumZ_cons, IH. unfold suite_passed. lia.
Qed.

(** The text report at a setting of the example: 5 tests with 1 failure and
    3 tests without give 8 tests, 7 passed, 87.5 percent. *)
Example summary_two_suites :
  exists r, generate_summary_report Examples.two_suites = inr r
            /\ total_tests (sr_overall r) = 8
            /\ total_failures (sr_overall r) = 1
            /\ sr_passed_line r = PassedWithRate 7 (inject_Z 7 / inject_Z 8 * 100)%Q
            /\ (inject_Z 7 / inject_Z 8 * 100 == 875 # 10)%Q.
Proof. eexists. repeat split; reflexivity. Qed.

(** C1, as stated, fails: on [{"unit": {tests: 1, failures: 2}}] the text
    report and the HTML report both compute a pass count of -1; nothing is
    clamped to zero. *)
Lemma C1_pass_count_negative :
  total_passed (summary_statistics Examples.inconsistent_results) = -1
  /\ total_passed (html_statistics Examples.inconsistent_results) = -1
  /\ ~ (0 <= total_passed (summary_statistics Examples.inconsistent_results)).
Proof. repeat split; vm_compute; congruence. Qed.

(** C1, amended: in the text report and in the HTML report the aggregated
    pass count is total minus failures minus errors minus skipped, computed
    on integers without a clamp; it is the sum of the suites' own pass
    counts and is negative exactly when failures, errors and skipped
    together exceed the total. *)
Theorem C1_pass_count_unclamped (results : results_map) :
  let s := summary_statistics results in
  let h := html_statistics results in
  total_passed s = total_tests s - total_failures s - total_errors s - total_skipped s
  /\ total_passed s = sumZ (map suite_passed (values results))
  /\ total_passed h = total_passed s
  /\ (total_passed s < 0
      <-> total_tests s < total_failures s + total_errors s + total_skipped s).
Proof.
  cbn zeta. repeat split.
  - now rewrite sum_suite_passed.
  - cbn in *. lia.
  - cbn in *. lia.
Qed.

Lemma truediv_nonzero (a b : Z) :
  b <> 0 -> overflows a b = false ->
  truediv a b = inr (inject_Z a / inject_Z b)%Q.
Proof.
  intros H Ho. unfold truediv. rewrite Ho. now destruct (Z.eqb_spec b 0).
Qed.

Lemma truediv_overflow (a b : Z) :
  b <> 0 -> overflows a b = true -> truediv a b = inl OverflowError.
Proof.
  intros H Ho. unfold truediv. rewrite Ho. now destruct (Z.eqb_spec b 0).
Qed.

(** A true division raises [ZeroDivisionError] for a zero divisor only. *)
Lemma truediv_no_zero_division (a b : Z) :
  b <> 0 -> no_zero_division (truediv a b).
Proof.
  intros H. unfold truediv, no_zero_division.
  destruct (Z.eqb_spec b 0); [contradiction|].
  destruct (overflows a b); discriminate.
Qed.

Lemma truediv_zero (a : Z) : truediv a 0 = inl ZeroDivisionError.
Proof. reflexivity. Qed.

Lemma bind_no_zero_division {A B} (m : exn + A) (f : A -> exn + B) :
  no_zero_division m -> (forall x, no_zero_division (f x)) ->
  no_zero_division (bind m f).
Proof.
  unfold no_zero_division. intros Hm Hf. destruct m as [e|x]; simpl.
  - intros E. apply Hm. now inversion E.
  - apply Hf.
Qed.

Lemma ret_no_zero_division {A} (x : A) : no_zero_division (ret x : exn + A).
Proof. unfold no_zero_division. simpl. discriminate. Qed.

Lemma guarded_rate_no_zero_division (p t : Z) :
  no_zero_division
    (if t >? 0 then r <- truediv p t ;; ret (Some (r * 100)%Q) else ret None).
Proof.
  destruct (Z.gtb_spec t 0) as [H|H].
  - apply bind_no_zero_division.
    + apply truediv_no_zero_division. lia.
    + intros r. apply ret_no_zero_division.
  - apply ret_no_zero_division.
Qed.

Lemma concat_map_no_zero_division {A B} (f : A -> exn + list B) (l : list A) :
  (forall x, no_zero_division (f x)) -> no_zero_division (concat_map_exn f l).
Proof.
  intros Hf. induction l as [|x l IH].
  - apply ret_no_zero_division.
  - cbn [concat_map_exn]. apply bind_no_zero_division; [apply Hf|]. intros ys.
    apply bind_no_zero_division; [apply IH|]. intros zs.
    apply ret_no_zero_division.
Qed.

Lemma map_no_zero_division {A B} (f : A -> exn + B) (l : list A) :
  (forall x, no_zero_division (f x)) -> no_zero_division (map_exn f l).
Proof.
  intros Hf. induction l as [|x l IH].
  - apply ret_no_zero_division.
  - cbn [map_exn]. apply bind_no_zero_division; [apply Hf|]. intros ys.
    apply bind_no_zero_division; [apply IH|]. intros zs.
    apply ret_no_zero_division.
Qed.

Lemma prefix_no_zero_division (n : nat) (s : option string) (k : string -> exn + option string) :
  (forall m, no_zero_division (k m)) ->
  no_zero_division (m <- prefix n s ;; k m).
Proof.
  intros Hk. apply bind_no_zero_division; [|exact Hk].
  destruct s; unfold no_zero_division; simpl; discriminate.
Qed.

Lemma suite_breakdown_no_zero_division (entry : string * suite_dict) :
  no_zero_division (suite_breakdown entry).
Proof.
  destruct entry as [name [d|]]; cbn [suite_breakdown].
  - apply bind_no_zero_division.
    + apply guarded_rate_no_zero_division.
    + intros rate. apply ret_no_zero_division.
  - apply ret_no_zero_division.
Qed.

Lemma performance_no_zero_division (results : results_map) :
  no_zero_division (performance_analysis results).
Proof.
  unfold performance_analysis. destruct (all_testcases results) as [|c cs].
  - apply ret_no_zero_division.
  - unfold truediv_float.
    destruct (Z.eqb_spec (Z.of_nat (List.length (c :: cs))) 0) as [E|E].
    + simpl List.length in E. lia.
    + simpl. unfold no_zero_division. discriminate.
Qed.

Lemma failure_detail_no_zero_division (test : case_data) :
  no_zero_division (failure_detail test).
Proof.
  unfold failure_detail. apply bind_no_zero_division.
  - destruct (c_failure test).
    + apply prefix_no_zero_division. intros m. apply ret_no_zero_division.
    + apply ret_no_zero_division.
  - intros f. apply bind_no_zero_division.
    + destruct (c_error test).
      * apply prefix_no_zero_division. intros m. apply ret_no_zero_division.
      * apply ret_no_zero_division.
    + intros e. apply ret_no_zero_division.
Qed.

(** The text report never divides by zero: each of its three divisions is
    guarded. *)
Lemma summary_report_no_zero_division (results : results_map) :
  no_zero_division (generate_summary_report results).
Proof.
  unfold generate_summary_report. apply bind_no_zero_division.
  - destruct (Z.gtb_spec (total_tests (summary_statistics results)) 0) as [H|H].
    + apply bind_no_zero_division.
      * apply truediv_no_zero_division. lia.
      * intros r. apply ret_no_zero_division.
    + apply ret_no_zero_division.
  - intros line. apply bind_no_zero_division.
    { apply concat_map_no_zero_division, suite_breakdown_no_zero_division. }
    intros suites. apply bind_no_zero_division.
    { apply performance_no_zero_division. }
    intros perf. apply bind_no_zero_division.
    { apply map_no_zero_division, failure_detail_no_zero_division. }
    intros details. apply ret_no_zero_division.
Qed.

(** The text report shows the rate [passed / total * 100] when the total is
    positive and the literal "Passed: 0" otherwise. *)
Lemma summary_report_passed_line (results : results_map) (r : summary_report) :
  generate_summary_report results = inr r ->
  let o := summary_statistics results in
  sr_passed_line r
  = if total_tests o >? 0
    then PassedWithRate (total_passed o)
           (inject_Z (total_passed o) / inject_Z (total_tests o) * 100)%Q
    else PassedZero.
Proof.
  unfold generate_summary_report. intros H. cbn zeta.
  destruct (Z.gtb_spec (total_tests (summary_statistics results)) 0) as [G|G].
  - unfold truediv in H.
    destruct (Z.eqb_spec (total_tests (summary_statistics results)) 0); [lia|].
    destruct (overflows _ _); [discriminate|]. simpl in H.
    destruct (concat_map_exn suite_breakdown results); [discriminate|].
    destruct (performance_analysis results); [discriminate|].
    destruct (map_exn failure_detail (failed_tests results)); [discriminate|].
    now inversion H.
  - simpl in H.
    destruct (concat_map_exn suite_breakdown results); [discriminate|].
    destruct (performance_analysis results); [discriminate|].
    destruct (map_exn failure_detail (failed_tests results)); [discriminate|].
    now inversion H.
Qed.

(** The quick status never divides by zero: its only division is guarded,
    and the rate is 0 when the total is not positive. *)
Lemma quick_check_success_rate (int_of_str : string -> option Z)
    (float_of_str : string -> option Builtins.float) (files : list (option ElementTree.Element)) :
  no_zero_division (QuickStatus.quick_check int_of_str float_of_str files)
  /\ forall v, QuickStatus.quick_check int_of_str float_of_str files
              = inr (QuickStatus.Checked v) ->
       let t := QuickStatus.v_totals v in
       QuickStatus.v_success_rate v
       = if QuickStatus.total_tests t >? 0
         then (inject_Z (QuickStatus.v_passed v)
               / inject_Z (QuickStatus.total_tests t) * 100)%Q
         else 0%Q.
Proof.
  unfold QuickStatus.quick_check, no_zero_division. destruct files as [|f fs].
  - split; discriminate.
  - generalize (fold_left (QuickStatus.check_file int_of_str float_of_str)
                  (f :: fs) (QuickStatus.mkTotals 0 0 0 (Finite 0))).
    intros t.
    destruct (Z.gtb_spec (QuickStatus.total_tests t) 0) as [G|G].
    + unfold truediv.
      destruct (Z.eqb_spec (QuickStatus.total_tests t) 0); [lia|].
      destruct (overflows _ _); simpl; (split; [discriminate|]).
      * discriminate.
      * intros v E. inversion E; subst v; clear E. cbn.
        destruct (Z.gtb_spec (QuickStatus.total_tests t) 0); [reflexivity|lia].
    + simpl. split; [discriminate|].
      intros v E. inversion E; subst v; clear E. cbn.
      destruct (Z.gtb_spec (QuickStatus.total_tests t) 0); [lia|reflexivity].
Qed.

(** C2 (code_bug): the HTML report divides by the total without testing
    it; whenever the aggregated total is 0 (for instance when the only
    result file could not be parsed) [generate_html_report] raises
    [ZeroDivisionError], while the text report and the quick status guard
    the same division. *)
Theorem C2_html_report_zero_division (results : results_map) :
  total_tests (html_statistics results) = 0 ->
  generate_html_report results = inl ZeroDivisionError.
Proof.
  intros H. unfold generate_html_report. rewrite H. reflexivity.
Qed.

Lemma C2_html_report_zero_division_witness :
  total_tests (html_statistics Examples.unparsed_results) = 0
  /\ generate_html_report Examples.unparsed_results = inl ZeroDivisionError
  /\ exists r, generate_summary_report Examples.unparsed_results = inr r
              /\ sr_passed_line r = PassedZero.
Proof.
  split; [reflexivity|]. split.
  - apply (C2_html_report_zero_division Examples.unparsed_results). reflexivity.
  - eexists. split; reflexivity.
Defined.

End Aggregation.

(* ===================================================================== *)
(** ** Parsing: suite selection, case status, missing attributes *)
(* ===================================================================== *)

Section Parsing.
Import ElementTree Builtins Analyzer Spec.

Variable int_of_str : string -> option Z.
Variable float_of_str : string -> option Builtins.float.

Lemma find_child_some (e c : Element) (t : string) :
  find e t = Some c -> has_child e t.
Proof.
  unfold find. intros H. apply find_some in H. destruct H as [Hin Ht].
  exists c. split; [exact Hin|]. now apply String.eqb_eq.
Qed.

Lemma find_child_none (e : Element) (t : string) :
  find e t = None -> ~ has_child e t.
Proof.
  unfold find. intros H [c [Hin Ht]].
  pose proof (find_none _ _ H c Hin) as Hc. cbv beta in Hc.
  rewrite Ht, String.eqb_refl in Hc. discriminate.
Qed.

Lemma parse_testcase_status (tc : Element) (cd : case_data) :
  parse_testcase float_of_str tc = Some cd ->
  status_by_priority tc (c_status cd).
Proof.
  unfold parse_testcase, status_by_priority.
  destruct (float_attr float_of_str tc "time") as [t|]; [|discriminate].
  simpl.
  destruct (find tc "failure") as [f|] eqn:Ef.
  { intros H. inversion H; subst cd; clear H. left. split; [|reflexivity].
    eapply find_child_some; eassumption. }
  apply find_child_none in Ef.
  destruct (find tc "error") as [e|] eqn:Ee.
  { intros H. inversion H; subst cd; clear H. right; left.
    repeat split; trivial. eapply find_child_some; eassumption. }
  apply find_child_none in Ee.
  destruct (find tc "skipped") as [k|] eqn:Ek.
  { intros H. inversion H; subst cd; clear H. right; right; left.
    repeat split; trivial. eapply find_child_some; eassumption. }
  apply find_child_none in Ek.
  intros H. inversion H; subst cd; clear H. right; right; right.
  repeat split; trivial.
Qed.

Lemma map_opt_Forall2 {A B} (f : A -> option B) (l : list A) (ys : list B) :
  map_opt f l = Some ys -> Forall2 (fun x y => f x = Some y) l ys.
Proof.
  revert ys. induction l as [|x l IH]; intros ys; simpl.
  - intros H. inversion H. constructor.
  - destruct (f x) as [y|] eqn:Ex; [|discriminate].
    destruct (map_opt f l) as [zs|]; [|discriminate].
    simpl. intros H. inversion H; subst ys. constructor; auto.
Qed.

Lemma parse_junit_xml_testcases (root : Element) (sd : suite_data) :
  parse_junit_xml int_of_str float_of_str root = Some sd ->
  Forall2 (fun tc cd => parse_testcase float_of_str tc = Some cd)
    (findall_descendants (select_testsuite root) "testcase") (s_testcases sd).
Proof.
  unfold parse_junit_xml.
  destruct (int_attr _ _ "tests"); [|discriminate].
  destruct (int_attr _ _ "failures"); [|discriminate].
  destruct (int_attr _ _ "errors"); [|discriminate].
  destruct (int_attr _ _ "skipped"); [|discriminate].
  destruct (float_attr _ _ "time"); [|discriminate].
  simpl.
  destruct (map_opt _ _) as [cases|] eqn:Ec; [|discriminate].
  simpl. intros H. inversion H; subst sd; clear H. simpl.
  now apply map_opt_Forall2.
Qed.

(** The four cases of [status_by_priority] exclude one another: a case
    gets one status. *)
Lemma status_by_priority_unique (tc : Element) (s1 s2 : status) :
  status_by_priority tc s1 -> status_by_priority tc s2 -> s1 = s2.
Proof.
  unfold status_by_priority. intros H1 H2.
  repeat match goal with
         | H : _ \/ _ |- _ => destruct H
         | H : _ /\ _ |- _ => destruct H
         end; subst; try reflexivity; contradiction.
Qed.

(** C3: every case of a parsed result file gets the status its marker
    children call for in the order failure, error, skipped, and passed when
    it has none of them; in particular a case with a failure child is
    failed whatever else it contains. *)
Theorem C3_case_status_by_priority (root : Element) (sd : suite_data) :
  parse_junit_xml int_of_str float_of_str root = Some sd ->
  Forall2 (fun tc cd =>
             status_by_priority tc (c_status cd)
             /\ (has_child tc "failure" -> c_status cd = failed))
    (findall_descendants (select_testsuite root) "testcase") (s_testcases sd).
Proof.
  intros H. apply parse_junit_xml_testcases in H.
  induction H as [|tc cd tcs cds Hp _ IH]; constructor; [|exact IH].
  apply parse_testcase_status in Hp. split; [exact Hp|].
  intros Hf. unfold status_by_priority in Hp.
  repeat match goal with
         | H : _ \/ _ |- _ => destruct H
         | H : _ /\ _ |- _ => destruct H
         end; trivial; contradiction.
Qed.

Lemma find_descendant_some (root ts : Element) (t : string) :
  find_descendant root t = Some ts -> In ts (descendants root) /\ tag ts = t.
Proof.
  unfold find_descendant. intros H. apply find_some in H.
  destruct H as [Hin Ht]. split; [exact Hin|]. now apply String.eqb_eq.
Qed.

Lemma find_descendant_none (root : Element) (t : string) :
  find_descendant root t = None -> ~ has_nested root t.
Proof.
  unfold find_descendant. intros H [c [Hin Ht]].
  pose proof (find_none _ _ H c Hin) as Hc. cbv beta in Hc.
  rewrite Ht, String.eqb_refl in Hc. discriminate.
Qed.

(** The analyzer reads the suite from a nested [testsuite] element whenever
    there is one, and from the root exactly when there is none. *)
Lemma analyzer_select_nested (root : Element) :
  has_nested root "testsuite" ->
  In (Analyzer.select_testsuite root) (descendants root)
  /\ tag (Analyzer.select_testsuite root) = "testsuite"
  /\ find_descendant root "testsuite" = Some (Analyzer.select_testsuite root).
Proof.
  intros Hn. unfold Analyzer.select_testsuite.
  destruct (find_descendant root "testsuite") as [ts|] eqn:E.
  - apply find_descendant_some in E. tauto.
  - apply find_descendant_none in E. contradiction.
Qed.

Lemma analyzer_select_root (root : Element) :
  ~ has_nested root "testsuite" -> Analyzer.select_testsuite root = root.
Proof.
  intros Hn. unfold Analyzer.select_testsuite.
  destruct (find_descendant root "testsuite") as [ts|] eqn:E; [|reflexivity].
  apply find_descendant_some in E. exfalso. apply Hn. exists ts. exact E.
Qed.

(** The quick status reads the suite from the first nested [testsuite]
    element only when that element has sub-elements. *)
Lemma quick_select_spec (root : Element) :
  QuickStatus.select_testsuite root
  = match find_descendant root "testsuite" with
    | Some ts => match children ts with [] => root | _ :: _ => ts end
    | None => root
    end.
Proof.
  unfold QuickStatus.select_testsuite, or_else, truth.
  destruct (find_descendant root "testsuite") as [ts|]; [|reflexivity].
  now destruct (children ts).
Qed.

Lemma descendants_wrapper (t : string) (a : list (string * string))
    (x : option string) (ts : Element) :
  descendants (mkElement t a x [ts]) = ts :: descendants ts.
Proof. simpl. now rewrite app_nil_r. Qed.

(** Wrapped and bare documents: a suite element that nests no further
    suite parses to the same record on its own and inside a wrapper. *)
Lemma analyzer_wrapped_equals_bare (t : string) (a : list (string * string))
    (x : option string) (ts : Element) :
  tag ts = "testsuite" -> ~ has_nested ts "testsuite" ->
  parse_junit_xml int_of_str float_of_str (mkElement t a x [ts])
  = parse_junit_xml int_of_str float_of_str ts.
Proof.
  intros Ht Hn. unfold parse_junit_xml.
  rewrite (analyzer_select_root ts Hn).
  assert (E : Analyzer.select_testsuite (mkElement t a x [ts]) = ts).
  { unfold Analyzer.select_testsuite, find_descendant.
    rewrite descendants_wrapper. simpl. now rewrite Ht. }
  now rewrite E.
Qed.

Lemma converts_b_sound {A} (conv : string -> option A) (e : Element)
    (keys : list string) :
  converts_b conv e keys = true -> converts conv e keys.
Proof.
  unfold converts_b, converts. intros H key s Hin E.
  rewrite forallb_forall in H. specialize (H key Hin). rewrite E in H.
  destruct (conv s); [discriminate|discriminate].
Qed.

Lemma converts_b_sound_all {A} (conv : string -> option A)
    (l : list Element) (keys : list string) :
  forallb (fun e => converts_b conv e keys) l = true ->
  forall e, In e l -> converts conv e keys.
Proof.
  intros H e Hin. rewrite forallb_forall in H.
  apply converts_b_sound. now apply H.
Qed.

Lemma int_attr_defined (e : Element) (keys : list string) (key : string) :
  converts int_of_str e keys -> In key keys ->
  exists z, int_attr int_of_str e key = Some z /\ (get e key = None -> z = 0).
Proof.
  intros Hc Hin. unfold int_attr. destruct (get e key) as [s|] eqn:E.
  - destruct (int_of_str s) as [z|] eqn:Ez.
    + exists z. split; [reflexivity|discriminate].
    + exfalso. exact (Hc key s Hin E Ez).
  - exists 0. split; reflexivity.
Qed.

Lemma float_attr_defined (e : Element) (keys : list string) (key : string) :
  converts float_of_str e keys -> In key keys ->
  exists q, float_attr float_of_str e key = Some q
            /\ (get e key = None -> q = Finite 0).
Proof.
  intros Hc Hin. unfold float_attr. destruct (get e key) as [s|] eqn:E.
  - destruct (float_of_str s) as [q|] eqn:Eq.
    + exists q. split; [reflexivity|discriminate].
    + exfalso. exact (Hc key s Hin E Eq).
  - exists (Finite 0). split; reflexivity.
Qed.

Lemma parse_testcase_defined (tc : Element) :
  converts float_of_str tc ["time"] ->
  exists cd, parse_testcase float_of_str tc = Some cd
             /\ (get tc "time" = None -> c_time cd = Finite 0).
Proof.
  intros Hc. unfold parse_testcase.
  destruct (float_attr_defined tc ["time"] "time" Hc) as [q [Eq Hq]];
    [now left|].
  rewrite Eq. simpl.
  destruct (find tc "failure"); [eexists; split; [reflexivity|exact Hq]|].
  destruct (find tc "error"); [eexists; split; [reflexivity|exact Hq]|].
  destruct (find tc "skipped"); eexists; (split; [reflexivity|exact Hq]).
Qed.

Lemma map_opt_defined {A B} (f : A -> option B) (P : A -> B -> Prop)
    (l : list A) :
  (forall x, In x l -> exists y, f x = Some y /\ P x y) ->
  exists ys, map_opt f l = Some ys /\ Forall2 P l ys.
Proof.
  induction l as [|x l IH]; intros H; simpl.
  - exists []. split; [reflexivity|constructor].
  - destruct (H x (or_introl eq_refl)) as [y [Ey Py]].
    destruct IH as [ys [Eys Pys]]; [intros z Hz; apply H; now right|].
    rewrite Ey, Eys. simpl. exists (y :: ys). split; [reflexivity|].
    now constructor.
Qed.

(** The analyzer reads 0 for a numeric attribute that is absent from the
    suite element (tests, failures, errors, skipped, time) or from a case
    element (time), and the absence never makes parsing fail: whenever the
    attributes that are present convert, [parse_junit_xml] returns a
    populated record. *)
Lemma analyzer_missing_attributes_read_zero (root : Element) :
  let ts := Analyzer.select_testsuite root in
  converts int_of_str ts ["tests"; "failures"; "errors"; "skipped"] ->
  converts float_of_str ts ["time"] ->
  (forall tc, In tc (findall_descendants ts "testcase") ->
              converts float_of_str tc ["time"]) ->
  exists sd,
    parse_junit_xml int_of_str float_of_str root = Some sd
    /\ (get ts "tests" = None -> s_tests sd = 0)
    /\ (get ts "failures" = None -> s_failures sd = 0)
    /\ (get ts "errors" = None -> s_errors sd = 0)
    /\ (get ts "skipped" = None -> s_skipped sd = 0)
    /\ (get ts "time" = None -> s_time sd = Finite 0)
    /\ Forall2 (fun tc cd => get tc "time" = None -> c_time cd = Finite 0)
         (findall_descendants ts "testcase") (s_testcases sd).
Proof.
  cbn zeta. intros Hi Hf Hc. unfold parse_junit_xml.
  set (ts := Analyzer.select_testsuite root) in *.
  destruct (int_attr_defined ts _ "tests" Hi) as [t [Et Ht]]; [simpl; tauto|].
  destruct (int_attr_defined ts _ "failures" Hi) as [f [Ef Hf']]; [simpl; tauto|].
  destruct (int_attr_defined ts _ "errors" Hi) as [e [Ee He]]; [simpl; tauto|].
  destruct (int_attr_defined ts _ "skipped" Hi) as [k [Ek Hk]]; [simpl; tauto|].
  destruct (float_attr_defined ts _ "time" Hf) as [q [Eq Hq]]; [simpl; tauto|].
  destruct (map_opt_defined (parse_testcase float_of_str)
              (fun tc cd => get tc "time" = None -> c_time cd = Finite 0)
              (findall_descendants ts "testcase")) as [cases [Ec Pc]].
  { intros tc Hin. apply parse_testcase_defined. now apply Hc. }
  rewrite Et, Ef, Ee, Ek, Eq. simpl. rewrite Ec. simpl.
  eexists. split; [reflexivity|]. simpl. tauto.
Qed.

(** The quick status reads 0 for a numeric attribute that is absent from
    the element it reads, which is the suite element of the file whenever
    that element has sub-elements or is the root. *)
Lemma quick_missing_attributes_read_zero (root : Element) :
  let qs := QuickStatus.select_testsuite root in
  converts int_of_str qs ["tests"; "failures"; "errors"] ->
  converts float_of_str qs ["time"] ->
  exists tests failures errors time,
    QuickStatus.read_counts int_of_str float_of_str root
    = Some (tests, failures, errors, time)
    /\ (get qs "tests" = None -> tests = 0)
    /\ (get qs "failures" = None -> failures = 0)
    /\ (get qs "errors" = None -> errors = 0)
    /\ (get qs "time" = None -> time = Finite 0).
Proof.
  cbn zeta. intros Hi Hf. unfold QuickStatus.read_counts.
  set (qs := QuickStatus.select_testsuite root) in *.
  destruct (int_attr_defined qs _ "tests" Hi) as [t [Et Ht]]; [simpl; tauto|].
  destruct (int_attr_defined qs _ "failures" Hi) as [f [Ef Hf']]; [simpl; tauto|].
  destruct (int_attr_defined qs _ "errors" Hi) as [e [Ee He]]; [simpl; tauto|].
  destruct (float_attr_defined qs _ "time" Hf) as [q [Eq Hq]]; [simpl; tauto|].
  rewrite Et, Ef, Ee, Eq. simpl.
  exists t, f, e, q. tauto.
Qed.

Lemma quick_reads_suite_element (root : Element) :
  ~ has_nested root "testsuite"
  \/ children (Analyzer.select_testsuite root) <> [] ->
  QuickStatus.select_testsuite root = Analyzer.select_testsuite root.
Proof.
  rewrite quick_select_spec. unfold Analyzer.select_testsuite.
  destruct (find_descendant root "testsuite") as [ts|] eqn:E; [|reflexivity].
  intros [H|H].
  - exfalso. apply H. exists ts. now apply find_descendant_some.
  - destruct (children ts); [contradiction|reflexivity].
Qed.

End Parsing.

Lemma C3_case_status_by_priority_witness :
  exists sd,
    Analyzer.parse_junit_xml Builtins.dec_int Builtins.dec_float
      Examples.partial_suite = Some sd
    /\ map Analyzer.c_status (Analyzer.s_testcases sd)
       = [Analyzer.passed; Analyzer.failed]
    /\ Forall2 (fun tc cd =>
                  Spec.status_by_priority tc (Analyzer.c_status cd)
                  /\ (Spec.has_child tc "failure"
                      -> Analyzer.c_status cd = Analyzer.failed))
         (ElementTree.findall_descendants
            (Analyzer.select_testsuite Examples.partial_suite) "testcase")
         (Analyzer.s_testcases sd).
Proof.
  eexists. split; [reflexivity|]. split; [reflexivity|].
  apply (C3_case_status_by_priority Builtins.dec_int Builtins.dec_float
           Examples.partial_suite).
  reflexivity.
Defined.

(** C9 (code_bug): on a wrapped document whose suite element has no
    sub-element and lacks the tests, errors and time attributes, the
    analyzer reads 0 for each of them, but the quick status reads the
    counts of the wrapper instead: 9 tests and 2 errors for attributes the
    suite element does not carry, and 0 failures where it carries 1.  The
    cause is the one of C4: [root.find('.//testsuite') or root] discards
    the suite element that was found.  Under the same wrapper a suite
    element that lists its cases is read as the claim says: 0 for the
    failures, errors and time it lacks. *)
Theorem C9_quick_status_reads_wrapper_attributes :
  Analyzer.select_testsuite MoreExamples.wrapper_counts_doc
  = MoreExamples.wrapper_counts_suite
  /\ ElementTree.get MoreExamples.wrapper_counts_suite "tests" = None
  /\ ElementTree.get MoreExamples.wrapper_counts_suite "errors" = None
  /\ ElementTree.get MoreExamples.wrapper_counts_suite "time" = None
  /\ option_map (fun sd => (Analyzer.s_tests sd, Analyzer.s_failures sd,
                            Analyzer.s_errors sd, Analyzer.s_time sd))
       (Analyzer.parse_junit_xml Builtins.dec_int Builtins.dec_float
          MoreExamples.wrapper_counts_doc)
     = Some (0, 1, 0, Builtins.Finite 0)
  /\ QuickStatus.select_testsuite MoreExamples.wrapper_counts_doc
     = MoreExamples.wrapper_counts_doc
  /\ QuickStatus.read_counts Builtins.dec_int Builtins.dec_float
       MoreExamples.wrapper_counts_doc
     = Some (9, 0, 2, Builtins.Finite 0)
  /\ (exists v,
        QuickStatus.quick_check Builtins.dec_int Builtins.dec_float
          [Some MoreExamples.wrapper_counts_doc] = inr (QuickStatus.Checked v)
        /\ QuickStatus.total_tests (QuickStatus.v_totals v) = 9
        /\ QuickStatus.total_failures (QuickStatus.v_totals v) = 0
        /\ QuickStatus.total_errors (QuickStatus.v_totals v) = 2
        /\ QuickStatus.v_exit v = 1)
  /\ QuickStatus.select_testsuite MoreExamples.wrapped_partial_doc
     = Examples.partial_suite
  /\ QuickStatus.read_counts Builtins.dec_int Builtins.dec_float
       MoreExamples.wrapped_partial_doc
     = Some (2, 0, 0, Builtins.Finite 0).
Proof.
  repeat split; try reflexivity.
  eexists. split; [vm_compute; reflexivity|]. repeat split.
Qed.

(** The example file of the absent attributes, run: the suite reads
    tests = 2 and 0 for the four absent attributes, the first case reads
    time 0 and the second 0.5. *)
Example partial_suite_parsed :
  exists sd,
    Analyzer.parse_junit_xml Builtins.dec_int Builtins.dec_float
      Examples.partial_suite = Some sd
    /\ (Analyzer.s_tests sd, Analyzer.s_failures sd, Analyzer.s_errors sd,
        Analyzer.s_skipped sd) = (2, 0, 0, 0)
    /\ Analyzer.s_time sd = Builtins.Finite 0
    /\ Forall2 (fun a b => Builtins.feq a b = true)
         (map Analyzer.c_time (Analyzer.s_testcases sd))
         [Builtins.Finite 0; Builtins.Finite (1 # 2)].
Proof.
  eexists. split; [reflexivity|]. split; [reflexivity|]. split; [reflexivity|].
  repeat constructor.
Qed.

(** C4 (code_bug): on a wrapped document whose [testsuite] element has no
    sub-element the quick status reads the wrapper, not the nested suite:
    [root.find('.//testsuite') or root] discards a found element that is
    falsy.  The analyzer reads the nested element of the same document
    (3 tests, 1 failure); the quick status reads 0 for every count and
    returns 0, "all tests passing". *)
Theorem C4_quick_status_reads_wrapper :
  Spec.has_nested Examples.summary_only_doc "testsuite"
  /\ Analyzer.select_testsuite Examples.summary_only_doc
     = Examples.summary_only_suite
  /\ QuickStatus.select_testsuite Examples.summary_only_doc
     = Examples.summary_only_doc
  /\ option_map (fun sd => (Analyzer.s_tests sd, Analyzer.s_failures sd))
       (Analyzer.parse_junit_xml Builtins.dec_int Builtins.dec_float
          Examples.summary_only_doc) = Some (3, 1)
  /\ QuickStatus.read_counts Builtins.dec_int Builtins.dec_float
       Examples.summary_only_doc = Some (0, 0, 0, Builtins.Finite 0)
  /\ (exists o, QuickStatus.quick_check Builtins.dec_int Builtins.dec_float
                  [Some Examples.summary_only_doc] = inr o
                /\ QuickStatus.exit_code o = 0).
Proof.
  split.
  { exists Examples.summary_only_suite. split; [now left|reflexivity]. }
  repeat split; try reflexivity.
  eexists. split; reflexivity.
Qed.

(* ===================================================================== *)
(** ** The slowest tests *)
(* ===================================================================== *)

Section FloatOrder.
Import Builtins Spec.

Lemma float_le_refl (a : float) : is_number a -> float_le a a.
Proof.
  destruct a as [x|[|]|]; cbn; intros H; try exact I.
  - apply Qle_refl.
  - now apply H.
Qed.

Lemma float_le_trans (a b c : float) :
  float_le a b -> float_le b c -> float_le a c.
Proof.
  destruct a as [x|[|]|], b as [y|[|]|], c as [z|[|]|]; cbn;
    try tauto. apply Qle_trans.
Qed.

(** An element that is not below another, among numbers, is at least as
    large. *)
Lemma flt_false_le (a b : float) :
  is_number a -> is_number b -> flt b a = false -> float_le a b.
Proof.
  unfold is_number.
  destruct a as [x|[|]|], b as [y|[|]|]; cbn; intros Ha Hb H;
    try exact I; try discriminate; try congruence.
  apply negb_false_iff in H. now apply Qle_bool_iff.
Qed.

Lemma flt_true_le (a b : float) : flt a b = true -> float_le a b.
Proof.
  destruct a as [x|[|]|], b as [y|[|]|]; cbn; intros H;
    try exact I; try discriminate.
  apply negb_true_iff in H. apply Qlt_le_weak, Qnot_le_lt.
  intros L. apply Qle_bool_iff in L. congruence.
Qed.

(** Two floats equal to a third are not below one another. *)
Lemma flt_true_not_feq (a b t : float) :
  flt a b = true -> feq a t = true -> feq b t = true -> False.
Proof.
  destruct a as [x|[|]|], b as [y|[|]|], t as [z|[|]|]; cbn;
    try discriminate.
  intros H Ea Eb. apply negb_true_iff in H.
  apply Qeq_bool_iff in Ea, Eb.
  assert (L : (y <= x)%Q) by (rewrite Ea, Eb; apply Qle_refl).
  apply Qle_bool_iff in L. congruence.
Qed.

End FloatOrder.

Section Sorting.
Import Builtins Spec.

Variable A : Type.
Variable key : A -> float.

Let ascending : A -> A -> Prop := fun a b => float_le (key a) (key b).
Let descending : A -> A -> Prop := fun a b => float_le (key b) (key a).
Let key_is (t : float) : A -> bool := fun a => feq (key a) t.
Let numbers : list A -> Prop := Forall (fun a => is_number (key a)).

Lemma insert_by_perm (x : A) (l : list A) :
  Permutation (insert_by key x l) (x :: l).
Proof.
  induction l as [|y l IH]; simpl.
  - reflexivity.
  - destruct (flt (key y) (key x)).
    + rewrite IH. apply perm_swap.
    + reflexivity.
Qed.

Lemma sort_by_perm (l : list A) : Permutation (sort_by key l) l.
Proof.
  induction l as [|x l IH]; simpl.
  - reflexivity.
  - rewrite insert_by_perm. now constructor.
Qed.

Lemma insert_by_sorted (x : A) (l : list A) :
  is_number (key x) -> numbers l ->
  StronglySorted ascending l -> StronglySorted ascending (insert_by key x l).
Proof.
  intros Hx Hn. induction 1 as [|y l Hl IH Hy]; simpl.
  - repeat constructor.
  - inversion Hn as [|y' l' Hny Hnl]; subst.
    destruct (flt (key y) (key x)) eqn:E.
    + constructor; [now apply IH|].
      apply (Permutation_Forall (Permutation_sym (insert_by_perm x l))).
      constructor; [now apply flt_true_le|exact Hy].
    + assert (Hxy : float_le (key x) (key y)) by now apply flt_false_le.
      constructor.
      * now constructor.
      * constructor; [exact Hxy|].
        eapply Forall_impl; [|exact Hy]. intros z Hz.
        unfold ascending in *. now apply float_le_trans with (key y).
Qed.

Lemma sort_by_sorted (l : list A) :
  numbers l -> StronglySorted ascending (sort_by key l).
Proof.
  induction 1 as [|x l Hx Hl IH]; simpl.
  - constructor.
  - apply insert_by_sorted; [exact Hx| |exact IH].
    apply (Permutation_Forall (Permutation_sym (sort_by_perm l))). exact Hl.
Qed.

(** Insertion keeps the new element in front of the elements with an equal
    key: it only moves past keys that are below its own. *)
Lemma insert_by_stable (t : float) (x : A) (l : list A) :
  filter (key_is t) (insert_by key x l) = filter (key_is t) (x :: l).
Proof.
  induction l as [|y l IH].
  - reflexivity.
  - cbn [insert_by]. destruct (flt (key y) (key x)) eqn:E.
    + cbn [filter] in *. rewrite IH. unfold key_is.
      destruct (feq (key x) t) eqn:Ex, (feq (key y) t) eqn:Ey;
        try reflexivity.
      exfalso. exact (flt_true_not_feq _ _ _ E Ey Ex).
    + reflexivity.
Qed.

Lemma sort_by_stable (t : float) (l : list A) :
  filter (key_is t) (sort_by key l) = filter (key_is t) l.
Proof.
  induction l as [|x l IH].
  - reflexivity.
  - cbn [sort_by]. rewrite insert_by_stable. cbn [filter]. now rewrite IH.
Qed.

Lemma StronglySorted_app (R : A -> A -> Prop) (l1 l2 : list A) :
  StronglySorted R l1 -> StronglySorted R l2 ->
  (forall a b, In a l1 -> In b l2 -> R a b) ->
  StronglySorted R (l1 ++ l2).
Proof.
  intros H1 H2 H. induction H1 as [|x l1 Hl IH Hx]; simpl.
  - exact H2.
  - constructor.
    + apply IH. intros a b Ha Hb. apply H; [now right|exact Hb].
    + apply Forall_app. split; [exact Hx|].
      apply Forall_forall. intros b Hb. apply H; [now left|exact Hb].
Qed.

Lemma StronglySorted_rev (R : A -> A -> Prop) (l : list A) :
  StronglySorted R l -> StronglySorted (fun a b => R b a) (rev l).
Proof.
  induction 1 as [|x l Hl IH Hx]; simpl.
  - constructor.
  - apply StronglySorted_app.
    + exact IH.
    + repeat constructor.
    + intros a b Ha Hb. destruct Hb as [<-|[]].
      apply in_rev in Ha. rewrite Forall_forall in Hx. now apply Hx.
Qed.

(** [sorted(l, key=key, reverse=True)] is a rearrangement of [l] that keeps
    equal keys in their order in [l]; when no key is NaN it descends. *)
Lemma sorted_reverse_perm (l : list A) : Permutation (sorted l key true) l.
Proof.
  unfold sorted. rewrite <- Permutation_rev, sort_by_perm.
  symmetry. apply Permutation_rev.
Qed.

Lemma sorted_reverse_descending (l : list A) :
  numbers l -> StronglySorted descending (sorted l key true).
Proof.
  intros Hn. unfold sorted.
  apply (StronglySorted_rev ascending), sort_by_sorted.
  now apply Forall_rev.
Qed.

Lemma sorted_reverse_stable (t : float) (l : list A) :
  filter (key_is t) (sorted l key true) = filter (key_is t) l.
Proof.
  unfold sorted. now rewrite filter_rev, sort_by_stable, filter_rev, rev_involutive.
Qed.

Lemma filter_firstn_prefix (p : A -> bool) (n : nat) (l : list A) :
  exists m, filter p (firstn n l) = firstn m (filter p l).
Proof.
  revert n. induction l as [|x l IH]; intros n.
  - exists O. now rewrite firstn_nil.
  - destruct n as [|n].
    + exists O. reflexivity.
    + destruct (IH n) as [m Hm]. cbn [firstn filter].
      destruct (p x).
      * exists (S m). cbn [firstn]. now rewrite Hm.
      * exists m. exact Hm.
Qed.

End Sorting.

Section Slowest.
Import Builtins Analyzer Spec.

(** The collection the selection sorts is the cases in encounter order. *)
Lemma all_testcases_encounter_order (results : results_map) :
  all_testcases results = encounter_order results.
Proof.
  unfold all_testcases, values.
  induction results as [|[name [d|]] results IH]; cbn.
  - reflexivity.
  - now rewrite IH.
  - exact IH.
Qed.

(** C8, as stated, fails: [float] accepts the time "nan", and no
    comparison with NaN holds.  On a suite whose cases a, b and c have the
    times 1.0, nan and 2.0 the selection returns a, b, c: the case that
    comes first is faster than the case that comes last. *)
Lemma C8_nan_time_breaks_order :
  exists a b c,
    slowest_tests MoreExamples.nan_time_results = [a; b; c]
    /\ map c_name [a; b; c] = ["a"; "b"; "c"]
    /\ c_time b = NaN
    /\ feq (c_time a) (Finite 1) = true
    /\ feq (c_time c) (Finite 2) = true
    /\ flt (c_time a) (c_time c) = true
    /\ ~ StronglySorted (fun x y => flt (c_time x) (c_time y) = false)
          (slowest_tests MoreExamples.nan_time_results).
Proof.
  do 3 eexists. split; [reflexivity|]. repeat split.
  intros H. inversion H as [|x l Hl Hx]; subst.
  inversion Hx as [|y l' _ Hx']; subst. inversion Hx' as [|z l'' Hz _]; subst.
  discriminate Hz.
Qed.

(** C8, amended: when no elapsed time is NaN, the slowest-tests selection
    is the first five of a rearrangement of all cases, taken in encounter
    order, that descends in elapsed time; cases with equal times keep their
    encounter order, both in the whole rearrangement and among the five
    selected. *)
Theorem C8_slowest_tests_top5_stable (results : results_map) :
  Forall (fun c => is_number (c_time c)) (encounter_order results) ->
  let cases := encounter_order results in
  let slowest := slowest_tests results in
  exists rest,
    Permutation (slowest ++ rest) cases
    /\ List.length slowest = Nat.min 5 (List.length cases)
    /\ StronglySorted (fun a b => float_le (c_time b) (c_time a)) (slowest ++ rest)
    /\ (forall t, filter (time_is t) (slowest ++ rest) = filter (time_is t) cases)
    /\ (forall t, exists n,
           filter (time_is t) slowest = firstn n (filter (time_is t) cases)).
Proof.
  intros Hn. cbn zeta. unfold slowest_tests.
  rewrite all_testcases_encounter_order.
  set (cases := encounter_order results) in *.
  exists (skipn 5 (sorted cases c_time true)).
  rewrite firstn_skipn. split; [apply sorted_reverse_perm|].
  split.
  { rewrite length_firstn.
    now rewrite (Permutation_length (sorted_reverse_perm _ c_time cases)). }
  split; [now apply sorted_reverse_descending|].
  split; [intros t; apply (sorted_reverse_stable _ c_time)|].
  intros t.
  destruct (filter_firstn_prefix _ (time_is t) 5 (sorted cases c_time true))
    as [n Hn'].
  exists n. rewrite Hn'. f_equal. apply (sorted_reverse_stable _ c_time).
Qed.

Lemma three_times_numbers :
  Forall (fun c => is_number (c_time c)) (encounter_order Examples.three_times).
Proof. repeat constructor; discriminate. Qed.

Lemma C8_slowest_tests_top5_stable_witness :
  Forall (fun c => is_number (c_time c)) (encounter_order Examples.three_times)
  /\ exists rest,
       Permutation (slowest_tests Examples.three_times ++ rest)
         (encounter_order Examples.three_times)
       /\ List.length (slowest_tests Examples.three_times)
          = Nat.min 5 (List.length (encounter_order Examples.three_times))
       /\ StronglySorted (fun a b => float_le (c_time b) (c_time a))
            (slowest_tests Examples.three_times ++ rest)
       /\ (forall t, filter (time_is t) (slowest_tests Examples.three_times ++ rest)
                     = filter (time_is t) (encounter_order Examples.three_times))
       /\ (forall t, exists n,
              filter (time_is t) (slowest_tests Examples.three_times)
              = firstn n (filter (time_is t) (encounter_order Examples.three_times))).
Proof.
  split; [exact three_times_numbers|].
  exact (C8_slowest_tests_top5_stable Examples.three_times three_times_numbers).
Defined.

(** Times 0.1, 0.5, 0.3 come out as 0.5, 0.3, 0.1. *)
Example slowest_three_times :
  map c_name (slowest_tests Examples.three_times) = ["b"; "c"; "a"]
  /\ map c_time (slowest_tests Examples.three_times)
     = [Finite (1 # 2); Finite (3 # 10); Finite (1 # 10)].
Proof. split; reflexivity. Qed.

(** Seven cases with ties: the five slowest, equal times in encounter
    order (b, d, f, g), the two 0.1 cases cut off. *)
Example slowest_tied_times :
  map c_name (slowest_tests Examples.tied_times) = ["e"; "b"; "d"; "f"; "g"].
Proof. reflexivity. Qed.

End Slowest.

(* ===================================================================== *)
(** ** Orchestration: setup, suites, report, teardown *)
(* ===================================================================== *)

Section Orchestration.
Import Requests Runner RunSpec.

Lemma emit_run (e : event) (s : TestRunner) :
  runState (emit e) s = (tt, with_trace s (e :: trace s)).
Proof. reflexivity. Qed.

(** What the readiness loop does to the runner: it only adds health
    requests to the trace. *)
Lemma wait_app_ready_frame (w : World) (budget attempt : nat) (s s' : TestRunner)
    (r : attempt_result) :
  runState (wait_app_ready w attempt budget) s = (r, s') ->
  exists evs, s' = with_trace s (evs ++ trace s)
              /\ Forall (fun e => is_setup_phase e = true) evs.
Proof.
  revert attempt s s' r. induction budget as [|budget IH]; intros attempt s s' r.
  - cbn. intros H. inversion H; subst. exists []. split; [now destruct s'|constructor].
  - cbn [wait_app_ready]. cbn -[wait_app_ready].
    destruct (health_attempt _ _).
    + cbn. intros H. inversion H; subst. exists [Health_get attempt]. split; [reflexivity|].
      repeat constructor.
    + intros H. apply IH in H. destruct H as [evs [-> Hevs]].
      exists (evs ++ [Health_get attempt]). split.
      * unfold with_trace. cbn. now rewrite <- app_assoc.
      * apply Forall_app. split; [exact Hevs|repeat constructor].
    + cbn. intros H. inversion H; subst. exists [Health_get attempt]. split; [reflexivity|].
      repeat constructor.
Qed.

Lemma wait_app_ready_result (w : World) (budget attempt : nat) (s s' : TestRunner)
    (r : attempt_result) :
  runState (wait_app_ready w attempt budget) s = (r, s') ->
  (r = Ready <->
   exists k, (attempt <= k < attempt + budget)%nat
     /\ health_attempt (json_errors_are_request_exceptions w) (health w k) = Ready
     /\ forall i, (attempt <= i < k)%nat ->
          health_attempt (json_errors_are_request_exceptions w) (health w i) = Retry).
Proof.
  revert attempt s s' r. induction budget as [|budget IH]; intros attempt s s' r.
  - cbn. intros H. inversion H; subst. split; [discriminate|].
    intros [k [Hk _]]. lia.
  - cbn [wait_app_ready]. cbn -[wait_app_ready].
    destruct (health_attempt _ (health w attempt)) eqn:E.
    + cbn. intros H. inversion H; subst. split; [intros _|reflexivity].
      exists attempt. split; [lia|]. split; [exact E|]. intros i Hi. lia.
    + intros H. apply IH in H. rewrite H. split.
      * intros [k [Hk [Hr Hb]]]. exists k. split; [lia|]. split; [exact Hr|].
        intros i Hi. destruct (Nat.eq_dec i attempt) as [->|Hne]; [exact E|].
        apply Hb. lia.
      * intros [k [Hk [Hr Hb]]]. exists k.
        assert (k <> attempt) by (intros ->; congruence).
        split; [lia|]. split; [exact Hr|]. intros i Hi. apply Hb. lia.
    + cbn. intros H. inversion H; subst. split; [discriminate|].
      intros [k [Hk [Hr Hb]]].
      destruct (Nat.eq_dec k attempt) as [->|Hne]; [congruence|].
      specialize (Hb attempt). rewrite E in Hb. discriminate Hb. lia.
Qed.


Lemma becomes_ready_iff (w : World) :
  becomes_ready w <->
  exists k, (0 <= k < 0 + 30)%nat
     /\ health_attempt (json_errors_are_request_exceptions w) (health w k) = Ready
     /\ forall i, (0 <= i < k)%nat ->
          health_attempt (json_errors_are_request_exceptions w) (health w i) = Retry.
Proof.
  unfold becomes_ready. split; intros [k [Hk [Hr Hb]]]; exists k;
    (split; [lia|]); (split; [exact Hr|]); intros i Hi; apply Hb; lia.
Qed.

Lemma extends_refl (P : event -> bool) (t : list event) : extends P t t.
Proof. exists []. split; [reflexivity|constructor]. Qed.

Lemma extends_cons (P : event -> bool) (e : event) (t t' : list event) :
  P e = true -> extends P t t' -> extends P t (e :: t').
Proof.
  intros He [evs [-> Hevs]]. exists (e :: evs). split; [reflexivity|].
  now constructor.
Qed.

Lemma extends_trans (P : event -> bool) (t1 t2 t3 : list event) :
  extends P t1 t2 -> extends P t2 t3 -> extends P t1 t3.
Proof.
  intros [e1 [-> H1]] [e2 [-> H2]]. exists (e2 ++ e1).
  split; [now rewrite app_assoc|]. apply Forall_app. now split.
Qed.

Ltac extend := repeat (apply extends_cons; [reflexivity|]); try apply extends_refl.

Lemma wait_app_ready_extends (w : World) (budget attempt : nat)
    (s s' : TestRunner) (r : attempt_result) :
  runState (wait_app_ready w attempt budget) s = (r, s') ->
  cleanup s' = cleanup s /\ verbose s' = verbose s
  /\ docker_client s' = docker_client s
  /\ test_container s' = test_container s
  /\ test_results s' = test_results s
  /\ extends is_setup_phase (trace s) (trace s').
Proof.
  intros H. apply wait_app_ready_frame in H. destruct H as [evs [-> Hevs]].
  cbn. repeat split. now exists evs.
Qed.

Lemma cleanup_container_spec (s s' : TestRunner) (u : unit) :
  runState cleanup_container s = (u, s') ->
  cleanup s' = cleanup s
  /\ verbose s' = verbose s
  /\ docker_client s' = docker_client s
  /\ test_results s' = test_results s
  /\ extends is_setup_phase (trace s) (trace s').
Proof.
  unfold cleanup_container. cbn.
  destruct (test_container s), (docker_client s) eqn:Ed; cbn;
    intros H; inversion H; subst; clear H; cbn;
    repeat split; try congruence; extend.
Qed.

(** [start_test_container] touches the container flag and the trace only,
    and returns [True] exactly when the container starts, is seen running
    and becomes ready. *)
Lemma start_test_container_spec (w : World) (s s' : TestRunner) (b : bool) :
  runState (start_test_container w) s = (b, s') ->
  cleanup s' = cleanup s
  /\ verbose s' = verbose s
  /\ docker_client s' = docker_client s
  /\ test_results s' = test_results s
  /\ extends is_setup_phase (trace s) (trace s')
  /\ (b = true <-> docker_client s = true
                   /\ run_succeeds w = true
                   /\ wait_running (reload_statuses w) = true
                   /\ becomes_ready w).
Proof.
  unfold start_test_container.
  cbn -[wait_app_ready cleanup_container].
  destruct (runState cleanup_container _) as [u s1] eqn:E1.
  apply cleanup_container_spec in E1. cbn in E1.
  destruct E1 as (Hc & Hv & Hd & Hr & Ht).
  assert (Ht1 : extends is_setup_phase (trace s) (trace s1)).
  { eapply extends_trans; [|exact Ht]. extend. }
  clear Ht.
  destruct (docker_client s1) eqn:Ed1.
  2:{ cbn. intros H. inversion H; subst; clear H.
      repeat split; try congruence. intros [F _]. congruence. }
  cbn -[wait_app_ready].
  destruct (run_succeeds w) eqn:Er.
  2:{ cbn. intros H. inversion H; subst; clear H. cbn.
      repeat split; try congruence; try tauto. now apply extends_cons. }
  cbn -[wait_app_ready].
  destruct (wait_running (reload_statuses w)) eqn:Ew.
  2:{ cbn. intros H. inversion H; subst; clear H. cbn.
      repeat split; try congruence; try tauto. now apply extends_cons. }
  cbn -[wait_app_ready].
  destruct (runState (wait_app_ready w 0 30) _) as [r s2] eqn:Ep.
  pose proof (wait_app_ready_result _ _ _ _ _ _ Ep) as Hres.
  apply wait_app_ready_extends in Ep. cbn in Ep.
  destruct Ep as (Hc2 & Hv2 & Hd2 & _ & Hr2 & Ht2).
  rewrite <- becomes_ready_iff in Hres.
  assert (Ht' : extends is_setup_phase (trace s) (trace s2)).
  { eapply extends_trans; [|exact Ht2]. now apply extends_cons. }
  destruct r; cbn; intros H; inversion H; subst; clear H;
    repeat split; try congruence; try tauto.
  - intros [_ [_ [_ Hb]]]. apply Hres in Hb. discriminate.
  - intros [_ [_ [_ Hb]]]. apply Hres in Hb. discriminate.
Qed.

(** A pytest run touches its own entry and the trace only; it returns
    [True] exactly when it leaves the entry passed, and leaves it failed or
    in error otherwise. *)
Lemma run_tests_spec (w : World) (c : category) (s s' : TestRunner) (b : bool) :
  runState (run_tests w c) s = (b, s') ->
  cleanup s' = cleanup s
  /\ verbose s' = verbose s
  /\ docker_client s' = docker_client s
  /\ test_container s' = test_container s
  /\ trace s' = Subprocess_pytest c :: trace s
  /\ exists o, test_results s' = update (test_results s) c o
               /\ (if b then status o = passed
                   else status o = failed \/ status o = error).
Proof.
  unfold run_tests. cbn.
  destruct (subprocess_run w c) as [code|]; [destruct (code =? 0)|];
    cbn; intros H; inversion H; subst; clear H; cbn;
    repeat split; destruct c; cbn; eexists; (split; [reflexivity|cbn; tauto]).
Qed.

Lemma overall_update (r : results) (c : category) (o : outcome) :
  r_overall (update r c o) = r_overall r.
Proof. now destruct c. Qed.

Lemma lookup_set_overall (r : results) (e : overall_entry) (c : category) :
  lookup (set_overall r e) c = lookup r c.
Proof. now destruct c. Qed.

(** The setup phase either fails, and then the calling method returns
    [False] at once with [test_results] as it was, or succeeds, and then
    the method goes on with [rest]. *)
Lemma after_setup_spec (w : World) (s s' : TestRunner) (b : bool)
    (rest : M bool) :
  runState (after_setup w rest) s = (b, s') ->
  (setup_fails w /\ b = false
   /\ cleanup s' = cleanup s
   /\ test_results s' = test_results s
   /\ extends is_setup_phase (trace s) (trace s'))
  \/ (~ setup_fails w
      /\ exists s1, cleanup s1 = cleanup s
                    /\ test_results s1 = test_results s
                    /\ extends is_setup_phase (trace s) (trace s1)
                    /\ runState rest s1 = (b, s')).
Proof.
  unfold after_setup, setup_docker, build_docker_image.
  unfold setup_fails, docker_setup_fails, image_build_fails, container_not_ready.
  cbn -[start_test_container].
  destruct (from_env_succeeds w) eqn:E1; cbn -[start_test_container].
  2:{ intros H; inversion H; subst; clear H; cbn. left.
      repeat split; [tauto|extend]. }
  destruct (daemon_responds w) eqn:E2; cbn -[start_test_container].
  2:{ intros H; inversion H; subst; clear H; cbn. left.
      repeat split; [tauto|extend]. }
  destruct (build_succeeds w) eqn:E3; cbn -[start_test_container].
  2:{ intros H; inversion H; subst; clear H; cbn. left.
      repeat split; [tauto|extend]. }
  destruct (runState (start_test_container w) _) as [ok s1] eqn:E4.
  apply start_test_container_spec in E4. cbn in E4.
  destruct E4 as (Hc & Hv & Hd & Hr & Ht & Hok).
  assert (Ht1 : extends is_setup_phase (trace s) (trace s1)).
  { eapply extends_trans; [|exact Ht]. extend. }
  destruct ok; cbn.
  - intros H. right. destruct Hok as [Hok _]. specialize (Hok eq_refl).
    destruct Hok as (_ & R1 & R2 & R3). split.
    + intros [[F|F]|[F|[F|[F|F]]]]; congruence.
    + exists s1. repeat split; trivial.
  - intros H; inversion H; subst; clear H. left.
    repeat split; trivial.
    right. right.
    destruct (run_succeeds w); [|now left].
    destruct (wait_running (reload_statuses w)); [|now right; left].
    right. right. intros Hb. destruct Hok as [_ Hok].
    discriminate Hok. repeat split; trivial.
Qed.

Lemma after_setup_short_circuit (w : World) (s s' : TestRunner) (b : bool)
    (rest : M bool) :
  setup_fails w ->
  runState (after_setup w rest) s = (b, s') ->
  b = false
  /\ cleanup s' = cleanup s
  /\ test_results s' = test_results s
  /\ extends is_setup_phase (trace s) (trace s').
Proof.
  intros Hf H. apply after_setup_spec in H.
  destruct H as [H|[H _]]; [tauto|contradiction].
Qed.

(** The teardown touches the container flag and the trace only. *)
Lemma cleanup_resources_spec (s s' : TestRunner) (u : unit) :
  runState cleanup_resources s = (u, s') ->
  cleanup s' = cleanup s
  /\ test_results s' = test_results s
  /\ extends is_teardown (Enter_cleanup_resources :: trace s) (trace s').
Proof.
  unfold cleanup_resources, cleanup_container. cbn.
  destruct (cleanup s), (test_container s), (docker_client s) eqn:Ed; cbn;
    try rewrite Ed; cbn;
    intros H; inversion H; subst; clear H; cbn; repeat split; extend.
Qed.

(** [main]: the tests of the mode, the report on the results they leave,
    [sys.exit], one teardown, and the end of the process. *)
Lemma main_spec (w : World) (m : mode) (s s' : TestRunner) (rep : report)
    (code : Z) :
  runState (main w m) s = ((rep, code), s') ->
  exists success s1 teardown,
    runState (run_mode w m) s = (success, s1)
    /\ rep = generate_report (test_results s1)
    /\ code = (if success then 0 else 1)
    /\ cleanup s' = cleanup s1
    /\ test_results s' = test_results s1
    /\ trace s' = Process_exit code
                  :: teardown ++ Enter_cleanup_resources :: Sys_exit code
                  :: Enter_generate_report :: trace s1
    /\ Forall (fun e => is_teardown e = true) teardown.
Proof.
  unfold main. cbn -[run_mode cleanup_resources].
  destruct (runState (run_mode w m) s) as [success s1] eqn:E1.
  cbn -[cleanup_resources].
  destruct (runState cleanup_resources _) as [u s2] eqn:E2.
  apply cleanup_resources_spec in E2. cbn in E2.
  destruct E2 as (Hc & Hr & [td [Ht Htd]]).
  cbn. intros H. inversion H; subst; clear H. cbn.
  exists success, s1, td. repeat split; trivial. now rewrite Ht.
Qed.

Lemma setup_phase_no_subprocess (evs : list event) (c : category) :
  Forall (fun e => is_setup_phase e = true) evs -> ~ In (Subprocess_pytest c) evs.
Proof.
  intros H Hin. rewrite Forall_forall in H. apply H in Hin. discriminate.
Qed.

Lemma teardown_no_subprocess (evs : list event) (c : category) :
  Forall (fun e => is_teardown e = true) evs -> ~ In (Subprocess_pytest c) evs.
Proof.
  intros H Hin. rewrite Forall_forall in H. apply H in Hin. discriminate.
Qed.

Lemma setup_phase_no_teardown_call (evs : list event) :
  Forall (fun e => is_setup_phase e = true) evs ->
  filter is_cleanup_resources evs = [].
Proof.
  induction 1 as [|e evs He _ IH]; [reflexivity|].
  cbn. rewrite IH. now destruct e.
Qed.

Lemma teardown_no_teardown_call (evs : list event) :
  Forall (fun e => is_teardown e = true) evs ->
  filter is_cleanup_resources evs = [].
Proof.
  induction 1 as [|e evs He _ IH]; [reflexivity|].
  cbn. rewrite IH. now destruct e.
Qed.

(** C6 (code_bug): when the setup of a mode=all run fails, no suite is run
    and the four category entries stay not_run, the exit code is 1 and the
    teardown is entered exactly once before the process ends; but the
    recorded overall status is not failed: [run_all_tests] returns before
    it records it, so the ["overall"] entry stays not_run and the report
    banner reads PASSED. *)
Theorem C6_setup_failure_overall_not_recorded (w : World) (cl vb : bool) :
  setup_fails w ->
  exists rep final setup_events teardown_events,
    run w ModeAll cl vb = (rep, 1, final)
    /\ trace final
       = setup_events
         ++ [Enter_generate_report; Sys_exit 1; Enter_cleanup_resources]
         ++ teardown_events ++ [Process_exit 1]
    /\ Forall (fun e => is_setup_phase e = true) setup_events
    /\ Forall (fun e => is_teardown e = true) teardown_events
    /\ (forall c, ~ In (Subprocess_pytest c) (trace final))
    /\ List.length (filter is_cleanup_resources (trace final)) = 1%nat
    /\ (forall c, status (lookup (test_results final) c) = not_run)
    /\ overall_status (r_overall (test_results final)) = not_run
    /\ overall_passed rep = true.
Proof.
  intros Hf. unfold run.
  destruct (runState (main w ModeAll) (init cl vb)) as [[rep code] s'] eqn:E.
  apply main_spec in E.
  destruct E as (success & s1 & td & E1 & -> & -> & Hc & Hr & Ht & Htd).
  unfold run_mode, run_all_tests in E1. cbn -[after_setup] in E1.
  apply after_setup_short_circuit in E1; [|exact Hf]. cbn in E1.
  destruct E1 as (-> & Hc1 & Hr1 & [evs [Ht1 Hevs]]).
  rewrite app_nil_r in Ht1. subst evs.
  exists (generate_report (test_results s1)).
  eexists. exists (rev (trace s1)), (rev td).
  split; [reflexivity|]. cbn [trace test_results].
  assert (Hshape : rev (trace s') = rev (trace s1)
            ++ [Enter_generate_report; Sys_exit 1; Enter_cleanup_resources]
            ++ rev td ++ [Process_exit 1]).
  { rewrite Ht. cbn. rewrite rev_app_distr. cbn.
    now rewrite <- !app_assoc. }
  apply Forall_rev in Hevs. apply Forall_rev in Htd.
  split; [exact Hshape|]. split; [exact Hevs|]. split; [exact Htd|].
  rewrite Hshape, Hr, Hr1.
  split.
  { intros c Hin. rewrite !in_app_iff in Hin.
    destruct Hin as [Hin|[Hin|[Hin|Hin]]].
    - revert Hin. now apply setup_phase_no_subprocess.
    - cbn in Hin. intuition discriminate.
    - revert Hin. now apply teardown_no_subprocess.
    - cbn in Hin. intuition discriminate. }
  split.
  { rewrite !filter_app, (setup_phase_no_teardown_call _ Hevs),
      (teardown_no_teardown_call _ Htd). reflexivity. }
  split; [intros c; now destruct c|]. split; reflexivity.
Qed.

Lemma C6_setup_failure_overall_not_recorded_witness :
  setup_fails Examples.never_loaded
  /\ exists rep final setup_events teardown_events,
       run Examples.never_loaded ModeAll true false = (rep, 1, final)
       /\ trace final
          = setup_events
            ++ [Enter_generate_report; Sys_exit 1; Enter_cleanup_resources]
            ++ teardown_events ++ [Process_exit 1]
       /\ Forall (fun e => is_setup_phase e = true) setup_events
       /\ Forall (fun e => is_teardown e = true) teardown_events
       /\ (forall c, ~ In (Subprocess_pytest c) (trace final))
       /\ List.length (filter is_cleanup_resources (trace final)) = 1%nat
       /\ (forall c, status (lookup (test_results final) c) = not_run)
       /\ overall_status (r_overall (test_results final)) = not_run
       /\ overall_passed rep = true.
Proof.
  assert (H : setup_fails Examples.never_loaded).
  { right. right. right. right. intros [k [_ [H _]]]. simpl in H. discriminate. }
  split; [exact H|].
  exact (C6_setup_failure_overall_not_recorded Examples.never_loaded true false H).
Defined.

(** The run of the example in which the model never loads: 30 health
    checks, no suite, exit code 1, the overall entry still not_run and the
    banner PASSED. *)
Example never_loaded_run :
  let '(rep, code, final) := run Examples.never_loaded ModeAll true false in
  code = 1
  /\ overall_passed rep = true
  /\ overall_status (r_overall (test_results final)) = not_run
  /\ filter is_subprocess (trace final) = []
  /\ List.length (filter (fun e => match e with Health_get _ => true | _ => false end)
                    (trace final)) = 30%nat
  /\ skipn 38 (trace final)
     = [Enter_generate_report; Sys_exit 1; Enter_cleanup_resources;
        Enter_cleanup_container; Container_stop_remove; Containers_get_by_name;
        Image_remove; Process_exit 1].
Proof. vm_compute. repeat split. Qed.

(** C7: a mode=unit run enters neither Docker setup nor image build nor
    container start and makes no call to Docker at all; the unit suite is
    the only subprocess, followed by the report, the exit and a teardown
    that has no client to call. *)
Theorem C7_unit_mode_never_touches_container (w : World) (cl vb : bool) :
  exists rep code final,
    run w ModeUnit cl vb = (rep, code, final)
    /\ trace final
       = [Subprocess_pytest Unit; Enter_generate_report; Sys_exit code;
          Enter_cleanup_resources]
         ++ (if cl then [Enter_cleanup_container] else [])
         ++ [Process_exit code]
    /\ (forall e, In e (trace final) -> is_container_setup e = false)
    /\ filter is_subprocess (trace final) = [Subprocess_pytest Unit]
    /\ docker_client final = false
    /\ test_container final = false.
Proof.
  unfold run, main, run_mode, run_specific_tests, run_tests, cleanup_resources,
    cleanup_container.
  cbn.
  destruct (subprocess_run w Unit) as [returncode|];
    [destruct (returncode =? 0)|]; destruct cl; cbn;
    do 3 eexists; (split; [reflexivity|]); cbn;
    (split; [reflexivity|]);
    (split; [intros e Hin; cbn in Hin;
             repeat (destruct Hin as [<-|Hin]; [reflexivity|]); destruct Hin|]);
    repeat split.
Qed.

Lemma run_status_eqb_eq (a b : run_status) :
  run_status_eqb a b = true <-> a = b.
Proof. destruct a, b; cbn; split; congruence. Qed.

Lemma names_with_nil (s : run_status) (r : results) :
  is_nil (names_with s r) = true
  <-> (forall c, status (lookup r c) <> s) /\ overall_status (r_overall r) <> s.
Proof.
  assert (Hneq : forall a, run_status_eqb a s = false -> a <> s).
  { intros a H E. apply run_status_eqb_eq in E. congruence. }
  unfold names_with, items. cbn.
  destruct (run_status_eqb (status (r_unit r)) s) eqn:E1;
  destruct (run_status_eqb (status (r_integration r)) s) eqn:E2;
  destruct (run_status_eqb (status (r_api r)) s) eqn:E3;
  destruct (run_status_eqb (status (r_docker r)) s) eqn:E4;
  destruct (run_status_eqb (overall_status (r_overall r)) s) eqn:E5;
  cbn;
  (split;
   [ first [ discriminate
           | intros _; split;
             [intros c; destruct c; cbn; now apply Hneq | now apply Hneq] ]
   | intros [Hc Ho];
     first [ reflexivity
           | exfalso;
             repeat match goal with
                    | H : run_status_eqb _ _ = true |- _ =>
                        apply run_status_eqb_eq in H
                    end;
             first [ now apply (Hc Unit) | now apply (Hc Integration)
                   | now apply (Hc Api) | now apply (Hc Docker)
                   | now apply Ho ] ] ]).
Qed.

(** The banner of [generate_report] on any [test_results]: PASSED exactly
    when no entry, ["overall"] included, is failed or in error. *)
Lemma generate_report_banner (r : results) :
  overall_passed (generate_report r) = true
  <-> no_category_failed r
      /\ overall_status (r_overall r) <> failed
      /\ overall_status (r_overall r) <> error.
Proof.
  unfold generate_report. cbn [overall_passed].
  rewrite andb_true_iff, !names_with_nil. unfold no_category_failed.
  split.
  - intros [[Hf Hof] [He Hoe]]. split; [|split; assumption].
    intros c. split; [apply Hf|apply He].
  - intros [Hc [Hof Hoe]]. split; (split; [intros c; apply Hc|assumption]).
Qed.

Lemma record_start_consistent (r : results) (t : option Q) :
  overall_consistent r ->
  overall_consistent
    (set_overall r (mkOverallEntry (overall_status (r_overall r)) t
                      (end_time (r_overall r)))).
Proof.
  unfold overall_consistent. cbn. intros [He Hf]. split; [exact He|].
  intros H. destruct (Hf H) as [c Hc]. exists c. now rewrite lookup_set_overall.
Qed.

Lemma record_end_consistent (r : results) (success : bool) (t : option Q) :
  (success = false ->
   exists c, status (lookup r c) = failed \/ status (lookup r c) = error) ->
  overall_consistent
    (set_overall r (mkOverallEntry (if success then passed else failed)
                      (start_time (r_overall r)) t)).
Proof.
  unfold overall_consistent. cbn. intros H. split.
  - destruct success; discriminate.
  - intros E. destruct success; [discriminate|].
    destruct (H eq_refl) as [c Hc]. exists c. now rewrite lookup_set_overall.
Qed.

(** One suite after a successful setup (the containerised modes). *)
Lemma single_suite_consistent (w : World) (c : category) (s s' : TestRunner)
    (b : bool) :
  runState (success <- run_tests w c ;;
            record_end w success ;;
            ret success) s = (b, s') ->
  overall_consistent (test_results s').
Proof.
  cbn -[run_tests].
  destruct (runState (run_tests w c) s) as [u s1] eqn:E.
  apply run_tests_spec in E. destruct E as (_ & _ & _ & _ & _ & o & Hr & Ho).
  cbn. intros H. inversion H; subst; clear H. cbn. rewrite Hr.
  apply record_end_consistent. intros ->. exists c.
  destruct c; cbn; exact Ho.
Qed.

(** The four suites of mode=all after a successful setup. *)
Lemma all_suites_consistent (w : World) (s s' : TestRunner) (b : bool) :
  runState (u <- run_tests w Unit ;;
            i <- run_tests w Integration ;;
            a <- run_tests w Api ;;
            d <- run_tests w Docker ;;
            let success := u && i && a && d in
            record_end w success ;;
            ret success) s = (b, s') ->
  overall_consistent (test_results s').
Proof.
  cbn -[run_tests].
  destruct (runState (run_tests w Unit) s) as [u s1] eqn:E1.
  apply run_tests_spec in E1. destruct E1 as (_ & _ & _ & _ & _ & o1 & Hr1 & Ho1).
  destruct (runState (run_tests w Integration) s1) as [i s2] eqn:E2.
  apply run_tests_spec in E2. destruct E2 as (_ & _ & _ & _ & _ & o2 & Hr2 & Ho2).
  destruct (runState (run_tests w Api) s2) as [a s3] eqn:E3.
  apply run_tests_spec in E3. destruct E3 as (_ & _ & _ & _ & _ & o3 & Hr3 & Ho3).
  destruct (runState (run_tests w Docker) s3) as [d s4] eqn:E4.
  apply run_tests_spec in E4. destruct E4 as (_ & _ & _ & _ & _ & o4 & Hr4 & Ho4).
  cbn. intros H. inversion H; subst; clear H. cbn.
  rewrite Hr4, Hr3, Hr2, Hr1.
  apply record_end_consistent. intros Hs.
  destruct u; [destruct i; [destruct a; [destruct d; [discriminate|]|]|]|].
  - exists Docker. exact Ho4.
  - exists Api. exact Ho3.
  - exists Integration. exact Ho2.
  - exists Unit. exact Ho1.
Qed.

(** Whatever the mode and the world, the tests leave the ["overall"] entry
    consistent with the category entries. *)
Lemma run_mode_consistent (w : World) (m : mode) (s s' : TestRunner) (b : bool) :
  overall_consistent (test_results s) ->
  runState (run_mode w m) s = (b, s') ->
  overall_consistent (test_results s').
Proof.
  intros Hcons.
  assert (Hsetup : forall rest,
             (forall s1 s2 b', runState rest s1 = (b', s2) ->
                               overall_consistent (test_results s2)) ->
             runState (record_start w ;; after_setup w rest) s = (b, s') ->
             overall_consistent (test_results s')).
  { intros rest Hrest. cbn -[after_setup]. intros H.
    apply after_setup_spec in H.
    destruct H as [(_ & _ & _ & Hr & _)|(_ & s1 & _ & _ & _ & H)].
    - rewrite Hr. cbn. now apply record_start_consistent.
    - eapply Hrest. exact H. }
  destruct m; unfold run_mode, run_all_tests, run_specific_tests.
  - apply Hsetup. intros s1 s2 b'. apply all_suites_consistent.
  - intros H.
    apply (single_suite_consistent w Unit (snd (runState (record_start w) s)) s' b).
    exact H.
  - apply Hsetup. intros s1 s2 b'. apply single_suite_consistent.
  - apply Hsetup. intros s1 s2 b'. apply single_suite_consistent.
  - apply Hsetup. intros s1 s2 b'. apply single_suite_consistent.
Qed.

Lemma init_consistent (cl vb : bool) :
  overall_consistent (test_results (init cl vb)).
Proof. split; cbn; discriminate. Qed.

(** C10, as stated, fails: the banner also reads the ["overall"] entry.
    In the state where the unit entry is passed, the other categories are
    not run and the overall entry is failed, no category is failed or in
    error and the banner reads FAILED. *)
Lemma C10_banner_reads_overall_entry :
  no_category_failed MoreExamples.overall_failed_only
  /\ overall_passed (generate_report MoreExamples.overall_failed_only) = false
  /\ failed_tests (generate_report MoreExamples.overall_failed_only)
     = ["overall"].
Proof.
  split; [|split; reflexivity].
  intros c. destruct c; cbn; split; discriminate.
Qed.

(** C10, amended: in every state of the results map the report banner
    reads PASSED exactly when no entry, the four categories and the
    overall entry alike, is failed or in error; an entry that is not_run
    counts like one that passed.  In the state a run ends in, whatever the
    mode and the world, the overall entry is failed only when a category
    is failed or in error, so there the banner reads PASSED exactly when
    no category is failed or in error, and a run that executed no suite
    still reads PASSED. *)
Theorem C10_report_banner_passed_iff (r : results) (w : World) (m : mode)
    (cl vb : bool) :
  (overall_passed (generate_report r) = true
   <-> no_category_failed r
       /\ overall_status (r_overall r) <> failed
       /\ overall_status (r_overall r) <> error)
  /\ ((forall c, status (lookup r c) = not_run \/ status (lookup r c) = passed)
      /\ (overall_status (r_overall r) = not_run
          \/ overall_status (r_overall r) = passed)
      -> overall_passed (generate_report r) = true)
  /\ exists rep code final,
       run w m cl vb = (rep, code, final)
       /\ rep = generate_report (test_results final)
       /\ (overall_passed rep = true <-> no_category_failed (test_results final))
       /\ ((forall c, status (lookup (test_results final) c) = not_run
                      \/ status (lookup (test_results final) c) = passed)
           -> overall_passed rep = true).
Proof.
  split; [apply generate_report_banner|]. split.
  { intros [Hc Ho]. apply generate_report_banner. split.
    - intros c. destruct (Hc c) as [H|H]; rewrite H; split; discriminate.
    - destruct Ho as [H|H]; rewrite H; split; discriminate. }
  unfold run.
  destruct (runState (main w m) (init cl vb)) as [[rep code] s'] eqn:E.
  apply main_spec in E.
  destruct E as (success & s1 & td & E1 & -> & -> & Hc & Hr & Ht & Htd).
  apply run_mode_consistent in E1; [|apply init_consistent].
  do 3 eexists. split; [reflexivity|]. cbn [test_results]. rewrite Hr.
  split; [reflexivity|].
  assert (Hiff : overall_passed (generate_report (test_results s1)) = true
                 <-> no_category_failed (test_results s1)).
  { rewrite generate_report_banner. destruct E1 as [He Hf]. split.
    - tauto.
    - intros Hn. split; [exact Hn|]. split; [|exact He].
      intros Hfailed. destruct (Hf Hfailed) as [c Hbad].
      destruct (Hn c) as [N1 N2]. tauto. }
  split; [exact Hiff|].
  intros Hall. apply Hiff. intros c.
  destruct (Hall c) as [H|H]; rewrite H; split; discriminate.
Qed.

(** A run that stops at the Docker setup executes no suite and still shows
    the PASSED banner. *)
Example no_daemon_banner :
  let '(rep, code, final) := run Examples.no_daemon ModeAll true false in
  overall_passed rep = true
  /\ passed_tests rep = [] /\ failed_tests rep = [] /\ error_tests rep = []
  /\ code = 1
  /\ map (fun it => snd (fst it)) (detailed rep)
     = [not_run; not_run; not_run; not_run; not_run].
Proof. vm_compute. repeat split. Qed.

End Orchestration.

(* ===================================================================== *)
(** ** Readiness *)
(* ===================================================================== *)

Section Readiness.
Import Requests Runner RunSpec.

(** A health check of the orchestrator counts as ready exactly for a
    response with status 200 whose body is an object with [status] equal to
    "healthy" and a truthy [model_loaded]. *)
Lemma health_attempt_ready (wraps : bool) (r : get_outcome) :
  health_attempt wraps r = Ready
  <-> exists health_data,
        r = Response 200 (Some (JObj health_data))
        /\ get_equals health_data "status" "healthy" = true
        /\ get_truthy health_data "model_loaded" = true.
Proof.
  split.
  - destruct r as [|code body]; cbn; [discriminate|].
    destruct (Z.eqb_spec code 200) as [->|]; [|discriminate].
    destruct body as [[| | | | |fields]|]; try discriminate;
      try (destruct wraps; discriminate).
    destruct (get_equals fields "status" "healthy") eqn:E1; [|discriminate].
    destruct (get_truthy fields "model_loaded") eqn:E2; [|discriminate].
    intros _. exists fields. repeat split; assumption.
  - intros [fields [-> [E1 E2]]]. cbn. now rewrite E1, E2.
Qed.

(** A body whose [model_loaded] is false or absent is not ready, whatever
    its [status]. *)
Lemma model_not_loaded_not_ready (wraps : bool) (code : Z)
    (health_data : list (string * json)) :
  dict_get health_data "model_loaded" = None
  \/ dict_get health_data "model_loaded" = Some (JBool false) ->
  health_attempt wraps (Response code (Some (JObj health_data))) <> Ready.
Proof.
  intros H E. apply health_attempt_ready in E.
  destruct E as [fields [E [_ Ht]]]. inversion E; subst fields.
  unfold get_truthy in Ht. destruct H as [H|H]; rewrite H in Ht; discriminate.
Qed.

(** The orchestrator declares the container ready only after a health
    check, among its 30, that answered 200 with a healthy status and a
    loaded model. *)
Lemma start_test_container_ready (w : World) (s s' : TestRunner) :
  runState (start_test_container w) s = (true, s') ->
  exists k health_data,
    (k < 30)%nat
    /\ health w k = Response 200 (Some (JObj health_data))
    /\ get_equals health_data "status" "healthy" = true
    /\ get_truthy health_data "model_loaded" = true.
Proof.
  intros H. apply start_test_container_spec in H.
  destruct H as (_ & _ & _ & _ & _ & [H _]).
  destruct (H eq_refl) as (_ & _ & _ & [k [Hk [Hr _]]]).
  apply health_attempt_ready in Hr. destruct Hr as [fields Hf].
  exists k, fields. tauto.
Qed.

(** The fixture of conftest.py breaks out of its loop on the first answer
    with status 200, whatever the body says. *)
Lemma wait_healthy_spec (health : nat -> get_outcome) (retries i : nat) :
  Conftest.wait_healthy health i retries = true
  <-> exists k body, (i <= k < i + retries)%nat /\ health k = Response 200 body.
Proof.
  revert i. induction retries as [|retries IH]; intros i; cbn.
  - split; [discriminate|]. intros [k [_ [Hk _]]]. lia.
  - destruct (health i) as [|code body] eqn:E.
    + rewrite IH. split; intros [k [body [Hk Hb]]]; exists k, body.
      * split; [lia|exact Hb].
      * split; [|exact Hb].
        destruct (Nat.eq_dec k i) as [->|]; [congruence|lia].
    + destruct (Z.eqb_spec code 200) as [->|Hne].
      * split; [intros _|reflexivity]. exists i, body. split; [lia|exact E].
      * rewrite IH. split; intros [k [body' [Hk Hb]]]; exists k, body'.
        -- split; [lia|exact Hb].
        -- split; [|exact Hb].
           destruct (Nat.eq_dec k i) as [->|]; [congruence|lia].
Qed.

Lemma docker_container_ready_iff (health : nat -> get_outcome) :
  Conftest.docker_container_ready health = true
  <-> exists k body, (k < 30)%nat /\ health k = Response 200 body.
Proof.
  unfold Conftest.docker_container_ready, Conftest.max_retries.
  rewrite wait_healthy_spec. split; intros [k [body [Hk Hb]]]; exists k, body;
    (split; [lia|exact Hb]).
Qed.

(** C5 (code_bug): against a service that answers 200 with
    [{"status": "healthy", "model_loaded": false}], or without the
    [model_loaded] field, the [docker_container] fixture declares the
    container ready, while [start_test_container], called as in a run
    after [setup_docker] has connected the client, polls the same answers
    30 times and gives up. *)
Theorem C5_fixture_ready_while_model_loading :
  Conftest.docker_container_ready (fun _ => Examples.still_loading) = true
  /\ Conftest.docker_container_ready (fun _ => Examples.no_model_field) = true
  /\ fst (runState (setup_docker Examples.never_loaded ;;
                    start_test_container Examples.never_loaded)
            (init true false))
     = false
  /\ fst (runState
            (setup_docker
               (Examples.world_with_health (fun _ => Examples.no_model_field)) ;;
             start_test_container
               (Examples.world_with_health (fun _ => Examples.no_model_field)))
            (init true false)) = false
  /\ fst (runState (setup_docker Examples.loaded_at_3 ;;
                    start_test_container Examples.loaded_at_3)
            (init true false))
     = true
  /\ List.length
       (filter (fun e => match e with Health_get _ => true | _ => false end)
          (trace (snd (runState (setup_docker Examples.never_loaded ;;
                                 start_test_container Examples.never_loaded)
                         (init true false)))))
     = 30%nat.
Proof. repeat split; vm_compute; reflexivity. Qed.

End Readiness.

(* ===================================================================== *)
(** ** Runs of the orchestrator in every mode *)
(* ===================================================================== *)

Section RunnerFlow.
Import Requests Runner RunSpec Flow FlowResults.

Ltac grow := repeat (apply extends_cons; [reflexivity|]); try apply extends_refl.

(** A pytest run, in one equation: the value returned, the entry recorded
    and the event added. *)
Lemma run_tests_exact (w : World) (c : category) (s : TestRunner) :
  runState (run_tests w c) s
  = (suite_passes w c,
     mkRunner (cleanup s) (verbose s) (docker_client s) (test_container s)
       (update (test_results s) c (recorded w c (lookup (test_results s) c)))
       (Subprocess_pytest c :: trace s)).
Proof.
  unfold run_tests, suite_passes, recorded. cbn.
  destruct (subprocess_run w c) as [returncode|];
    [destruct (returncode =? 0)|]; cbn; destruct c; reflexivity.
Qed.

Lemma setup_phase_not_subprocess (evs : list event) :
  Forall (fun e => is_setup_phase e = true) evs -> filter is_subprocess evs = [].
Proof.
  induction 1 as [|e evs He _ IH]; [reflexivity|].
  cbn. rewrite IH. now destruct e.
Qed.

Lemma teardown_not_subprocess (evs : list event) :
  Forall (fun e => is_teardown e = true) evs -> filter is_subprocess evs = [].
Proof.
  induction 1 as [|e evs He _ IH]; [reflexivity|].
  cbn. rewrite IH. now destruct e.
Qed.

Lemma filter_subprocess_map (cs : list category) :
  filter is_subprocess (map Subprocess_pytest cs) = map Subprocess_pytest cs.
Proof. induction cs as [|c cs IH]; [reflexivity|]. cbn. now rewrite IH. Qed.

Lemma filter_cleanup_map (cs : list category) :
  filter is_cleanup_resources (map Subprocess_pytest cs) = [].
Proof. induction cs as [|c cs IH]; [reflexivity|]. exact IH. Qed.

(** The suites of a mode once the setup is behind: each one runs, in
    order, whatever the earlier ones returned. *)
Lemma suites_run (w : World) (m : mode) (s s' : TestRunner) (b : bool)
    (rest : M bool) :
  rest = match m with
         | ModeAll =>
             u <- run_tests w Unit ;;
             i <- run_tests w Integration ;;
             a <- run_tests w Api ;;
             d <- run_tests w Docker ;;
             let success := u && i && a && d in
             record_end w success ;;
             ret success
         | ModeUnit => success <- run_tests w Unit ;;
                       record_end w success ;; ret success
         | ModeIntegration => success <- run_tests w Integration ;;
                              record_end w success ;; ret success
         | ModeApi => success <- run_tests w Api ;;
                      record_end w success ;; ret success
         | ModeDocker => success <- run_tests w Docker ;;
                         record_end w success ;; ret success
         end ->
  runState rest s = (b, s') ->
  b = forallb (suite_passes w) (suites_of m)
  /\ cleanup s' = cleanup s
  /\ test_results s' = finished w b (after_suites w (suites_of m) (test_results s))
  /\ trace s' = rev (map Subprocess_pytest (suites_of m)) ++ trace s.
Proof.
  intros -> H. destruct m; cbn -[run_tests] in H;
    repeat (rewrite run_tests_exact in H; cbn -[run_tests] in H);
    inversion H; subst; clear H; cbn;
    repeat split;
    repeat match goal with
           | |- context [suite_passes w ?c] => destruct (suite_passes w c)
           end; reflexivity.
Qed.

(** The tests of a mode: either the mode needs the container and the setup
    fails, and then nothing is recorded but the start time; or every suite
    of the mode runs and the overall status is recorded. *)
Lemma run_mode_spec (w : World) (m : mode) (s s' : TestRunner) (b : bool) :
  runState (run_mode w m) s = (b, s') ->
  (needs_container m = true /\ setup_fails w /\ b = false
   /\ cleanup s' = cleanup s
   /\ test_results s' = started w (test_results s)
   /\ extends is_setup_phase (trace s) (trace s'))
  \/ ((needs_container m = false \/ ~ setup_fails w)
      /\ b = forallb (suite_passes w) (suites_of m)
      /\ cleanup s' = cleanup s
      /\ test_results s'
         = finished w b (after_suites w (suites_of m) (started w (test_results s)))
      /\ exists evs, trace s' = rev (map Subprocess_pytest (suites_of m))
                                ++ evs ++ trace s
                     /\ Forall (fun e => is_setup_phase e = true) evs).
Proof.
  assert (Hcont : forall m' rest,
             needs_container m' = true ->
             rest = match m' with
                    | ModeAll =>
                        u <- run_tests w Unit ;;
                        i <- run_tests w Integration ;;
                        a <- run_tests w Api ;;
                        d <- run_tests w Docker ;;
                        let success := u && i && a && d in
                        record_end w success ;;
                        ret success
                    | ModeUnit => success <- run_tests w Unit ;;
                                  record_end w success ;; ret success
                    | ModeIntegration => success <- run_tests w Integration ;;
                                         record_end w success ;; ret success
                    | ModeApi => success <- run_tests w Api ;;
                                 record_end w success ;; ret success
                    | ModeDocker => success <- run_tests w Docker ;;
                                    record_end w success ;; ret success
                    end ->
             runState (record_start w ;; after_setup w rest) s = (b, s') ->
             (needs_container m' = true /\ setup_fails w /\ b = false
              /\ cleanup s' = cleanup s
              /\ test_results s' = started w (test_results s)
              /\ extends is_setup_phase (trace s) (trace s'))
             \/ ((needs_container m' = false \/ ~ setup_fails w)
                 /\ b = forallb (suite_passes w) (suites_of m')
                 /\ cleanup s' = cleanup s
                 /\ test_results s'
                    = finished w b (after_suites w (suites_of m')
                                      (started w (test_results s)))
                 /\ exists evs, trace s' = rev (map Subprocess_pytest (suites_of m'))
                                           ++ evs ++ trace s
                                /\ Forall (fun e => is_setup_phase e = true) evs)).
  { intros m' rest Hn Hrest. cbn -[after_setup]. intros H.
    apply after_setup_spec in H. cbn in H.
    destruct H as [(Hf & -> & Hc & Hr & Ht)|(Hnf & s1 & Hc & Hr & [evs [Ht Hevs]] & H)].
    - left. repeat split; trivial.
    - right. apply (suites_run w m' _ _ _ _ Hrest) in H.
      destruct H as (-> & Hc' & Hr' & Ht').
      split; [now right|]. split; [reflexivity|].
      split; [congruence|]. split; [now rewrite Hr', Hr|].
      exists evs. split; [now rewrite Ht', Ht|exact Hevs]. }
  destruct m; unfold run_mode, run_all_tests, run_specific_tests.
  - apply (Hcont ModeAll); reflexivity.
  - intros H. right.
    assert (H' : runState (success <- run_tests w Unit ;;
                           record_end w success ;; ret success)
                   (snd (runState (record_start w) s)) = (b, s')) by exact H.
    apply (suites_run w ModeUnit _ _ _ _ eq_refl) in H'.
    destruct H' as (-> & Hc' & Hr' & Ht').
    split; [now left|]. split; [reflexivity|]. split; [exact Hc'|].
    split; [exact Hr'|]. exists []. split; [exact Ht'|constructor].
  - apply (Hcont ModeIntegration); reflexivity.
  - apply (Hcont ModeApi); reflexivity.
  - apply (Hcont ModeDocker); reflexivity.
Qed.

(** The teardown, with what the cleanup flag decides. *)
Lemma cleanup_resources_flag (s s' : TestRunner) (u : unit) :
  runState cleanup_resources s = (u, s') ->
  test_results s' = test_results s
  /\ exists td, trace s' = td ++ Enter_cleanup_resources :: trace s
                /\ Forall (fun e => is_teardown e = true) td
                /\ (cleanup s = false -> td = [] /\ test_container s' = test_container s)
                /\ (cleanup s = true ->
                    test_container s' = false
                    /\ In Enter_cleanup_container td
                    /\ (test_container s = true -> In Container_stop_remove td)
                    /\ (docker_client s = false ->
                        filter is_docker_teardown_call td
                        = if test_container s then [Container_stop_remove] else [])).
Proof.
  unfold cleanup_resources, cleanup_container. cbn.
  destruct (cleanup s), (test_container s), (docker_client s) eqn:Ed; cbn;
    try rewrite Ed; cbn;
    intros H; inversion H; subst; clear H; cbn; (split; [reflexivity|]).
  - exists [Image_remove; Containers_get_by_name; Container_stop_remove;
            Enter_cleanup_container].
    split; [reflexivity|]. split; [repeat constructor|].
    split; [discriminate|]. intros _. cbn. intuition discriminate.
  - exists [Container_stop_remove; Enter_cleanup_container].
    split; [reflexivity|]. split; [repeat constructor|].
    split; [discriminate|]. intros _. cbn. intuition.
  - exists [Image_remove; Containers_get_by_name; Enter_cleanup_container].
    split; [reflexivity|]. split; [repeat constructor|].
    split; [discriminate|]. intros _. cbn. intuition discriminate.
  - exists [Enter_cleanup_container].
    split; [reflexivity|]. split; [repeat constructor|].
    split; [discriminate|]. intros _. cbn. intuition discriminate.
  - exists []. split; [reflexivity|]. split; [constructor|].
    split; [tauto|discriminate].
  - exists []. split; [reflexivity|]. split; [constructor|].
    split; [tauto|discriminate].
  - exists []. split; [reflexivity|]. split; [constructor|].
    split; [tauto|discriminate].
  - exists []. split; [reflexivity|]. split; [constructor|].
    split; [tauto|discriminate].
Qed.

(** The shape of every run: the tests of the mode, then the report, the
    call of [sys.exit], one teardown and the end of the process. *)
Lemma run_shape (w : World) (m : mode) (cl vb : bool) :
  exists rep code final b s1 td,
    run w m cl vb = (rep, code, final)
    /\ runState (run_mode w m) (init cl vb) = (b, s1)
    /\ code = (if b then 0 else 1)
    /\ rep = generate_report (test_results s1)
    /\ test_results final = test_results s1
    /\ trace final
       = rev (trace s1)
         ++ [Enter_generate_report; Sys_exit code; Enter_cleanup_resources]
         ++ td ++ [Process_exit code]
    /\ Forall (fun e => is_teardown e = true) td
    /\ (cleanup s1 = false -> td = []).
Proof.
  unfold run, main. cbn -[run_mode cleanup_resources].
  destruct (runState (run_mode w m) (init cl vb)) as [b s1] eqn:E1.
  cbn -[cleanup_resources].
  destruct (runState cleanup_resources _) as [u s2] eqn:E2.
  apply cleanup_resources_flag in E2. cbn in E2.
  destruct E2 as (Hr & td & Ht & Htd & Hoff & _).
  cbn. do 3 eexists. exists b, s1, (rev td).
  split; [reflexivity|]. cbn. split; [reflexivity|]. split; [reflexivity|].
  split; [reflexivity|]. split; [exact Hr|]. split.
  { rewrite Ht. cbn. rewrite rev_app_distr. cbn. now rewrite <- !app_assoc. }
  split; [now apply Forall_rev|].
  intros Hc. destruct (Hoff Hc) as [-> _]. reflexivity.
Qed.

Lemma suite_passes_iff (w : World) (c : category) :
  suite_passes w c = true <-> subprocess_run w c = Some 0.
Proof.
  unfold suite_passes. destruct (subprocess_run w c) as [returncode|].
  - rewrite Z.eqb_eq. split; congruence.
  - split; discriminate.
Qed.

Lemma test_phase_no_teardown_call (evs : list event) :
  Forall (fun e => is_test_phase e = true) evs ->
  filter is_cleanup_resources evs = [].
Proof.
  induction 1 as [|e evs He _ IH]; [reflexivity|].
  cbn. rewrite IH. now destruct e.
Qed.

(** The events of the tests of a mode are setup events and pytest
    subprocesses. *)
Lemma run_mode_events (w : World) (m : mode) (cl vb : bool) (b : bool)
    (s1 : TestRunner) :
  runState (run_mode w m) (init cl vb) = (b, s1) ->
  cleanup s1 = cl /\ Forall (fun e => is_test_phase e = true) (rev (trace s1)).
Proof.
  intros H. apply run_mode_spec in H. cbn in H.
  destruct H as [(_ & _ & _ & Hc & _ & [evs [Ht Hevs]])
                |(_ & _ & Hc & _ & [evs [Ht Hevs]])].
  - split; [exact Hc|]. rewrite Ht, app_nil_r. apply Forall_rev.
    eapply Forall_impl; [|exact Hevs]. intros e He. unfold is_test_phase.
    now rewrite He.
  - split; [exact Hc|]. rewrite Ht, app_nil_r. apply Forall_rev.
    apply Forall_app. split.
    + apply Forall_rev. apply Forall_forall. intros e He.
      apply in_map_iff in He. destruct He as [c [<- _]]. reflexivity.
    + eapply Forall_impl; [|exact Hevs]. intros e He. unfold is_test_phase.
      now rewrite He.
Qed.

(** The banner after the suites of a mode ran: PASSED exactly when the
    method returns [True]. *)
Lemma finished_banner (w : World) (m : mode) (cl vb : bool) :
  let b := forallb (suite_passes w) (suites_of m) in
  overall_passed
    (generate_report
       (finished w b (after_suites w (suites_of m)
                        (started w (test_results (init cl vb)))))) = b.
Proof.
  cbn zeta.
  destruct m;
    cbv [suites_of forallb after_suites fold_left suite_passes recorded];
    repeat match goal with
           | |- context [subprocess_run w ?c] =>
               destruct (subprocess_run w c) as [?returncode|]
           end;
    repeat match goal with
           | |- context [?z =? 0] => destruct (z =? 0)
           end; reflexivity.
Qed.

(** X3: when the mode needs no container or the setup succeeds, every
    suite of the mode is run, in the order unit, integration, api, docker,
    whatever the earlier suites returned; the exit code is 0 exactly when
    every one of these subprocesses exits with 0, each suite's entry holds
    its own outcome and the other entries stay untouched. *)
Theorem X3_every_suite_runs_in_order (w : World) (m : mode) (cl vb : bool) :
  needs_container m = false \/ ~ setup_fails w ->
  exists rep code final,
    run w m cl vb = (rep, code, final)
    /\ filter is_subprocess (trace final) = map Subprocess_pytest (suites_of m)
    /\ (code = 0 <-> forall c, In c (suites_of m) -> subprocess_run w c = Some 0)
    /\ (forall c, In c (suites_of m) ->
                  lookup (test_results final) c = recorded w c not_run_outcome)
    /\ (forall c, ~ In c (suites_of m) ->
                  lookup (test_results final) c = not_run_outcome).
Proof.
  intros Hok.
  destruct (run_shape w m cl vb)
    as (rep & code & final & b & s1 & td & Hrun & E & Hcode & Hrep & Hres & Htr & Htd & _).
  exists rep, code, final. split; [exact Hrun|].
  apply run_mode_spec in E. cbn in E.
  destruct E as [(Hn & Hf & _)|(_ & Hb & _ & Hr & [evs [Ht Hevs]])].
  { exfalso. destruct Hok as [Hok|Hok]; [congruence|contradiction]. }
  split.
  { rewrite Htr, Ht, app_nil_r, rev_app_distr, rev_involutive, !filter_app.
    rewrite (setup_phase_not_subprocess _ (Forall_rev Hevs)).
    rewrite (teardown_not_subprocess _ Htd), filter_subprocess_map.
    cbn. now rewrite app_nil_r. }
  split.
  { rewrite Hcode, Hb. split.
    - intros H c Hin. apply suite_passes_iff.
      destruct (forallb (suite_passes w) (suites_of m)) eqn:Ef; [|discriminate].
      rewrite forallb_forall in Ef. now apply Ef.
    - intros H.
      assert (Ef : forallb (suite_passes w) (suites_of m) = true).
      { apply forallb_forall. intros c Hin. apply suite_passes_iff. now apply H. }
      now rewrite Ef. }
  rewrite Hres, Hr. unfold finished, after_suites, started.
  split; intros c Hin; destruct m, c; cbn in *; try reflexivity;
    solve [ intuition discriminate | exfalso; apply Hin; intuition ].
Qed.

Lemma loaded_at_3_setup_succeeds : ~ setup_fails Examples.loaded_at_3.
Proof.
  intros [[F|F]|[F|[F|[F|F]]]]; try discriminate F.
  apply F. exists 3%nat. split; [lia|]. split; [reflexivity|].
  intros i Hi.
  destruct i as [|[|[|i]]]; try reflexivity. lia.
Qed.

Lemma X3_every_suite_runs_in_order_witness :
  exists rep code final,
    run Examples.loaded_at_3 ModeAll true false = (rep, code, final)
    /\ filter is_subprocess (trace final)
       = map Subprocess_pytest (suites_of ModeAll)
    /\ (code = 0 <-> forall c, In c (suites_of ModeAll) ->
                               subprocess_run Examples.loaded_at_3 c = Some 0)
    /\ (forall c, In c (suites_of ModeAll) ->
                  lookup (test_results final) c
                  = recorded Examples.loaded_at_3 c not_run_outcome)
    /\ (forall c, ~ In c (suites_of ModeAll) ->
                  lookup (test_results final) c = not_run_outcome).
Proof.
  apply (X3_every_suite_runs_in_order Examples.loaded_at_3 ModeAll true false).
  right. exact loaded_at_3_setup_succeeds.
Defined.

(** X4: in every run the exit code is 0 or 1; it is 0 exactly when the
    recorded overall status is passed, and then the banner of the report
    reads PASSED. *)
Theorem X4_exit_code_zero_iff_overall_passed (w : World) (m : mode)
    (cl vb : bool) :
  exists rep code final,
    run w m cl vb = (rep, code, final)
    /\ (code = 0 \/ code = 1)
    /\ (code = 0 <-> overall_status (r_overall (test_results final)) = passed)
    /\ (code = 0 -> overall_passed rep = true).
Proof.
  destruct (run_shape w m cl vb)
    as (rep & code & final & b & s1 & td & Hrun & E & Hcode & Hrep & Hres & _).
  exists rep, code, final. split; [exact Hrun|].
  split; [rewrite Hcode; destruct b; tauto|].
  apply run_mode_spec in E.
  destruct E as [(_ & _ & -> & _ & Hr & _)|(_ & Hb & _ & Hr & _)].
  - rewrite Hcode, Hres, Hr. cbn. split; [split; discriminate|discriminate].
  - rewrite Hres, Hrep, Hr, Hcode. split.
    + unfold finished. cbn. destruct b; split; congruence.
    + intros H0. rewrite Hb. rewrite finished_banner. rewrite <- Hb.
      now destruct b.
Qed.

(** X5: a run ends with exit code 1 under a report whose banner reads
    PASSED exactly when its mode needs the container and the setup fails;
    in every other run the banner and the exit code agree. *)
Theorem X5_exit_one_with_passed_banner_iff (w : World) (m : mode)
    (cl vb : bool) :
  exists rep code final,
    run w m cl vb = (rep, code, final)
    /\ ((code = 1 /\ overall_passed rep = true)
        <-> (needs_container m = true /\ setup_fails w)).
Proof.
  destruct (run_shape w m cl vb)
    as (rep & code & final & b & s1 & td & Hrun & E & Hcode & Hrep & Hres & _).
  exists rep, code, final. split; [exact Hrun|].
  apply run_mode_spec in E.
  destruct E as [(Hn & Hf & -> & _ & Hr & _)|(Hok & Hb & _ & Hr & _)].
  - rewrite Hcode, Hrep, Hr. split; [tauto|]. intros _. split; reflexivity.
  - rewrite Hcode, Hrep, Hr, Hb, finished_banner, <- Hb. split.
    + intros [H1 H2]. destruct b; discriminate.
    + intros [Hn Hf]. exfalso. destruct Hok as [Hok|Hok]; [congruence|contradiction].
Qed.

(** X6: every run, in every mode and whatever happens in it, enters the
    teardown exactly once, after the report and the call of [sys.exit] and
    before the process ends; nothing but setup steps and pytest
    subprocesses comes before the report, and with cleanup disabled the
    teardown makes no call at all. *)
Theorem X6_teardown_once_in_every_run (w : World) (m : mode) (cl vb : bool) :
  exists rep code final before teardown,
    run w m cl vb = (rep, code, final)
    /\ trace final
       = before
         ++ [Enter_generate_report; Sys_exit code; Enter_cleanup_resources]
         ++ teardown ++ [Process_exit code]
    /\ Forall (fun e => is_test_phase e = true) before
    /\ Forall (fun e => is_teardown e = true) teardown
    /\ List.length (filter is_cleanup_resources (trace final)) = 1%nat
    /\ (cl = false -> teardown = []).
Proof.
  destruct (run_shape w m cl vb)
    as (rep & code & final & b & s1 & td & Hrun & E & Hcode & Hrep & Hres & Htr
        & Htd & Hoff).
  apply run_mode_events in E. destruct E as [Hc Hev].
  exists rep, code, final, (rev (trace s1)), td.
  split; [exact Hrun|]. split; [exact Htr|]. split; [exact Hev|].
  split; [exact Htd|]. split.
  - rewrite Htr, !filter_app, (test_phase_no_teardown_call _ Hev),
      (teardown_no_teardown_call _ Htd). reflexivity.
  - intros ->. apply Hoff. exact Hc.
Qed.

(** X1: [start_test_container] returns [True] exactly when the runner
    holds a Docker client, the container is started, is seen running
    before the timeout, and one of the 30 health checks answers 200 with a
    healthy status and a loaded model while every earlier check asked for
    a retry; without a client it returns [False].  It never changes
    [test_results]. *)
Theorem X1_container_started_iff_ready (w : World) (s : TestRunner) :
  (fst (runState (start_test_container w) s) = true
   <-> docker_client s = true
       /\ run_succeeds w = true
       /\ wait_running (reload_statuses w) = true
       /\ exists k health_data,
            (k < 30)%nat
            /\ health w k = Response 200 (Some (JObj health_data))
            /\ get_equals health_data "status" "healthy" = true
            /\ get_truthy health_data "model_loaded" = true
            /\ forall i, (i < k)%nat ->
                 health_attempt (json_errors_are_request_exceptions w)
                   (health w i) = Retry)
  /\ test_results (snd (runState (start_test_container w) s)) = test_results s.
Proof.
  destruct (runState (start_test_container w) s) as [b s'] eqn:E.
  apply start_test_container_spec in E.
  destruct E as (_ & _ & _ & Hr & _ & Hb). cbn [fst snd].
  split; [|exact Hr]. rewrite Hb. split.
  - intros (R0 & R1 & R2 & [k [Hk [Hready Hbefore]]]).
    apply health_attempt_ready in Hready. destruct Hready as [hd [E1 [E2 E3]]].
    repeat split; trivial. exists k, hd. repeat split; trivial.
  - intros (R0 & R1 & R2 & [k [hd (Hk & E1 & E2 & E3 & Hbefore)]]).
    repeat split; trivial. exists k. split; [exact Hk|]. split; [|exact Hbefore].
    apply health_attempt_ready. exists hd. repeat split; trivial.
Qed.

(** X2: a pytest run returns [True] exactly when the subprocess exits with
    0; it records passed for exit code 0, failed for any other exit code
    and error when the subprocess cannot be started, in which case the
    duration and the details of the entry are left as they were; the
    entries of the other categories and the overall entry are untouched. *)
Theorem X2_suite_outcome_recorded (w : World) (c : category) (s : TestRunner) :
  let b := fst (runState (run_tests w c) s) in
  let r := test_results s in
  let r' := test_results (snd (runState (run_tests w c) s)) in
  (b = true <-> subprocess_run w c = Some 0)
  /\ status (lookup r' c)
     = match subprocess_run w c with
       | Some 0 => passed
       | Some _ => failed
       | None => error
       end
  /\ (forall returncode, subprocess_run w c = Some returncode ->
        duration (lookup r' c) = elapsed w c
        /\ details (lookup r' c) = Some returncode)
  /\ (subprocess_run w c = None ->
      duration (lookup r' c) = duration (lookup r c)
      /\ details (lookup r' c) = details (lookup r c))
  /\ (forall c', c' <> c -> lookup r' c' = lookup r c')
  /\ r_overall r' = r_overall r.
Proof.
  cbn zeta. rewrite run_tests_exact. cbn [fst snd test_results].
  split; [apply suite_passes_iff|].
  unfold recorded.
  destruct (subprocess_run w c) as [returncode|] eqn:E.
  - split.
    { destruct c; cbn; destruct returncode; reflexivity. }
    split.
    { intros rc Hrc. inversion Hrc; subst rc. destruct c; cbn; split; reflexivity. }
    split; [discriminate|].
    split; [|now destruct c].
    intros c' Hne. destruct c, c'; try reflexivity; congruence.
  - split; [destruct c; reflexivity|].
    split; [discriminate|].
    split; [intros _; destruct c; cbn; split; reflexivity|].
    split; [|now destruct c].
    intros c' Hne. destruct c, c'; try reflexivity; congruence.
Qed.

(** X7: the [docker_container] fixture yields the container exactly when
    one of its 30 health requests is answered with status 200, whatever
    the body; a request that raises or answers another status is retried. *)
Theorem X7_fixture_ready_iff_some_200 (health : nat -> get_outcome) :
  Conftest.docker_container_ready health = true
  <-> exists k body, (k < 30)%nat /\ health k = Response 200 body.
Proof. apply docker_container_ready_iff. Qed.

End RunnerFlow.

(* ===================================================================== *)
(** ** The reports: exceptions, breakdown, truncation *)
(* ===================================================================== *)

Section Reports.
Import Builtins Analyzer ReportSpec.

Lemma map_exn_cases {A B} (f : A -> exn + B) (l : list A) :
  (exists ys, map_exn f l = inr ys /\ Forall2 (fun x y => f x = inr y) l ys)
  \/ (exists x e, In x l /\ f x = inl e /\ map_exn f l = inl e).
Proof.
  induction l as [|x l IH].
  - left. exists []. split; [reflexivity|constructor].
  - cbn [map_exn]. destruct (f x) as [e|y] eqn:Ex.
    + right. exists x, e. split; [now left|]. split; [exact Ex|reflexivity].
    + destruct IH as [[ys [E F]]|[x' [e [Hin [Ex' E]]]]].
      * left. exists (y :: ys). rewrite E. split; [reflexivity|].
        now constructor.
      * right. exists x', e. rewrite E. split; [now right|]. split; [exact Ex'|].
        reflexivity.
Qed.


(** One line of the breakdown: it raises exactly when its percentage is
    too large for a float. *)
Lemma suite_breakdown_cases (entry : string * suite_dict) :
  (suite_rate_overflows (snd entry)
   /\ suite_breakdown entry = inl OverflowError)
  \/ (~ suite_rate_overflows (snd entry)
      /\ suite_breakdown entry
         = inr match snd entry with
               | None => []
               | Some _ =>
                   [mkSuiteLine (fst entry) (get_tests (snd entry))
                      (suite_passed (snd entry)) (get_failures (snd entry))
                      (get_errors (snd entry)) (get_time (snd entry))
                      (if get_tests (snd entry) >? 0
                       then Some (inject_Z (suite_passed (snd entry))
                                  / inject_Z (get_tests (snd entry)) * 100)%Q
                       else None)
                      ((get_failures (snd entry) =? 0)
                       && (get_errors (snd entry) =? 0))]
               end).
Proof.
  unfold suite_rate_overflows.
  destruct entry as [name [d|]]; cbn [suite_breakdown fst snd].
  - destruct (Z.gtb_spec (get_tests (Some d)) 0) as [H|H].
    + destruct (overflows (suite_passed (Some d)) (get_tests (Some d))) eqn:Eo.
      * left. split; [split; [lia|reflexivity]|].
        rewrite truediv_overflow by (trivial; lia). reflexivity.
      * right. split; [intros [_ F]; discriminate|].
        rewrite truediv_nonzero by (trivial; lia). reflexivity.
    + right. split; [intros [F _]; lia|reflexivity].
  - right. split; [intros [F _]; cbn in F; lia|reflexivity].
Qed.

(** The breakdown: it raises exactly when the percentage of some suite is
    too large; otherwise its counts add up. *)
Lemma breakdown_cases (results : results_map) :
  ((exists s, In s (values results) /\ suite_rate_overflows s)
   /\ concat_map_exn suite_breakdown results = inl OverflowError)
  \/ (~ (exists s, In s (values results) /\ suite_rate_overflows s)
      /\ exists lines,
           concat_map_exn suite_breakdown results = inr lines
           /\ sumZ (map sl_tests lines) = sumZ (map get_tests (values results))
           /\ sumZ (map sl_passed lines) = sumZ (map suite_passed (values results))
           /\ sumZ (map sl_failures lines)
              = sumZ (map get_failures (values results))
           /\ sumZ (map sl_errors lines) = sumZ (map get_errors (values results))
           /\ List.length lines = List.length (populated results)).
Proof.
  induction results as [|[name s] results IH].
  - right. split; [intros [s [[] _]]|]. exists []. repeat split.
  - cbn [concat_map_exn].
    destruct (suite_breakdown_cases (name, s)) as [[Ho E]|[Hno E]];
      rewrite E; cbn [fst snd] in *.
    + left. split; [|reflexivity]. exists s. split; [now left|exact Ho].
    + destruct IH as [[[s' [Hin Ho]] E']|[Hnone (lines & E' & H1 & H2 & H3 & H4 & H5)]];
        rewrite E'.
      * left. split; [|reflexivity]. exists s'. split; [now right|exact Ho].
      * right. split.
        { intros [s' [[<-|Hin] Ho]]; [contradiction|].
          apply Hnone. now exists s'. }
        destruct s as [d|].
        -- eexists. split; [reflexivity|]. unfold populated, values in *.
           cbn [map app flat_map fst snd sl_tests sl_passed sl_failures sl_errors
                  List.length].
           rewrite !sumZ_cons, H1, H2, H3, H4, H5. repeat split.
        -- eexists. split; [reflexivity|]. unfold populated, values in *.
           cbn [map app flat_map fst snd]. rewrite !sumZ_cons, H1, H2, H3, H4, H5.
           repeat split.
Qed.

Lemma performance_returns (results : results_map) :
  exists perf, performance_analysis results = inr perf.
Proof.
  unfold performance_analysis. destruct (all_testcases results) as [|c cs].
  - eexists. reflexivity.
  - unfold truediv_float.
    destruct (Z.eqb_spec (Z.of_nat (List.length (c :: cs))) 0) as [E|E].
    + simpl List.length in E. lia.
    + eexists. reflexivity.
Qed.

(** The details of one failed case: raised exactly for a textless case. *)
Lemma failure_detail_cases (test : case_data) :
  (textless test /\ failure_detail test = inl TypeError)
  \/ (~ textless test
      /\ failure_detail test
         = inr (test,
                match c_failure test with
                | Some (Some t) => Some (truncated 100 t)
                | _ => None
                end,
                match c_error test with
                | Some (Some t) => Some (truncated 100 t)
                | _ => None
                end)).
Proof.
  unfold failure_detail, textless, truncated.
  destruct (c_failure test) as [[t|]|], (c_error test) as [[t'|]|]; cbn;
    first [ left; split; [tauto|reflexivity]
          | right; split; [intros [H|H]; discriminate|reflexivity] ].
Qed.

(** The text report, piece by piece: it raises [OverflowError] when one of
    its percentages is too large; otherwise everything before the failure
    details returns, and the report is raised or returned by the details
    alone. *)
Lemma summary_report_pieces (results : results_map) :
  (summary_overflows results
   /\ generate_summary_report results = inl OverflowError)
  \/ (~ summary_overflows results
      /\ exists line suites perf,
           concat_map_exn suite_breakdown results = inr suites
           /\ generate_summary_report results
              = (details <- map_exn failure_detail (failed_tests results) ;;
                 ret (mkSummary (summary_statistics results) line
                        ((total_failures (summary_statistics results) =? 0)
                         && (total_errors (summary_statistics results) =? 0))
                        suites perf details))).
Proof.
  destruct (performance_returns results) as (perf & Ep).
  unfold generate_summary_report, summary_overflows.
  destruct (Z.gtb_spec (total_tests (summary_statistics results)) 0) as [H|H].
  - destruct (overflows (total_passed (summary_statistics results))
                (total_tests (summary_statistics results))) eqn:Eo.
    + left. split; [left; split; [lia|reflexivity]|].
      rewrite truediv_overflow by (trivial; lia). reflexivity.
    + rewrite truediv_nonzero by (trivial; lia). cbn [bind ret Monad_either].
      destruct (breakdown_cases results) as [[Hex Es]|[Hnone (suites & Es & _)]];
        rewrite Es; cbn [bind ret Monad_either].
      * left. split; [now right|reflexivity].
      * right. split; [intros [[_ F]|F]; [discriminate|contradiction]|].
        rewrite Ep. eexists. exists suites, perf. split; reflexivity.
  - cbn [bind ret Monad_either].
    destruct (breakdown_cases results) as [[Hex Es]|[Hnone (suites & Es & _)]];
      rewrite Es; cbn [bind ret Monad_either].
    + left. split; [now right|reflexivity].
    + right. split; [intros [[F _]|F]; [lia|contradiction]|].
      rewrite Ep. eexists. exists suites, perf. split; reflexivity.
Qed.

Lemma details_cases (cases : list case_data) :
  (exists c, In c cases /\ textless c
             /\ map_exn failure_detail cases = inl TypeError)
  \/ ((forall c, In c cases -> ~ textless c)
      /\ exists ds, map_exn failure_detail cases = inr ds
                    /\ Forall2 (fun c d => failure_detail c = inr d) cases ds).
Proof.
  destruct (map_exn_cases failure_detail cases)
    as [[ds [E F]]|[x [e [Hin [Ex E]]]]].
  - right. split; [|exists ds; now split].
    intros c Hc Ht.
    assert (exists d, failure_detail c = inr d) as [d Hd].
    { clear E. induction F as [|x y l l' Hxy _ IH]; [destruct Hc|].
      destruct Hc as [->|Hc]; [now exists y|now apply IH]. }
    destruct (failure_detail_cases c) as [[_ H]|[H _]]; [congruence|contradiction].
  - left. exists x. split; [exact Hin|].
    destruct (failure_detail_cases x) as [[Ht H]|[_ H]]; [|congruence].
    split; [exact Ht|]. rewrite E. congruence.
Qed.


(** X13: in a text report that is returned, the breakdown has one entry
    per populated suite, and its tests, passed, failed and error counts add
    up to the overall totals: an empty suite dictionary is skipped in the
    breakdown and counts as zeros in the totals. *)
Theorem X13_breakdown_adds_up (results : results_map) (r : summary_report) :
  generate_summary_report results = inr r ->
  List.length (sr_suites r) = List.length (populated results)
  /\ sumZ (map sl_tests (sr_suites r)) = total_tests (sr_overall r)
  /\ sumZ (map sl_passed (sr_suites r)) = total_passed (sr_overall r)
  /\ sumZ (map sl_failures (sr_suites r)) = total_failures (sr_overall r)
  /\ sumZ (map sl_errors (sr_suites r)) = total_errors (sr_overall r).
Proof.
  destruct (summary_report_pieces results)
    as [[_ E]|[_ (line & suites & perf & Es & E)]]; rewrite E; [discriminate|].
  destruct (map_exn failure_detail (failed_tests results)) as [e|ds];
    [discriminate|].
  cbn [bind ret Monad_either]. intros H. inversion H; subst r; clear H.
  cbn [sr_suites sr_overall]. unfold summary_statistics.
  cbn [total_tests total_passed total_failures total_errors].
  destruct (breakdown_cases results)
    as [[_ El]|[_ (lines & El & H1 & H2 & H3 & H4 & H5)]];
    rewrite Es in El; [discriminate|].
  inversion El; subst lines; clear El.
  rewrite H1, H2, H3, H4, H5, sum_suite_passed. repeat split.
Qed.

Lemma X13_breakdown_adds_up_witness :
  exists r,
    generate_summary_report Examples.two_suites = inr r
    /\ List.length (sr_suites r) = List.length (populated Examples.two_suites)
    /\ sumZ (map sl_tests (sr_suites r)) = total_tests (sr_overall r)
    /\ sumZ (map sl_passed (sr_suites r)) = total_passed (sr_overall r)
    /\ sumZ (map sl_failures (sr_suites r)) = total_failures (sr_overall r)
    /\ sumZ (map sl_errors (sr_suites r)) = total_errors (sr_overall r).
Proof.
  eexists. split; [reflexivity|].
  apply (X13_breakdown_adds_up Examples.two_suites). reflexivity.
Defined.

Lemma len_append (a b : string) :
  len (a ++ b)%string = (len a + len b)%nat.
Proof.
  induction a as [|c a IH]; cbn; [reflexivity|].
  destruct (is_continuation c); [exact IH|now rewrite IH].
Qed.

(** A slice holds the code points asked for, or all there are. *)
Lemma len_slice_to (n : nat) (t : string) :
  len (slice_to n t) = Nat.min n (len t).
Proof.
  revert n. induction t as [|c t IH]; intros n; cbn [slice_to len].
  - now rewrite Nat.min_0_r.
  - destruct (is_continuation c) eqn:E.
    + cbn [len]. rewrite E. apply IH.
    + destruct n as [|n]; [reflexivity|].
      cbn [len]. rewrite E, IH. reflexivity.
Qed.

Lemma len_truncated (n : nat) (t : string) :
  len (truncated n t) = (Nat.min n (len t) + 3)%nat.
Proof. unfold truncated. now rewrite len_append, len_slice_to. Qed.

Lemma details_shape (cases : list case_data)
    (ds : list (case_data * option string * option string)) :
  Forall2 (fun c d => failure_detail c = inr d) cases ds ->
  map (fun d => fst (fst d)) ds = cases
  /\ Forall (fun d =>
               let c := fst (fst d) in
               snd (fst d) = match c_failure c with
                             | Some (Some t) => Some (truncated 100 t)
                             | _ => None
                             end
               /\ snd d = match c_error c with
                          | Some (Some t) => Some (truncated 100 t)
                          | _ => None
                          end
               /\ forall m, snd (fst d) = Some m \/ snd d = Some m ->
                            (len m <= 103)%nat
                            /\ exists t, m = truncated 100 t
                                         /\ len m = (Nat.min 100 (len t) + 3)%nat)
       ds.
Proof.
  induction 1 as [|c d cases ds Hcd _ [IH1 IH2]]; [split; constructor|].
  cbn [map]. rewrite IH1.
  destruct (failure_detail_cases c) as [[_ Hc]|[_ Hc]]; [congruence|].
  rewrite Hc in Hcd. inversion Hcd; subst d; clear Hcd. cbn [fst snd].
  split; [reflexivity|]. constructor; [|exact IH2]. cbn [fst snd].
  split; [reflexivity|]. split; [reflexivity|].
  intros m [Hm|Hm].
  - destruct (c_failure c) as [[t|]|]; try discriminate.
    inversion Hm; subst m. rewrite len_truncated. split; [lia|].
    exists t. split; reflexivity.
  - destruct (c_error c) as [[t|]|]; try discriminate.
    inversion Hm; subst m. rewrite len_truncated. split; [lia|].
    exists t. split; reflexivity.
Qed.

(** X14: the failure details of a returned text report list the failed and
    errored cases in order; every message shown is the first 100
    characters (code points) of the case's failure or error text followed
    by "...", so it has at most 103 characters, and the ellipsis is
    appended also when nothing was cut. *)
Theorem X14_failure_messages_truncated (results : results_map)
    (r : summary_report) :
  generate_summary_report results = inr r ->
  map (fun d => fst (fst d)) (sr_failed r) = failed_tests results
  /\ Forall (fun d =>
               let c := fst (fst d) in
               snd (fst d) = match c_failure c with
                             | Some (Some t) => Some (truncated 100 t)
                             | _ => None
                             end
               /\ snd d = match c_error c with
                          | Some (Some t) => Some (truncated 100 t)
                          | _ => None
                          end
               /\ forall m, snd (fst d) = Some m \/ snd d = Some m ->
                            (len m <= 103)%nat
                            /\ exists t, m = truncated 100 t
                                         /\ len m = (Nat.min 100 (len t) + 3)%nat)
       (sr_failed r).
Proof.
  destruct (summary_report_pieces results)
    as [[_ E]|[_ (line & suites & perf & _ & E)]]; rewrite E; [discriminate|].
  destruct (details_cases (failed_tests results))
    as [(c & _ & _ & Ed)|(_ & ds & Ed & F)]; rewrite Ed; [discriminate|].
  cbn [bind ret Monad_either]. intros H. inversion H; subst r; clear H.
  cbn [sr_failed]. now apply details_shape.
Qed.

Lemma X14_failure_messages_truncated_witness :
  exists r,
    generate_summary_report MoreExamples.euro_failure = inr r
    /\ map (fun d => option_map len (snd (fst d))) (sr_failed r)
       = [Some 8%nat; Some 103%nat]
    /\ map (fun d => fst (fst d)) (sr_failed r)
       = failed_tests MoreExamples.euro_failure
    /\ Forall (fun d =>
                 let c := fst (fst d) in
                 snd (fst d) = match c_failure c with
                               | Some (Some t) => Some (truncated 100 t)
                               | _ => None
                               end
                 /\ snd d = match c_error c with
                            | Some (Some t) => Some (truncated 100 t)
                            | _ => None
                            end
                 /\ forall m, snd (fst d) = Some m \/ snd d = Some m ->
                              (len m <= 103)%nat
                              /\ exists t, m = truncated 100 t
                                           /\ len m
                                              = (Nat.min 100 (len t) + 3)%nat)
         (sr_failed r).
Proof.
  eexists. split; [reflexivity|]. split; [reflexivity|].
  apply (X14_failure_messages_truncated MoreExamples.euro_failure). reflexivity.
Defined.

(** Forty euro signs, 120 bytes, are 40 characters: the slice keeps them
    whole. *)
Example slice_keeps_code_points :
  len MoreExamples.euros = 40%nat
  /\ String.length MoreExamples.euros = 120%nat
  /\ slice_to 100 MoreExamples.euros = MoreExamples.euros
  /\ len (slice_to 3 MoreExamples.euros) = 3%nat
  /\ String.length (slice_to 3 MoreExamples.euros) = 9%nat.
Proof. repeat split. Qed.





End Reports.

(* ===================================================================== *)
(** ** Parsing: failure, document order, several suites *)
(* ===================================================================== *)

Section ParsingMore.
Import ElementTree Builtins Analyzer Spec.

Variable int_of_str : string -> option Z.
Variable float_of_str : string -> option Builtins.float.

Lemma int_attr_converts (e : Element) (key : string) (z : Z) :
  int_attr int_of_str e key = Some z -> converts int_of_str e [key].
Proof.
  unfold int_attr, converts. intros H k s [<-|[]] E. rewrite E in H. congruence.
Qed.

Lemma float_attr_converts (e : Element) (key : string) (q : float) :
  float_attr float_of_str e key = Some q -> converts float_of_str e [key].
Proof.
  unfold float_attr, converts. intros H k s [<-|[]] E. rewrite E in H. congruence.
Qed.

Lemma parse_testcase_converts (tc : Element) (cd : case_data) :
  parse_testcase float_of_str tc = Some cd -> converts float_of_str tc ["time"].
Proof.
  unfold parse_testcase.
  destruct (float_attr float_of_str tc "time") as [q|] eqn:E; [|discriminate].
  intros _. eapply float_attr_converts. exact E.
Qed.

Lemma parse_junit_xml_defined (root : Element) :
  converts int_of_str (Analyzer.select_testsuite root)
    ["tests"; "failures"; "errors"; "skipped"] ->
  converts float_of_str (Analyzer.select_testsuite root) ["time"] ->
  (forall tc,
      In tc (findall_descendants (Analyzer.select_testsuite root) "testcase") ->
      converts float_of_str tc ["time"]) ->
  exists sd, parse_junit_xml int_of_str float_of_str root = Some sd.
Proof.
  intros Hi Hf Hc. unfold parse_junit_xml.
  set (ts := Analyzer.select_testsuite root) in *.
  destruct (int_attr_defined int_of_str ts _ "tests" Hi) as [t [Et _]];
    [simpl; tauto|].
  destruct (int_attr_defined int_of_str ts _ "failures" Hi) as [f [Ef _]];
    [simpl; tauto|].
  destruct (int_attr_defined int_of_str ts _ "errors" Hi) as [e [Ee _]];
    [simpl; tauto|].
  destruct (int_attr_defined int_of_str ts _ "skipped" Hi) as [k [Ek _]];
    [simpl; tauto|].
  destruct (float_attr_defined float_of_str ts _ "time" Hf) as [q [Eq _]];
    [simpl; tauto|].
  destruct (map_opt_defined (parse_testcase float_of_str) (fun _ _ => True)
              (findall_descendants ts "testcase")) as [cases [Ec _]].
  { intros tc Hin.
    destruct (parse_testcase_defined float_of_str tc (Hc tc Hin)) as [cd [Hcd _]].
    now exists cd. }
  rewrite Et, Ef, Ee, Ek, Eq. simpl. rewrite Ec. simpl.
  eexists. reflexivity.
Qed.

(** X8: [parse_junit_xml] returns a populated record exactly when every
    numeric attribute that is present converts: the four counts and the
    time of the suite element, and the time of every case element.  One
    attribute that does not convert, on the suite or on any single case,
    makes the whole file parse to the empty dictionary. *)
Theorem X8_parse_fails_iff_unconvertible (root : Element) :
  let ts := Analyzer.select_testsuite root in
  let all_convert :=
    converts int_of_str ts ["tests"; "failures"; "errors"; "skipped"]
    /\ converts float_of_str ts ["time"]
    /\ forall tc, In tc (findall_descendants ts "testcase") ->
                  converts float_of_str tc ["time"] in
  ((exists sd, parse_junit_xml int_of_str float_of_str root = Some sd)
   <-> all_convert)
  /\ (parse_junit_xml int_of_str float_of_str root = None <-> ~ all_convert).
Proof.
  cbn zeta.
  set (ts := Analyzer.select_testsuite root).
  assert (Hfwd : forall sd,
             parse_junit_xml int_of_str float_of_str root = Some sd ->
             converts int_of_str ts ["tests"; "failures"; "errors"; "skipped"]
             /\ converts float_of_str ts ["time"]
             /\ forall tc, In tc (findall_descendants ts "testcase") ->
                           converts float_of_str tc ["time"]).
  { intros sd H. pose proof (parse_junit_xml_testcases _ _ _ _ H) as Hcases.
    fold ts in Hcases. unfold parse_junit_xml in H. fold ts in H.
    destruct (int_attr int_of_str ts "tests") eqn:E1; [|discriminate].
    destruct (int_attr int_of_str ts "failures") eqn:E2; [|discriminate].
    destruct (int_attr int_of_str ts "errors") eqn:E3; [|discriminate].
    destruct (int_attr int_of_str ts "skipped") eqn:E4; [|discriminate].
    destruct (float_attr float_of_str ts "time") eqn:E5; [|discriminate].
    split.
    { intros key s Hin Eg.
      destruct Hin as [<-|[<-|[<-|[<-|[]]]]].
      - eapply (int_attr_converts _ _ _ E1); [now left|exact Eg].
      - eapply (int_attr_converts _ _ _ E2); [now left|exact Eg].
      - eapply (int_attr_converts _ _ _ E3); [now left|exact Eg].
      - eapply (int_attr_converts _ _ _ E4); [now left|exact Eg]. }
    split; [eapply float_attr_converts; exact E5|].
    intros tc Hin. clear H.
    induction Hcases as [|x y l l' Hxy _ IH]; [destruct Hin|].
    destruct Hin as [->|Hin]; [|now apply IH].
    eapply parse_testcase_converts. exact Hxy. }
  assert (Hbwd :
            converts int_of_str ts ["tests"; "failures"; "errors"; "skipped"]
            /\ converts float_of_str ts ["time"]
            /\ (forall tc, In tc (findall_descendants ts "testcase") ->
                           converts float_of_str tc ["time"]) ->
            exists sd, parse_junit_xml int_of_str float_of_str root = Some sd).
  { intros (H1 & H2 & H3).
    now apply parse_junit_xml_defined. }
  split.
  - split; [intros [sd H]; now apply (Hfwd sd)|exact Hbwd].
  - split.
    + intros Hn Hall. destruct (Hbwd Hall) as [sd H]. congruence.
    + intros Hn.
      destruct (parse_junit_xml int_of_str float_of_str root) as [sd|] eqn:E;
        [|reflexivity].
      exfalso. apply Hn. now apply (Hfwd sd).
Qed.

(** X9: of a document only the first [testsuite] element is read.  When a
    suite element that nests no further suite is the first child of the
    root, the document parses to the record of that suite alone, whatever
    follows it: the counts and the cases of later suites are ignored, and a
    wrapped suite parses like the bare one. *)
Theorem X9_only_first_suite_is_read (t : string) (a : list (string * string))
    (x : option string) (ts : Element) (others : list Element) :
  tag ts = "testsuite" ->
  ~ has_nested ts "testsuite" ->
  parse_junit_xml int_of_str float_of_str (mkElement t a x (ts :: others))
  = parse_junit_xml int_of_str float_of_str ts.
Proof.
  intros Ht Hn. unfold parse_junit_xml.
  rewrite (analyzer_select_root ts Hn).
  assert (E : Analyzer.select_testsuite (mkElement t a x (ts :: others)) = ts).
  { unfold Analyzer.select_testsuite, find_descendant.
    cbn [descendants]. cbn [List.find]. now rewrite Ht. }
  now rewrite E.
Qed.

(** X10: a parsed record lists one case per [testcase] element below the
    suite element, in document order; each case keeps the name and the
    class name of its element (the empty string when absent), and its
    failure key holds the text of the element's first failure child. *)
Theorem X10_cases_in_document_order (root : Element) (sd : suite_data) :
  parse_junit_xml int_of_str float_of_str root = Some sd ->
  let cases := findall_descendants (Analyzer.select_testsuite root) "testcase" in
  List.length (s_testcases sd) = List.length cases
  /\ map c_name (s_testcases sd) = map (fun tc => str_attr tc "name" "") cases
  /\ map c_classname (s_testcases sd)
     = map (fun tc => str_attr tc "classname" "") cases
  /\ map c_failure (s_testcases sd)
     = map (fun tc => option_map text (find tc "failure")) cases.
Proof.
  intros H. apply parse_junit_xml_testcases in H. cbn zeta.
  induction H as [|tc cd tcs cds Hp _ IH]; [repeat split|].
  destruct IH as (IH1 & IH2 & IH3 & IH4).
  cbn [List.length map]. rewrite IH1, IH2, IH3, IH4.
  unfold parse_testcase in Hp.
  destruct (float_attr float_of_str tc "time") as [q|]; [|discriminate].
  cbn in Hp.
  destruct (find tc "failure") as [f|];
    [|destruct (find tc "error") as [e|];
      [|destruct (find tc "skipped") as [k|]]];
    inversion Hp; subst cd; cbn; repeat split.
Qed.

End ParsingMore.

Lemma X9_only_first_suite_is_read_witness :
  ElementTree.tag MoreExamples.first_suite = "testsuite"
  /\ ~ Spec.has_nested MoreExamples.first_suite "testsuite"
  /\ Analyzer.parse_junit_xml Builtins.dec_int Builtins.dec_float
       MoreExamples.two_suite_doc
     = Analyzer.parse_junit_xml Builtins.dec_int Builtins.dec_float
         MoreExamples.first_suite
  /\ option_map Analyzer.s_tests
       (Analyzer.parse_junit_xml Builtins.dec_int Builtins.dec_float
          MoreExamples.two_suite_doc) = Some 3.
Proof.
  assert (H : ~ Spec.has_nested MoreExamples.first_suite "testsuite").
  { apply find_descendant_none. reflexivity. }
  split; [reflexivity|]. split; [exact H|]. split; [|reflexivity].
  exact (X9_only_first_suite_is_read Builtins.dec_int Builtins.dec_float
           "testsuites" [] None MoreExamples.first_suite
           [MoreExamples.second_suite] eq_refl H).
Defined.

Lemma X10_cases_in_document_order_witness :
  exists sd,
    Analyzer.parse_junit_xml Builtins.dec_int Builtins.dec_float
      MoreExamples.two_suite_doc = Some sd
    /\ map Analyzer.c_name (Analyzer.s_testcases sd) = ["ok"; "bad"; "broken"]
    /\ (let cases :=
          ElementTree.findall_descendants
            (Analyzer.select_testsuite MoreExamples.two_suite_doc) "testcase" in
        List.length (Analyzer.s_testcases sd) = List.length cases
        /\ map Analyzer.c_name (Analyzer.s_testcases sd)
           = map (fun tc => Analyzer.str_attr tc "name" "") cases
        /\ map Analyzer.c_classname (Analyzer.s_testcases sd)
           = map (fun tc => Analyzer.str_attr tc "classname" "") cases
        /\ map Analyzer.c_failure (Analyzer.s_testcases sd)
           = map (fun tc => option_map ElementTree.text
                              (ElementTree.find tc "failure")) cases).
Proof.
  eexists. split; [reflexivity|]. split; [reflexivity|].
  apply (X10_cases_in_document_order Builtins.dec_int Builtins.dec_float
           MoreExamples.two_suite_doc).
  reflexivity.
Defined.

(* ===================================================================== *)
(** ** The quick status: totals, file order, unreadable files *)
(* ===================================================================== *)

Section QuickMore.
Import ElementTree Builtins QuickStatus QuickFailed QuickSpec.

Variable int_of_str : string -> option Z.
Variable float_of_str : string -> option Builtins.float.

Lemma sumZ_shift (xs : list Z) (a : Z) : fold_left Z.add xs a = a + sumZ xs.
Proof. unfold sumZ. apply fold_left_add_shift. Qed.

(** The loop over the files adds up what the readable files hold. *)
Lemma check_files_totals (files : list (option Element)) (acc : totals) :
  let t := fold_left (check_file int_of_str float_of_str) files acc in
  let rs := readings int_of_str float_of_str files in
  total_tests t = total_tests acc + sumZ (map reading_tests rs)
  /\ total_failures t = total_failures acc + sumZ (map reading_failures rs)
  /\ total_errors t = total_errors acc + sumZ (map reading_errors rs)
  /\ total_time t = fold_left fadd (map reading_time rs) (total_time acc).
Proof.
  revert acc. induction files as [|file files IH]; intros acc; cbn zeta.
  - cbn. unfold sumZ. cbn. repeat split; lia.
  - cbn [fold_left]. specialize (IH (check_file int_of_str float_of_str acc file)).
    cbn zeta in IH. destruct IH as (H1 & H2 & H3 & H4).
    rewrite H1, H2, H3, H4. unfold readings. cbn [flat_map].
    unfold check_file.
    destruct file as [root|]; [|cbn [app]; repeat split].
    destruct (read_counts int_of_str float_of_str root)
      as [[[[tests failures] errors] time]|]; [|cbn [app]; repeat split].
    cbn [app map total_tests total_failures total_errors total_time fold_left].
    rewrite !sumZ_cons. unfold reading_tests, reading_failures, reading_errors,
      reading_time. cbn [fst snd]. repeat split; lia.
Qed.

(** [quick_check] on a non-empty list of files: it raises when its success
    rate is too large for a float, and reaches its verdict otherwise. *)
Lemma quick_check_verdict (files : list (option Element)) :
  files <> [] ->
  let rs := readings int_of_str float_of_str files in
  let tests := sumZ (map reading_tests rs) in
  let failures := sumZ (map reading_failures rs) in
  let errors := sumZ (map reading_errors rs) in
  (rate_overflows tests failures errors
   /\ quick_check int_of_str float_of_str files = inl OverflowError)
  \/ (~ rate_overflows tests failures errors
      /\ exists v,
           quick_check int_of_str float_of_str files = inr (Checked v)
           /\ total_tests (v_totals v) = tests
           /\ total_failures (v_totals v) = failures
           /\ total_errors (v_totals v) = errors
           /\ v_passed v = tests - failures - errors
           /\ v_success_rate v
              = (if tests >? 0
                 then (inject_Z (tests - failures - errors) / inject_Z tests * 100)%Q
                 else 0%Q)
           /\ v_all_passing v = (failures =? 0) && (errors =? 0)
           /\ v_exit v = (if (failures =? 0) && (errors =? 0) then 0 else 1)).
Proof.
  intros Hne. cbn zeta. unfold quick_check, rate_overflows.
  destruct files as [|f fs]; [congruence|].
  pose proof (check_files_totals (f :: fs) (mkTotals 0 0 0 (Finite 0))) as H.
  cbn zeta in H. cbn [total_tests total_failures total_errors total_time] in H.
  destruct H as (H1 & H2 & H3 & _).
  rewrite !Z.add_0_l in *.
  generalize dependent (fold_left (check_file int_of_str float_of_str) (f :: fs)
                          (mkTotals 0 0 0 (Finite 0))).
  intros t H1 H2 H3. rewrite <- H1, <- H2, <- H3.
  destruct (Z.gtb_spec (total_tests t) 0) as [G|G].
  - destruct (overflows (total_tests t - total_failures t - total_errors t)
                (total_tests t)) eqn:Eo.
    + left. split; [split; [lia|reflexivity]|].
      rewrite truediv_overflow by (trivial; lia). reflexivity.
    + right. split; [intros [_ F]; discriminate|].
      rewrite truediv_nonzero by (trivial; lia). cbn [bind ret Monad_either].
      eexists. split; [reflexivity|].
      cbn [v_totals v_passed v_exit v_success_rate v_all_passing].
      repeat split.
  - right. split; [intros [F _]; lia|].
    cbn [bind ret Monad_either].
    eexists. split; [reflexivity|].
    cbn [v_totals v_passed v_exit v_success_rate v_all_passing].
    repeat split.
Qed.



Lemma sumZ_perm (xs ys : list Z) : Permutation xs ys -> sumZ xs = sumZ ys.
Proof.
  induction 1 as [|x xs ys _ IH|x y xs|xs ys zs _ IH1 _ IH2].
  - reflexivity.
  - now rewrite !sumZ_cons, IH.
  - rewrite !sumZ_cons. lia.
  - congruence.
Qed.

Lemma readings_perm (files files' : list (option Element)) :
  Permutation files files' ->
  Permutation (readings int_of_str float_of_str files)
    (readings int_of_str float_of_str files').
Proof. intros H. unfold readings. now apply Permutation_flat_map. Qed.

(** X19: what [quick_check] does with the counts does not depend on the
    order in which the result files are listed: two listings of the same
    files raise the same exception, or give the same exit code and the
    same tests, failures, errors and pass counts. *)
Theorem X19_quick_verdict_ignores_file_order
    (files files' : list (option Element)) :
  Permutation files files' ->
  (forall e, quick_check int_of_str float_of_str files = inl e
             <-> quick_check int_of_str float_of_str files' = inl e)
  /\ (forall o, quick_check int_of_str float_of_str files = inr o ->
       exists o',
         quick_check int_of_str float_of_str files' = inr o'
         /\ exit_code o = exit_code o'
         /\ forall v, o = Checked v ->
              exists v', o' = Checked v'
                /\ total_tests (v_totals v') = total_tests (v_totals v)
                /\ total_failures (v_totals v') = total_failures (v_totals v)
                /\ total_errors (v_totals v') = total_errors (v_totals v)
                /\ v_passed v' = v_passed v
                /\ v_all_passing v' = v_all_passing v).
Proof.
  intros Hp. destruct files as [|f fs].
  - apply Permutation_nil in Hp. subst files'. split; [tauto|].
    intros o E. exists o. split; [exact E|]. split; [reflexivity|].
    intros v ->. discriminate E.
  - assert (Hne : files' <> []).
    { intros ->. apply Permutation_sym, Permutation_nil in Hp. discriminate. }
    pose proof (readings_perm _ _ Hp) as Hr.
    assert (P1 := sumZ_perm _ _ (Permutation_map reading_tests Hr)).
    assert (P2 := sumZ_perm _ _ (Permutation_map reading_failures Hr)).
    assert (P3 := sumZ_perm _ _ (Permutation_map reading_errors Hr)).
    destruct (quick_check_verdict (f :: fs))
      as [[Ho E]|[Hno (v & E & H1 & H2 & H3 & H5 & _ & H7 & H8)]];
      [discriminate| |];
      (destruct (quick_check_verdict files' Hne)
        as [[Ho' E']|[Hno' (v' & E' & H1' & H2' & H3' & H5' & _ & H7' & H8')]]);
      cbn zeta in *; rewrite E, E'.
    + split; [tauto|]. intros o F. discriminate.
    + exfalso. apply Hno'. now rewrite <- P1, <- P2, <- P3.
    + exfalso. apply Hno. now rewrite P1, P2, P3.
    + split; [split; discriminate|].
      intros o Eo. inversion Eo; subst o; clear Eo.
      exists (Checked v'). split; [reflexivity|].
      split; [cbn; rewrite H8, H8', P2, P3; reflexivity|].
      intros v0 Hv0. inversion Hv0; subst v0. exists v'.
      split; [reflexivity|].
      rewrite H1, H2, H3, H5, H7, H1', H2', H3', H5', H7', P1, P2, P3.
      repeat split.
Qed.

(** X20: when result files exist but none of them can be read (each fails
    to parse, or holds an attribute that does not convert), [quick_check]
    still reaches a verdict: 0 tests, success rate 0, "all tests passing"
    and exit code 0. *)
Theorem X20_unreadable_files_pass (files : list (option Element)) :
  files <> [] ->
  readings int_of_str float_of_str files = [] ->
  exists v,
    quick_check int_of_str float_of_str files = inr (Checked v)
    /\ total_tests (v_totals v) = 0
    /\ v_passed v = 0
    /\ v_success_rate v = 0%Q
    /\ v_all_passing v = true
    /\ v_exit v = 0.
Proof.
  intros Hne Hr.
  destruct (quick_check_verdict files Hne)
    as [[[Ho _] _]|[_ (v & E & H1 & _ & _ & H5 & H6 & H7 & H8)]];
    rewrite Hr in *.
  - cbn in Ho. lia.
  - exists v. repeat split; assumption.
Qed.

End QuickMore.



Lemma X19_quick_verdict_ignores_file_order_witness :
  exists o',
    QuickStatus.quick_check Builtins.dec_int Builtins.dec_float
      [Some MoreExamples.first_suite; Some Examples.partial_suite] = inr o'
    /\ QuickStatus.exit_code o' = 1.
Proof.
  destruct (X19_quick_verdict_ignores_file_order Builtins.dec_int
              Builtins.dec_float
              [Some Examples.partial_suite; Some MoreExamples.first_suite]
              [Some MoreExamples.first_suite; Some Examples.partial_suite]
              (perm_swap _ _ _))
    as [_ H].
  destruct (H _ eq_refl) as (o' & E' & Hx & _).
  exists o'. split; [exact E'|]. rewrite <- Hx. reflexivity.
Defined.

Lemma X20_unreadable_files_pass_witness :
  exists v,
    QuickStatus.quick_check Builtins.dec_int Builtins.dec_float
      [None; Some MoreExamples.unconvertible_suite] = inr (QuickStatus.Checked v)
    /\ QuickStatus.total_tests (QuickStatus.v_totals v) = 0
    /\ QuickStatus.v_passed v = 0
    /\ QuickStatus.v_success_rate v = 0%Q
    /\ QuickStatus.v_all_passing v = true
    /\ QuickStatus.v_exit v = 0.
Proof.
  apply (X20_unreadable_files_pass Builtins.dec_int Builtins.dec_float
           [None; Some MoreExamples.unconvertible_suite]).
  - discriminate.
  - reflexivity.
Defined.

(* ===================================================================== *)
(** ** The failed tests of the quick status and of the analyzer *)
(* ===================================================================== *)

Section FailedLines.
Import ElementTree Builtins Analyzer Spec QuickFailed QuickSpec ElementInduction.

Variable int_of_str : string -> option Z.
Variable float_of_str : string -> option Builtins.float.

Lemma descendants_flat_map (t : string) (a : list (string * string))
    (x : option string) (cs : list Element) :
  descendants (mkElement t a x cs) = flat_map (fun c => c :: descendants c) cs.
Proof.
  cbn [descendants]. induction cs as [|c cs IH]; [reflexivity|].
  cbn [flat_map app]. now rewrite IH.
Qed.

(** In document order the descendants of an element form one block, right
    after the element, among the descendants of any element above it. *)
Lemma descendants_block (root ts : Element) :
  In ts (descendants root) ->
  exists pre post, descendants root = pre ++ ts :: descendants ts ++ post.
Proof.
  revert ts. induction root as [t a x cs IH] using Element_forall_ind.
  intros ts. rewrite descendants_flat_map.
  induction IH as [|c cs Hc _ IHcs]; [intros []|].
  cbn [flat_map app]. intros [->|Hin].
  - exists [], (flat_map (fun c => c :: descendants c) cs). reflexivity.
  - apply in_app_or in Hin. destruct Hin as [Hin|Hin].
    + destruct (Hc ts Hin) as [pre [post E]].
      exists (c :: pre), (post ++ flat_map (fun c => c :: descendants c) cs).
      rewrite E. cbn [app]. f_equal. rewrite <- !app_assoc. cbn [app].
      now rewrite <- app_assoc.
    + destruct (IHcs Hin) as [pre [post E]].
      exists (c :: descendants c ++ pre), post.
      rewrite E. cbn [app]. f_equal. now rewrite <- app_assoc.
Qed.

Lemma failed_lines_block (root ts : Element) :
  In ts (descendants root) ->
  exists pre post, failed_lines root = pre ++ failed_lines ts ++ post.
Proof.
  intros Hin. destruct (descendants_block root ts Hin) as [pre [post E]].
  unfold failed_lines, findall_descendants. rewrite E.
  set (p := fun c : Element => String.eqb (tag c) "testcase").
  rewrite filter_app. cbn [filter]. rewrite filter_app.
  destruct (p ts).
  - exists (flat_map failed_line_of (filter p pre) ++ failed_line_of ts),
      (flat_map failed_line_of (filter p post)).
    rewrite flat_map_app. cbn [flat_map]. rewrite flat_map_app.
    now rewrite <- !app_assoc.
  - exists (flat_map failed_line_of (filter p pre)),
      (flat_map failed_line_of (filter p post)).
    now rewrite !flat_map_app.
Qed.

(** One [testcase] element, as the analyzer records it and as the quick
    status lists it. *)
Lemma case_and_line (tc : Element) (cd : case_data) :
  parse_testcase float_of_str tc = Some cd ->
  if status_eqb (c_status cd) failed || status_eqb (c_status cd) error
  then exists l, failed_line_of tc = [l] /\ same_case cd l
  else failed_line_of tc = [].
Proof.
  unfold parse_testcase, failed_line_of, same_case.
  destruct (float_attr float_of_str tc "time") as [q|]; [|discriminate].
  cbn [bind ret Monad_option].
  assert (Hname : str_attr tc "name" "Unknown" = str_attr tc "name" ""
                  \/ (str_attr tc "name" "" = ""
                      /\ str_attr tc "name" "Unknown" = "Unknown")).
  { unfold str_attr. destruct (get tc "name"); [now left|now right]. }
  destruct (find tc "failure") as [f|].
  { intros H. inversion H; subst cd; clear H. cbn.
    eexists. split; [reflexivity|]. cbn. repeat split; trivial. }
  destruct (find tc "error") as [e|].
  { intros H. inversion H; subst cd; clear H. cbn.
    eexists. split; [reflexivity|]. cbn.
    split; [split; discriminate|]. split; trivial. }
  destruct (find tc "skipped") as [k|];
    intros H; inversion H; subst cd; reflexivity.
Qed.

Lemma cases_and_lines (tcs : list Element) (cds : list case_data) :
  Forall2 (fun tc cd => parse_testcase float_of_str tc = Some cd) tcs cds ->
  Forall2 same_case
    (filter (fun c => status_eqb (c_status c) failed
                      || status_eqb (c_status c) error) cds)
    (flat_map failed_line_of tcs).
Proof.
  induction 1 as [|tc cd tcs cds Hp _ IH]; [constructor|].
  cbn [filter flat_map]. apply case_and_line in Hp.
  destruct (status_eqb (c_status cd) failed || status_eqb (c_status cd) error).
  - destruct Hp as [l [-> Hl]]. cbn [app]. now constructor.
  - rewrite Hp. exact IH.
Qed.

Lemma show_failed_tests_app (a b : list (option Element)) :
  show_failed_tests (a ++ b) = show_failed_tests a ++ show_failed_tests b.
Proof. unfold show_failed_tests. apply flat_map_app. Qed.

(** X21: every failed or errored case that the analyzer records for a
    file is in the list that [show_failed_tests] builds when the file is
    among those it reads (the files named [*_test_results.xml]), in the
    same order and as one block, with the same kind of marker, the last
    component of the class name and the same name, except that a case
    without a name is listed as "Unknown" where the analyzer records the
    empty string.  The list can hold more, since every case of the
    document is looked at and not only those of the first suite; when the
    document nests no suite the block of the file describes the same
    cases.  What [main] prints is this list: the cases of
    [test_results.xml] are never listed. *)
Theorem X21_quick_lists_what_analyzer_records
    (before after : list (option Element)) (root : Element) (sd : suite_data) :
  parse_junit_xml int_of_str float_of_str root = Some sd ->
  let starred := before ++ Some root :: after in
  (exists pre mid post,
      show_failed_tests starred = pre ++ mid ++ post
      /\ Forall2 same_case (failing sd) mid)
  /\ (~ has_nested root "testsuite" ->
      exists mid,
        show_failed_tests starred
        = show_failed_tests before ++ mid ++ show_failed_tests after
        /\ Forall2 same_case (failing sd) mid)
  /\ (forall failed_flag bare lines code,
        QuickFailed.main int_of_str float_of_str failed_flag starred bare
        = inr (Some lines, code) ->
        lines = show_failed_tests starred).
Proof.
  intros H. cbn zeta. apply parse_junit_xml_testcases in H.
  apply cases_and_lines in H. fold (failing sd) in H.
  fold (failed_lines (Analyzer.select_testsuite root)) in H.
  assert (Hs : show_failed_tests (before ++ Some root :: after)
               = show_failed_tests before ++ failed_lines root
                 ++ show_failed_tests after).
  { rewrite show_failed_tests_app. reflexivity. }
  split; [|split].
  - rewrite Hs. unfold Analyzer.select_testsuite in *.
    destruct (find_descendant root "testsuite") as [ts|] eqn:E.
    + apply find_descendant_some in E. destruct E as [Hin _].
      destruct (failed_lines_block root ts Hin) as [pre [post Hb]].
      exists (show_failed_tests before ++ pre), (failed_lines ts),
        (post ++ show_failed_tests after).
      split; [|exact H]. rewrite Hb. now rewrite <- !app_assoc.
    + exists (show_failed_tests before), (failed_lines root),
        (show_failed_tests after). now split.
  - intros Hn. rewrite (analyzer_select_root root Hn) in H.
    exists (failed_lines root). now split.
  - intros failed_flag bare lines code. unfold QuickFailed.main.
    destruct (QuickStatus.quick_check int_of_str float_of_str _) as [e|o];
      [discriminate|].
    cbn [bind ret Monad_either].
    destruct failed_flag; [intros E; now inversion E|].
    destruct (negb (QuickStatus.exit_code o =? 0)); intros E; inversion E.
    reflexivity.
Qed.

End FailedLines.

Lemma X21_quick_lists_what_analyzer_records_witness :
  exists sd,
    Analyzer.parse_junit_xml Builtins.dec_int Builtins.dec_float
      MoreExamples.two_suite_doc = Some sd
    /\ map QuickFailed.fl_name
         (QuickFailed.show_failed_tests [None; Some MoreExamples.two_suite_doc])
       = ["bad"; "broken"]
    /\ (exists pre mid post,
           QuickFailed.show_failed_tests [None; Some MoreExamples.two_suite_doc]
           = pre ++ mid ++ post
           /\ Forall2 QuickSpec.same_case (QuickSpec.failing sd) mid).
Proof.
  eexists. split; [reflexivity|]. split; [reflexivity|].
  apply (X21_quick_lists_what_analyzer_records Builtins.dec_int Builtins.dec_float
           [None] [] MoreExamples.two_suite_doc).
  reflexivity.
Defined.

(* ===================================================================== *)
(** ** Loading the result files *)
(* ===================================================================== *)

Section Loading.
Import ElementTree Builtins Analyzer AnalyzerFlow LoadSpec.

Variable int_of_str : string -> option Z.
Variable float_of_str : string -> option Builtins.float.

Lemma prefix_occurs (old s : string) (c : ascii) :
  String.prefix old s = true -> occurs c old = true -> occurs c s = true.
Proof.
  revert s. induction old as [|a old IH]; intros s Hp Hc; [discriminate|].
  destruct s as [|b s]; [discriminate|]. cbn [String.prefix] in Hp.
  destruct (ascii_dec a b) as [->|]; [|discriminate].
  cbn in Hc |- *. destruct (Ascii.eqb b c); [reflexivity|]. cbn in *.
  now apply IH.
Qed.

Lemma no_underscore_occurs (s : string) :
  no_underscore s = true -> occurs "_"%char s = false.
Proof.
  induction s as [|c s IH]; [reflexivity|]. cbn.
  destruct (Ascii.eqb c "_"); cbn; [discriminate|exact IH].
Qed.

(** Without an underscore there is nothing to replace in the second
    step. *)
Lemma replace_general_id (p : string) :
  no_underscore p = true -> replace_from "test_results" "general" p 0 = p.
Proof.
  induction p as [|c p IH]; [reflexivity|]. intros Hn.
  cbn [replace_from].
  destruct (String.prefix "test_results" (String c p)) eqn:Ep.
  - apply no_underscore_occurs in Hn.
    rewrite (prefix_occurs _ _ "_"%char Ep eq_refl) in Hn. discriminate.
  - f_equal. apply IH. cbn in Hn. now apply andb_true_iff in Hn.
Qed.

Lemma replace_suffix (p : string) :
  no_underscore p = true ->
  replace_from "_test_results" "" (p ++ "_test_results") 0 = p.
Proof.
  induction p as [|c p IH]; [reflexivity|]. intros Hn.
  cbn in Hn. apply andb_true_iff in Hn. destruct Hn as [Hc Hn].
  change ((String c p ++ "_test_results")%string)
    with (String c (p ++ "_test_results")%string).
  cbn [replace_from].
  assert (Ep : String.prefix "_test_results" (String c (p ++ "_test_results")) = false).
  { cbn [String.prefix].
    destruct (ascii_dec "_" c) as [<-|]; [cbn in Hc; discriminate|reflexivity]. }
  rewrite Ep. f_equal. now apply IH.
Qed.

(** X15: a result file named [<type>_test_results.xml] is loaded under the
    key [<type>] whenever [<type>] has no underscore, and the file named
    [test_results.xml] under the key "general". *)
Theorem X15_test_type_of_file_name (p : string) :
  no_underscore p = true ->
  test_type (p ++ "_test_results") = p
  /\ test_type "test_results" = "general".
Proof.
  intros Hn. split; [|reflexivity].
  unfold test_type, replace. rewrite (replace_suffix p Hn).
  now apply replace_general_id.
Qed.

Lemma X15_test_type_of_file_name_witness :
  test_type "integration_test_results" = "integration"
  /\ test_type "test_results" = "general".
Proof.
  exact (X15_test_type_of_file_name "integration" eq_refl).
Defined.

Lemma dict_get_set (d : results_map) (key key' : string) (value : suite_dict) :
  dict_get (dict_set d key value) key'
  = if String.eqb key key' then Some value else dict_get d key'.
Proof.
  unfold dict_get. induction d as [|[k v] d IH]; cbn [dict_set List.find fst].
  - destruct (String.eqb key key'); reflexivity.
  - destruct (String.eqb_spec k key) as [->|Hk]; cbn [List.find fst].
    + destruct (String.eqb key key'); reflexivity.
    + destruct (String.eqb_spec k key') as [->|Hk'].
      * destruct (String.eqb_spec key key') as [->|]; [congruence|reflexivity].
      * exact IH.
Qed.

Lemma in_keys_set (d : results_map) (key key' : string) (value : suite_dict) :
  In key' (map fst (dict_set d key value))
  <-> key' = key \/ In key' (map fst d).
Proof.
  induction d as [|[k v] d IH]; cbn [dict_set map fst In].
  - intuition.
  - destruct (String.eqb_spec k key) as [->|Hk]; cbn [map fst In].
    + intuition.
    + rewrite IH. intuition.
Qed.

Lemma nodup_keys_set (d : results_map) (key : string) (value : suite_dict) :
  NoDup (map fst d) -> NoDup (map fst (dict_set d key value)).
Proof.
  induction d as [|[k v] d IH]; cbn [dict_set map fst]; intros H.
  - constructor; [intros []|constructor].
  - inversion H as [|? ? Hnin Hnd]; subst.
    destruct (String.eqb_spec k key) as [->|Hk]; cbn [map fst].
    + now constructor.
    + constructor; [|now apply IH].
      rewrite in_keys_set. intros [->|Hin]; [congruence|contradiction].
Qed.

Lemma find_snoc {A} (f : A -> bool) (l : list A) (x : A) :
  List.find f (l ++ [x])
  = match List.find f l with
    | Some y => Some y
    | None => if f x then Some x else None
    end.
Proof.
  induction l as [|y l IH]; cbn; [reflexivity|].
  destruct (f y); [reflexivity|exact IH].
Qed.

Lemma load_from (files : list (string * option Element)) (d : results_map)
    (key : string) :
  let loaded :=
    fold_left (fun results file =>
                 dict_set results (test_type (fst file))
                   (parse_file int_of_str float_of_str (snd file))) files d in
  (NoDup (map fst d) -> NoDup (map fst loaded))
  /\ dict_get loaded key
     = match List.find (fun file => String.eqb (test_type (fst file)) key)
               (rev files) with
       | Some file => Some (parse_file int_of_str float_of_str (snd file))
       | None => dict_get d key
       end.
Proof.
  revert d. induction files as [|file files IH]; intros d; cbn zeta.
  - split; [tauto|reflexivity].
  - cbn [fold_left rev]. specialize (IH (dict_set d (test_type (fst file))
                                           (parse_file int_of_str float_of_str
                                              (snd file)))).
    cbn zeta in IH. destruct IH as [IH1 IH2]. split.
    + intros H. apply IH1. now apply nodup_keys_set.
    + rewrite IH2, find_snoc.
      destruct (List.find _ (rev files)); [reflexivity|].
      rewrite dict_get_set.
      now destruct (String.eqb (test_type (fst file)) key).
Qed.

(** X16: the mapping that [load_all_results] builds has no repeated key,
    and under each key it holds the parse of the last file listed with
    that test type: when two files share a test type the later one
    replaces the earlier, and a key that no file has is absent. *)
Theorem X16_load_keeps_last_file_per_type
    (files : list (string * option Element)) :
  NoDup (map fst (load_all_results int_of_str float_of_str files))
  /\ forall key,
       dict_get (load_all_results int_of_str float_of_str files) key
       = option_map (fun file => parse_file int_of_str float_of_str (snd file))
           (List.find (fun file => String.eqb (test_type (fst file)) key)
              (rev files)).
Proof.
  unfold load_all_results. split.
  - apply (load_from files [] ""). constructor.
  - intros key. destruct (load_from files [] key) as [_ H]. rewrite H.
    now destruct (List.find _ (rev files)).
Qed.

End Loading.

(* ===================================================================== *)
(** ** The analyzer's [analyze] and [main] *)
(* ===================================================================== *)

Section Analyze.
Import ElementTree Builtins Analyzer AnalyzerFlow ReportSpec.

Variable int_of_str : string -> option Z.
Variable float_of_str : string -> option Builtins.float.
















(** Result files whose counts make the percentage too large for a float:
    one test and 10^400 negative failures.  The text report raises
    [OverflowError] and [main] exits with 1. *)
Example analyzer_overflow :
  generate_summary_report MoreExamples.huge_counts = inl OverflowError
  /\ generate_html_report MoreExamples.huge_counts = inl OverflowError.
Proof. split; vm_compute; reflexivity. Qed.

End Analyze.

(* ===================================================================== *)
(** ** The dashboard's watch on the result files *)
(* ===================================================================== *)

Section Watch.
Import Dashboard.

Variable getmtime : string -> option Q.

Let mtime := get_file_mtime getmtime.
Let step := check_file getmtime.

(** The file is recorded with a time that is not older than its current
    one. *)
Let up_to_date (d : last_update) (f : string) : Prop :=
  exists seen, d f = Some seen /\ (mtime f <= seen)%Q.

(** The file is new to the dictionary, or newer than what it holds. *)
Let changed (d : last_update) (f : string) : Prop :=
  d f = None \/ exists seen, d f = Some seen /\ (seen < mtime f)%Q.

Lemma check_file_cases (updated : bool) (d : last_update) (f : string) :
  (changed d f /\ step (updated, d) f = (true, set d f (mtime f)))
  \/ (up_to_date d f /\ step (updated, d) f = (updated, d)).
Proof.
  unfold step, check_file, changed, up_to_date. fold mtime.
  destruct (d f) as [seen|] eqn:E.
  - destruct (Qle_bool (mtime f) seen) eqn:L; cbn.
    + right. split; [|reflexivity]. exists seen. split; [reflexivity|].
      now apply Qle_bool_iff.
    + left. split; [|reflexivity]. right. exists seen. split; [reflexivity|].
      apply Qnot_le_lt. intros H. apply Qle_bool_iff in H. congruence.
  - left. split; [now left|reflexivity].
Qed.

Lemma set_up_to_date (d : last_update) (f g : string) :
  up_to_date d g \/ g = f -> up_to_date (set d f (mtime f)) g.
Proof.
  unfold up_to_date, set. intros H.
  destruct (String.eqb_spec g f) as [->|Hne].
  - exists (mtime f). split; [reflexivity|apply Qle_refl].
  - destruct H as [H|H]; [exact H|contradiction].
Qed.

(** After the loop every listed file is up to date, and a file that was up
    to date stays so. *)
Lemma check_files_up_to_date (files : list string) (updated : bool)
    (d : last_update) (g : string) :
  up_to_date d g \/ In g files ->
  up_to_date (snd (fold_left step files (updated, d))) g.
Proof.
  revert updated d. induction files as [|f files IH]; intros updated d H.
  - destruct H as [H|[]]. exact H.
  - cbn [fold_left].
    destruct (check_file_cases updated d f) as [[_ E]|[Hf E]]; rewrite E; apply IH.
    + destruct H as [H|[->|H]]; [| |now right].
      * left. apply set_up_to_date. now left.
      * left. apply set_up_to_date. now right.
    + destruct H as [H|[->|H]]; [now left|now left|now right].
Qed.

(** On files that are all up to date the loop changes nothing. *)
Lemma check_files_unchanged (files : list string) (updated : bool)
    (d : last_update) :
  (forall f, In f files -> up_to_date d f) ->
  fold_left step files (updated, d) = (updated, d).
Proof.
  revert updated d. induction files as [|f files IH]; intros updated d H.
  - reflexivity.
  - cbn [fold_left].
    destruct (check_file_cases updated d f) as [[Hc E]|[_ E]]; rewrite E.
    + exfalso. destruct (H f (or_introl eq_refl)) as [seen [Es Hs]].
      destruct Hc as [Hc|[seen' [Es' Hs']]]; [congruence|].
      assert (seen' = seen) by congruence. subst seen'.
      exact (Qlt_not_le _ _ Hs' Hs).
    + apply IH. intros g Hg. apply H. now right.
Qed.

Lemma check_files_flag (files : list string) (updated : bool) (d : last_update) :
  fst (fold_left step files (updated, d)) = true
  <-> updated = true \/ exists f, In f files /\ changed d f.
Proof.
  revert updated d. induction files as [|f files IH]; intros updated d.
  - cbn. split; [now left|]. intros [H|[f [[] _]]]. exact H.
  - cbn [fold_left].
    destruct (check_file_cases updated d f) as [[Hc E]|[Hu E]]; rewrite E, IH.
    + split; [intros _; right; exists f; split; [now left|exact Hc]|now left].
    + split.
      * intros [H|[g [Hg Hc]]]; [now left|]. right. exists g. split; [now right|exact Hc].
      * intros [H|[g [[->|Hg] Hc]]]; [now left| |].
        -- exfalso. destruct Hu as [seen [Es Hs]].
           destruct Hc as [Hc|[seen' [Es' Hs']]]; [congruence|].
           assert (seen' = seen) by congruence. subst seen'.
           exact (Qlt_not_le _ _ Hs' Hs).
        -- right. exists g. now split.
Qed.

(** X22: [check_for_updates] reports an update exactly when a listed
    file is new to the dictionary or has a modification time later than
    the one recorded (a time that cannot be read counts as 0); afterwards
    every listed file is recorded, and checking again while the files are
    unchanged reports no update and leaves the dictionary as it is. *)
Theorem X22_watch_reports_changes_once (files : list string) (d : last_update) :
  let first := check_for_updates getmtime files d in
  let second := check_for_updates getmtime files (snd first) in
  (fst first = true
   <-> exists f, In f files
                 /\ (d f = None
                     \/ exists seen, d f = Some seen
                                     /\ (seen < get_file_mtime getmtime f)%Q))
  /\ (forall f, In f files ->
                exists seen, snd first f = Some seen
                             /\ (get_file_mtime getmtime f <= seen)%Q)
  /\ second = (false, snd first).
Proof.
  cbn zeta. unfold check_for_updates. fold step. split.
  - rewrite check_files_flag. split.
    + intros [H|H]; [discriminate|exact H].
    + intros H. now right.
  - split.
    + intros f Hf. apply (check_files_up_to_date files false d f). now right.
    + apply check_files_unchanged. intros f Hf.
      apply (check_files_up_to_date files false d f). now right.
Qed.

End Watch.

(* ===================================================================== *)
(** ** The lists of the runner's report *)
(* ===================================================================== *)

Section ReportNames.
Import Requests Runner RunSpec Flow FlowResults ReportLists.

(** The three lists of the report after the suites of a mode ran. *)
Lemma finished_lists (w : World) (m : mode) (cl vb : bool) :
  let b := forallb (suite_passes w) (suites_of m) in
  let rep := generate_report
               (finished w b (after_suites w (suites_of m)
                                (started w (test_results (init cl vb))))) in
  passed_tests rep
  = suite_names (suite_passes w) m ++ (if b then ["overall"] else [])
  /\ failed_tests rep
     = suite_names (suite_fails w) m ++ (if b then [] else ["overall"])
  /\ error_tests rep = suite_names (suite_errors w) m.
Proof.
  cbn zeta.
  destruct m;
    cbv [suites_of forallb after_suites fold_left suite_passes suite_fails
         suite_errors recorded suite_names filter];
    repeat match goal with
           | |- context [subprocess_run w ?c] =>
               destruct (subprocess_run w c) as [?returncode|]
           end;
    repeat match goal with
           | |- context [?z =? 0] => destruct (z =? 0)
           end; repeat split.
Qed.

(** Every suite is in exactly one of the three classes. *)
Lemma suite_classes (w : World) (cs : list category) :
  (List.length (filter (suite_passes w) cs)
   + List.length (filter (suite_fails w) cs)
   + List.length (filter (suite_errors w) cs))%nat
  = List.length cs.
Proof.
  induction cs as [|c cs IH]; [reflexivity|].
  cbn [filter]. unfold suite_passes, suite_fails, suite_errors in *.
  destruct (subprocess_run w c) as [returncode|];
    [destruct (returncode =? 0)|]; cbn [negb List.length]; lia.
Qed.

(** X23: the summary of the report counts the ["overall"] entry like a
    suite.  When the suites of the mode are run, the passed list holds the
    suites whose subprocess exits with 0, followed by "overall" when the
    exit code of the run is 0; the failed list holds the suites that exit
    with another code, followed by "overall" when the exit code is 1; the
    error list holds the suites that cannot be started.  The three counts
    add up to the number of suites plus one.  When the setup fails the
    three lists are empty. *)
Theorem X23_report_lists_count_overall (w : World) (m : mode) (cl vb : bool) :
  exists rep code final,
    run w m cl vb = (rep, code, final)
    /\ (needs_container m = true /\ setup_fails w ->
        passed_tests rep = [] /\ failed_tests rep = [] /\ error_tests rep = [])
    /\ (needs_container m = false \/ ~ setup_fails w ->
        passed_tests rep
        = suite_names (suite_passes w) m ++ (if code =? 0 then ["overall"] else [])
        /\ failed_tests rep
           = suite_names (suite_fails w) m ++ (if code =? 0 then [] else ["overall"])
        /\ error_tests rep = suite_names (suite_errors w) m
        /\ (List.length (passed_tests rep) + List.length (failed_tests rep)
            + List.length (error_tests rep))%nat
           = S (List.length (suites_of m))).
Proof.
  destruct (run_shape w m cl vb)
    as (rep & code & final & b & s1 & td & Hrun & E & Hcode & Hrep & Hres & _).
  exists rep, code, final. split; [exact Hrun|].
  apply run_mode_spec in E.
  destruct E as [(Hn & Hf & -> & _ & Hr & _)|(Hok & Hb & _ & Hr & _)].
  - split.
    + intros _. rewrite Hrep, Hr. repeat split.
    + intros [H|H]; [congruence|contradiction].
  - split.
    + intros [Hn Hf]. exfalso. destruct Hok as [Hok|Hok]; [congruence|contradiction].
    + intros _. rewrite Hrep, Hr, Hb.
      destruct (finished_lists w m cl vb) as (Hp & Hfl & He).
      rewrite Hp, Hfl, He, <- Hb, Hcode.
      assert (Hz : ((if b then 0 else 1) =? 0) = b) by now destruct b.
      rewrite Hz. repeat split.
      unfold suite_names. rewrite !length_app, !length_map.
      pose proof (suite_classes w (suites_of m)) as Hs.
      destruct b; cbn [List.length]; lia.
Qed.

End ReportNames.
